(** * NMIP4Config: the IPv4 configuration aggregate of NetworkManager

    A shallow embedding of [nm-ip4-config.c]: the aggregate of addresses,
    routes, name servers, domains and scalar attributes of one interface,
    its mutation primitives ([add_address], [add_route], [set_mtu], ...)
    and the reconciliation operations [capture], [commit], [merge],
    [subtract], [replace], [hash] and [equal].

    Conventions.
    - A [guint32] is a [Z] in [0, 2^32); an [int] is a [Z].
    - An [in_addr_t] is the [guint32] that holds the four address bytes in
      network order.  Where the byte order of the host matters ([ntohl],
      the bytes of a [guint32] fed to the checksum) the little-endian host
      is modelled.
    - A [GArray] or [GPtrArray] is a [list]; a nullable [char *] is an
      [option string].
    - A function that mutates the object behind its first argument returns
      the new object. *)

From Stdlib Require Import ZArith List String Ascii Bool Lia.
Import ListNotations.

#[local] Open Scope Z_scope.
#[local] Open Scope list_scope.

(** ** Machine integers and bytes *)

Definition guint32_modulus : Z := 4294967296.
Definition G_MAXUINT32 : Z := 4294967295.

Definition to_guint32 (n : Z) : Z := n mod guint32_modulus.

(** The four bytes of a [guint32] as they lie in memory (little endian). *)
Definition guint32_bytes (n : Z) : list Z :=
  let n := to_guint32 n in
  [Z.land n 255; Z.land (Z.shiftr n 8) 255;
   Z.land (Z.shiftr n 16) 255; Z.land (Z.shiftr n 24) 255].

(** [ntohl] on a little-endian host: the four bytes are swapped. *)
Definition ntohl (n : Z) : Z :=
  Z.lor (Z.shiftl (Z.land n 255) 24)
    (Z.lor (Z.shiftl (Z.land (Z.shiftr n 8) 255) 16)
       (Z.lor (Z.shiftl (Z.land (Z.shiftr n 16) 255) 8)
          (Z.land (Z.shiftr n 24) 255))).

(** The [in_addr_t] of the dotted quad [a.b.c.d]. *)
Definition inet_addr (a b c d : Z) : Z :=
  a + 256 * b + 65536 * c + 16777216 * d.

(** The bytes of a C string, without the terminating NUL. *)
Fixpoint string_bytes (s : string) : list Z :=
  match s with
  | EmptyString => []
  | String c s' => Z.of_N (N_of_ascii c) :: string_bytes s'
  end.

(** ** GChecksum with G_CHECKSUM_SHA1

    glib's checksum object is modelled by the bytes it has been fed;
    [g_checksum_get_digest] is SHA-1 (FIPS 180) of these bytes. *)

Module SHA1.

Definition w32 (x : Z) : Z := Z.land x 4294967295.
Definition add32 (x y : Z) : Z := w32 (x + y).
Definition rotl (n x : Z) : Z :=
  w32 (Z.lor (Z.shiftl x n) (Z.shiftr x (32 - n))).
Definition not32 (x : Z) : Z := Z.lxor x 4294967295.

(** Big-endian 64-bit length field. *)
Definition length_bytes (bits : Z) : list Z :=
  map (fun k => Z.land (Z.shiftr bits (8 * k)) 255) [7; 6; 5; 4; 3; 2; 1; 0].

Definition pad (msg : list Z) : list Z :=
  let len := Z.of_nat (List.length msg) in
  let zeros := Z.to_nat ((55 - len) mod 64) in
  msg ++ [128] ++ repeat 0 zeros ++ length_bytes (8 * len).

Fixpoint words (n : nat) (bs : list Z) : list Z :=
  match n, bs with
  | S n', b0 :: b1 :: b2 :: b3 :: bs' =>
      (16777216 * b0 + 65536 * b1 + 256 * b2 + b3) :: words n' bs'
  | _, _ => []
  end.

(** The message schedule, newest word first: [rev_w] holds W[t-1], W[t-2], ... *)
Fixpoint schedule (n : nat) (rev_w : list Z) : list Z :=
  match n with
  | O => rev_w
  | S n' =>
      let w := rotl 1 (Z.lxor (Z.lxor (nth 2 rev_w 0) (nth 7 rev_w 0))
                              (Z.lxor (nth 13 rev_w 0) (nth 15 rev_w 0))) in
      schedule n' (w :: rev_w)
  end.

Definition state : Type := (Z * Z * Z * Z * Z)%type.

Definition round (t : Z) (st : state) (w : Z) : state :=
  let '(a, b, c, d, e) := st in
  let '(f, k) :=
    if t <? 20 then (Z.lor (Z.land b c) (Z.land (not32 b) d), 1518500249)
    else if t <? 40 then (Z.lxor (Z.lxor b c) d, 1859775393)
    else if t <? 60 then
      (Z.lor (Z.lor (Z.land b c) (Z.land b d)) (Z.land c d), 2400959708)
    else (Z.lxor (Z.lxor b c) d, 3395469782) in
  (add32 (add32 (add32 (add32 (rotl 5 a) f) e) k) w, a, rotl 30 b, c, d).

Fixpoint rounds (t : Z) (ws : list Z) (st : state) : state :=
  match ws with
  | [] => st
  | w :: ws' => rounds (t + 1) ws' (round t st w)
  end.

Definition block (st : state) (bs : list Z) : state :=
  let ws := rev (schedule 64 (rev (words 16 bs))) in
  let '(a, b, c, d, e) := st in
  let '(a', b', c', d', e') := rounds 0 ws st in
  (add32 a a', add32 b b', add32 c c', add32 d d', add32 e e').

Fixpoint blocks (n : nat) (st : state) (bs : list Z) : state :=
  match n with
  | O => st
  | S n' => blocks n' (block st (firstn 64 bs)) (skipn 64 bs)
  end.

Definition be32 (x : Z) : list Z :=
  [Z.land (Z.shiftr x 24) 255; Z.land (Z.shiftr x 16) 255;
   Z.land (Z.shiftr x 8) 255; Z.land x 255].

Definition init : state :=
  (1732584193, 4023233417, 2562383102, 271733878, 3285377520).

Definition digest (msg : list Z) : list Z :=
  let bs := pad msg in
  let '(a, b, c, d, e) := blocks (Nat.div (List.length bs) 64) init bs in
  be32 a ++ be32 b ++ be32 c ++ be32 d ++ be32 e.

End SHA1.

(** ** Kernel record types *)

(** Modelled from the spec: the enumeration [NMIPConfigSource] is declared
    in a header outside the files modelled here.  The spec gives the
    priority order unknown < kernel-observed < dhcp < link-local <
    user-specified; as a C enumeration its values count up from zero. *)
Definition NMIPConfigSource : Type := Z.
Definition NM_IP_CONFIG_SOURCE_UNKNOWN : NMIPConfigSource := 0.
Definition NM_IP_CONFIG_SOURCE_KERNEL : NMIPConfigSource := 1.
Definition NM_IP_CONFIG_SOURCE_DHCP : NMIPConfigSource := 2.
Definition NM_IP_CONFIG_SOURCE_IP4LL : NMIPConfigSource := 3.
Definition NM_IP_CONFIG_SOURCE_USER : NMIPConfigSource := 4.

(** Modelled from the spec: the macro [NM_PLATFORM_LIFETIME_PERMANENT] is
    declared outside the files modelled here.  A lifetime is a number of seconds
    or "permanent"; the largest [guint32] stands for "permanent". *)
Definition NM_PLATFORM_LIFETIME_PERMANENT : Z := G_MAXUINT32.

(** Modelled from the spec: the structure [NMPlatformIP4Address] of this
    version is declared outside the files modelled here; these are the fields
    the spec lists and [nm-ip4-config.c] reads. *)
Record NMPlatformIP4Address : Type := mkAddress {
  addr_ifindex : Z;
  addr_source : NMIPConfigSource;
  addr_timestamp : Z;
  addr_lifetime : Z;
  addr_preferred : Z;
  addr_plen : Z;
  addr_address : Z;
  addr_label : string
}.

(** Modelled from the spec: the structure [NMPlatformIP4Route], as for
    [NMPlatformIP4Address]. *)
Record NMPlatformIP4Route : Type := mkRoute {
  route_ifindex : Z;
  route_source : NMIPConfigSource;
  route_plen : Z;
  route_metric : Z;
  route_network : Z;
  route_gateway : Z
}.

(** [MAX (a, b)] of glib: [((a) > (b)) ? (a) : (b)]. *)
Definition MAX (a b : Z) : Z := if a >? b then a else b.

(** One field of a comparison chain: decide on this field when it differs,
    go on with the remaining fields otherwise. *)
Definition cmp_field (x y : Z) (rest : Z) : Z :=
  if negb (x =? y) then (if x <? y then -1 else 1) else rest.

Definition cmp_field_str (x y : string) (rest : Z) : Z :=
  if negb (String.eqb x y)
  then (match String.compare x y with Lt => -1 | _ => 1 end)
  else rest.

(** Modelled from the spec: [nm_platform_ip4_address_cmp] lives in
    [nm-platform.c], outside the files modelled here.  It is 0 exactly when the
    two records are fully identical, field by field; the callers here only
    test the result against 0. *)
Definition nm_platform_ip4_address_cmp (a b : NMPlatformIP4Address) : Z :=
  cmp_field (addr_ifindex a) (addr_ifindex b)
  (cmp_field (addr_source a) (addr_source b)
  (cmp_field (addr_address a) (addr_address b)
  (cmp_field (addr_plen a) (addr_plen b)
  (cmp_field (addr_timestamp a) (addr_timestamp b)
  (cmp_field (addr_lifetime a) (addr_lifetime b)
  (cmp_field (addr_preferred a) (addr_preferred b)
  (cmp_field_str (addr_label a) (addr_label b) 0))))))).

(** Modelled from the spec: [nm_platform_ip4_route_cmp], as for
    [nm_platform_ip4_address_cmp]. *)
Definition nm_platform_ip4_route_cmp (a b : NMPlatformIP4Route) : Z :=
  cmp_field (route_ifindex a) (route_ifindex b)
  (cmp_field (route_source a) (route_source b)
  (cmp_field (route_network a) (route_network b)
  (cmp_field (route_plen a) (route_plen b)
  (cmp_field (route_gateway a) (route_gateway b)
  (cmp_field (route_metric a) (route_metric b) 0))))).

(** The instant at which an address expires; [None] is "never". *)
Definition address_expiry (a : NMPlatformIP4Address) : option Z :=
  if addr_lifetime a =? NM_PLATFORM_LIFETIME_PERMANENT then None
  else Some (addr_timestamp a + addr_lifetime a).

(** Modelled from the spec: [nm_platform_ip_address_cmp_expiry] lives in
    [nm-platform.c], outside the files modelled here.  It compares the computed
    expiry of two addresses (timestamp plus lifetime, a permanent lifetime
    never expiring) and is positive exactly when the first one expires
    strictly later. *)
Definition nm_platform_ip_address_cmp_expiry (a b : NMPlatformIP4Address) : Z :=
  match address_expiry a, address_expiry b with
  | None, None => 0
  | None, Some _ => 1
  | Some _, None => -1
  | Some ta, Some tb => if ta =? tb then 0 else if ta <? tb then -1 else 1
  end.

(** Modelled from the spec: the macro [NM_PLATFORM_IP_ROUTE_IS_DEFAULT] is
    declared outside the files modelled here; a default route is a route with
    prefix length 0. *)
Definition NM_PLATFORM_IP_ROUTE_IS_DEFAULT (route : NMPlatformIP4Route) : bool :=
  route_plen route =? 0.

(** ** The configuration aggregate *)

Record NMIP4Config : Type := mkConfig {
  path : option string;
  never_default : bool;
  gateway : Z;
  addresses : list NMPlatformIP4Address;
  routes : list NMPlatformIP4Route;
  nameservers : list Z;
  domains : list string;
  searches : list string;
  mss : Z;
  nis : list Z;
  nis_domain : option string;
  wins : list Z;
  mtu : Z;
  mtu_source : NMIPConfigSource
}.

(** [nm_ip4_config_new]: the private structure is zero-filled by the object
    system and [nm_ip4_config_init] allocates the empty arrays. *)
Definition nm_ip4_config_new : NMIP4Config :=
  mkConfig None false 0 [] [] [] [] [] 0 [] None [] 0 0.

Definition with_never_default (c : NMIP4Config) (v : bool) : NMIP4Config :=
  mkConfig (path c) v (gateway c) (addresses c) (routes c) (nameservers c)
    (domains c) (searches c) (mss c) (nis c) (nis_domain c) (wins c) (mtu c)
    (mtu_source c).
Definition with_gateway (c : NMIP4Config) (v : Z) : NMIP4Config :=
  mkConfig (path c) (never_default c) v (addresses c) (routes c)
    (nameservers c) (domains c) (searches c) (mss c) (nis c) (nis_domain c)
    (wins c) (mtu c) (mtu_source c).
Definition with_addresses (c : NMIP4Config) (v : list NMPlatformIP4Address)
  : NMIP4Config :=
  mkConfig (path c) (never_default c) (gateway c) v (routes c)
    (nameservers c) (domains c) (searches c) (mss c) (nis c) (nis_domain c)
    (wins c) (mtu c) (mtu_source c).
Definition with_routes (c : NMIP4Config) (v : list NMPlatformIP4Route)
  : NMIP4Config :=
  mkConfig (path c) (never_default c) (gateway c) (addresses c) v
    (nameservers c) (domains c) (searches c) (mss c) (nis c) (nis_domain c)
    (wins c) (mtu c) (mtu_source c).
Definition with_nameservers (c : NMIP4Config) (v : list Z) : NMIP4Config :=
  mkConfig (path c) (never_default c) (gateway c) (addresses c) (routes c) v
    (domains c) (searches c) (mss c) (nis c) (nis_domain c) (wins c) (mtu c)
    (mtu_source c).
Definition with_domains (c : NMIP4Config) (v : list string) : NMIP4Config :=
  mkConfig (path c) (never_default c) (gateway c) (addresses c) (routes c)
    (nameservers c) v (searches c) (mss c) (nis c) (nis_domain c) (wins c)
    (mtu c) (mtu_source c).
Definition with_searches (c : NMIP4Config) (v : list string) : NMIP4Config :=
  mkConfig (path c) (never_default c) (gateway c) (addresses c) (routes c)
    (nameservers c) (domains c) v (mss c) (nis c) (nis_domain c) (wins c)
    (mtu c) (mtu_source c).
Definition with_mss (c : NMIP4Config) (v : Z) : NMIP4Config :=
  mkConfig (path c) (never_default c) (gateway c) (addresses c) (routes c)
    (nameservers c) (domains c) (searches c) v (nis c) (nis_domain c)
    (wins c) (mtu c) (mtu_source c).
Definition with_nis (c : NMIP4Config) (v : list Z) : NMIP4Config :=
  mkConfig (path c) (never_default c) (gateway c) (addresses c) (routes c)
    (nameservers c) (domains c) (searches c) (mss c) v (nis_domain c)
    (wins c) (mtu c) (mtu_source c).
Definition with_nis_domain (c : NMIP4Config) (v : option string)
  : NMIP4Config :=
  mkConfig (path c) (never_default c) (gateway c) (addresses c) (routes c)
    (nameservers c) (domains c) (searches c) (mss c) (nis c) v (wins c)
    (mtu c) (mtu_source c).
Definition with_wins (c : NMIP4Config) (v : list Z) : NMIP4Config :=
  mkConfig (path c) (never_default c) (gateway c) (addresses c) (routes c)
    (nameservers c) (domains c) (searches c) (mss c) (nis c) (nis_domain c) v
    (mtu c) (mtu_source c).
Definition with_mtu (c : NMIP4Config) (v : Z) (s : NMIPConfigSource)
  : NMIP4Config :=
  mkConfig (path c) (never_default c) (gateway c) (addresses c) (routes c)
    (nameservers c) (domains c) (searches c) (mss c) (nis c) (nis_domain c)
    (wins c) v s.

(** ** GArray helpers *)

(** [g_array_remove_index (array, i)]. *)
Fixpoint g_array_remove_index {T : Type} (l : list T) (i : nat) : list T :=
  match l, i with
  | [], _ => []
  | _ :: l', O => l'
  | x :: l', S i' => x :: g_array_remove_index l' i'
  end.

(** The index at which a [for (j = 0; j < len; j++) if (p (item_j)) ... break;]
    loop stops, if it does. *)
Fixpoint find_index {T : Type} (p : T -> bool) (l : list T) : option nat :=
  match l with
  | [] => None
  | x :: l' => if p x then Some O else option_map S (find_index p l')
  end.

(** [g_strcmp0 (a, b) == 0] on nullable strings. *)
Definition g_strcmp0_eq (a b : option string) : bool :=
  match a, b with
  | None, None => true
  | Some x, Some y => String.eqb x y
  | _, _ => false
  end.

(** What a call did to its object: it was refused by a precondition check
    ([g_return_if_fail]), it returned without a change notification, or it
    emitted the change notifications. *)
Inductive outcome : Type := Rejected | Quiet | Notified.

(** ** Mutation primitives *)

Definition addresses_are_duplicate (a b : NMPlatformIP4Address)
    (consider_plen : bool) : bool :=
  (addr_address a =? addr_address b)
  && (negb consider_plen || (addr_plen a =? addr_plen b)).

Definition routes_are_duplicate (a b : NMPlatformIP4Route)
    (consider_gateway_and_metric : bool) : bool :=
  (route_network a =? route_network b) && (route_plen a =? route_plen b)
  && (negb consider_gateway_and_metric
      || ((route_gateway a =? route_gateway b)
          && (route_metric a =? route_metric b))).

Definition nm_ip4_config_set_never_default (config : NMIP4Config)
    (v : bool) : NMIP4Config :=
  with_never_default config v.

Definition nm_ip4_config_set_gateway (config : NMIP4Config) (gw : Z)
  : NMIP4Config :=
  if negb (gateway config =? gw) then with_gateway config gw else config.

Definition nm_ip4_config_reset_addresses (config : NMIP4Config)
  : NMIP4Config :=
  with_addresses config [].

(** The stored item after a duplicate of [new] was found in [item_old]:
    [*item = *new], the higher source restored, and the old lifetimes kept
    for a kernel address that meets another source, or when the old
    address expires later. *)
Definition overwrite_address (item_old new : NMPlatformIP4Address)
  : NMPlatformIP4Address :=
  let source := MAX (addr_source item_old) (addr_source new) in
  if ((addr_source new =? NM_IP_CONFIG_SOURCE_KERNEL)
      && negb (addr_source new =? addr_source item_old))
     || (nm_platform_ip_address_cmp_expiry item_old new >? 0)
  then mkAddress (addr_ifindex new) source (addr_timestamp item_old)
         (addr_lifetime item_old) (addr_preferred item_old) (addr_plen new)
         (addr_address new) (addr_label new)
  else mkAddress (addr_ifindex new) source (addr_timestamp new)
         (addr_lifetime new) (addr_preferred new) (addr_plen new)
         (addr_address new) (addr_label new).

(** The loop of [nm_ip4_config_add_address] over the stored addresses:
    [None] when the loop ends without a duplicate, otherwise the array as
    the loop leaves it and whether it goes to [NOTIFY]. *)
Fixpoint add_address_loop (items : list NMPlatformIP4Address)
    (new : NMPlatformIP4Address)
  : option (list NMPlatformIP4Address * outcome) :=
  match items with
  | [] => None
  | item :: rest =>
      if addresses_are_duplicate item new false then
        if nm_platform_ip4_address_cmp item new =? 0 then Some (items, Quiet)
        else
          let item' := overwrite_address item new in
          if nm_platform_ip4_address_cmp item item' =? 0
          then Some (item' :: rest, Quiet)
          else Some (item' :: rest, Notified)
      else
        match add_address_loop rest new with
        | Some (rest', o) => Some (item :: rest', o)
        | None => None
        end
  end.

Definition nm_ip4_config_add_address_outcome (config : NMIP4Config)
    (new : NMPlatformIP4Address) : NMIP4Config * outcome :=
  match add_address_loop (addresses config) new with
  | Some (items, o) => (with_addresses config items, o)
  | None => (with_addresses config (addresses config ++ [new]), Notified)
  end.

Definition nm_ip4_config_add_address (config : NMIP4Config)
    (new : NMPlatformIP4Address) : NMIP4Config :=
  fst (nm_ip4_config_add_address_outcome config new).

Definition nm_ip4_config_del_address (config : NMIP4Config) (i : nat)
  : NMIP4Config :=
  if Nat.ltb i (List.length (addresses config))
  then with_addresses config (g_array_remove_index (addresses config) i)
  else config.

Definition nm_ip4_config_address_exists (config : NMIP4Config)
    (needle : NMPlatformIP4Address) : bool :=
  existsb (fun haystack =>
             (addr_address needle =? addr_address haystack)
             && (addr_plen needle =? addr_plen haystack))
    (addresses config).

Definition nm_ip4_config_reset_routes (config : NMIP4Config) : NMIP4Config :=
  with_routes config [].

(** The stored route after a duplicate of [new] was found: [new] copied
    over it and the higher source restored. *)
Definition overwrite_route (item new : NMPlatformIP4Route)
  : NMPlatformIP4Route :=
  mkRoute (route_ifindex new) (MAX (route_source item) (route_source new))
    (route_plen new) (route_metric new) (route_network new)
    (route_gateway new).

Fixpoint add_route_loop (items : list NMPlatformIP4Route)
    (new : NMPlatformIP4Route)
  : option (list NMPlatformIP4Route * outcome) :=
  match items with
  | [] => None
  | item :: rest =>
      if routes_are_duplicate item new false then
        if nm_platform_ip4_route_cmp item new =? 0 then Some (items, Quiet)
        else Some (overwrite_route item new :: rest, Notified)
      else
        match add_route_loop rest new with
        | Some (rest', o) => Some (item :: rest', o)
        | None => None
        end
  end.

Definition nm_ip4_config_add_route_outcome (config : NMIP4Config)
    (new : NMPlatformIP4Route) : NMIP4Config * outcome :=
  if negb (route_plen new >? 0) then (config, Rejected)
  else
    match add_route_loop (routes config) new with
    | Some (items, o) => (with_routes config items, o)
    | None => (with_routes config (routes config ++ [new]), Notified)
    end.

Definition nm_ip4_config_add_route (config : NMIP4Config)
    (new : NMPlatformIP4Route) : NMIP4Config :=
  fst (nm_ip4_config_add_route_outcome config new).

Definition nm_ip4_config_del_route (config : NMIP4Config) (i : nat)
  : NMIP4Config :=
  if Nat.ltb i (List.length (routes config))
  then with_routes config (g_array_remove_index (routes config) i)
  else config.

Definition nm_ip4_config_reset_nameservers (config : NMIP4Config)
  : NMIP4Config :=
  with_nameservers config [].

Definition nm_ip4_config_add_nameserver (config : NMIP4Config) (new : Z)
  : NMIP4Config :=
  if new =? 0 then config
  else if existsb (Z.eqb new) (nameservers config) then config
  else with_nameservers config (nameservers config ++ [new]).

Definition nm_ip4_config_del_nameserver (config : NMIP4Config) (i : nat)
  : NMIP4Config :=
  if Nat.ltb i (List.length (nameservers config))
  then with_nameservers config (g_array_remove_index (nameservers config) i)
  else config.

Definition nm_ip4_config_reset_domains (config : NMIP4Config) : NMIP4Config :=
  with_domains config [].

Definition nm_ip4_config_add_domain (config : NMIP4Config) (domain : string)
  : NMIP4Config :=
  if String.eqb domain EmptyString then config
  else if existsb (String.eqb domain) (domains config) then config
  else with_domains config (domains config ++ [domain]).

Definition nm_ip4_config_del_domain (config : NMIP4Config) (i : nat)
  : NMIP4Config :=
  if Nat.ltb i (List.length (domains config))
  then with_domains config (g_array_remove_index (domains config) i)
  else config.

Definition nm_ip4_config_reset_searches (config : NMIP4Config)
  : NMIP4Config :=
  with_searches config [].

Definition nm_ip4_config_add_search (config : NMIP4Config) (new : string)
  : NMIP4Config :=
  if String.eqb new EmptyString then config
  else if existsb (String.eqb new) (searches config) then config
  else with_searches config (searches config ++ [new]).

Definition nm_ip4_config_del_search (config : NMIP4Config) (i : nat)
  : NMIP4Config :=
  if Nat.ltb i (List.length (searches config))
  then with_searches config (g_array_remove_index (searches config) i)
  else config.

Definition nm_ip4_config_set_mss (config : NMIP4Config) (v : Z)
  : NMIP4Config :=
  with_mss config v.

Definition nm_ip4_config_reset_nis_servers (config : NMIP4Config)
  : NMIP4Config :=
  with_nis config [].

Definition nm_ip4_config_add_nis_server (config : NMIP4Config) (new : Z)
  : NMIP4Config :=
  if existsb (Z.eqb new) (nis config) then config
  else with_nis config (nis config ++ [new]).

Definition nm_ip4_config_del_nis_server (config : NMIP4Config) (i : nat)
  : NMIP4Config :=
  if Nat.ltb i (List.length (nis config))
  then with_nis config (g_array_remove_index (nis config) i)
  else config.

Definition nm_ip4_config_set_nis_domain (config : NMIP4Config)
    (domain : option string) : NMIP4Config :=
  with_nis_domain config domain.

Definition nm_ip4_config_reset_wins (config : NMIP4Config) : NMIP4Config :=
  with_wins config [].

Definition nm_ip4_config_add_wins (config : NMIP4Config) (new : Z)
  : NMIP4Config :=
  if new =? 0 then config
  else if existsb (Z.eqb new) (wins config) then config
  else with_wins config (wins config ++ [new]).

Definition nm_ip4_config_del_wins (config : NMIP4Config) (i : nat)
  : NMIP4Config :=
  if Nat.ltb i (List.length (wins config))
  then with_wins config (g_array_remove_index (wins config) i)
  else config.

Definition nm_ip4_config_set_mtu (config : NMIP4Config) (new_mtu : Z)
    (source : NMIPConfigSource) : NMIP4Config :=
  if source >? mtu_source config then with_mtu config new_mtu source
  else if (source =? mtu_source config)
          && ((mtu config =? 0) || (mtu config >? new_mtu))
  then with_mtu config new_mtu (mtu_source config)
  else config.

(** ** The platform, as the reconciliation operations see it

    [capture] and [commit] talk to the platform singleton.  Its answers are
    given by a record of functions; the calls that change the kernel state
    are collected in a trace. *)

Record NMPlatform : Type := mkPlatform {
  link_get_master : Z -> Z;
  ip4_address_get_all : Z -> list NMPlatformIP4Address;
  ip4_route_get_all : Z -> list NMPlatformIP4Route;
  (** the name servers of /etc/resolv.conf, each with what
      [inet_pton (AF_INET, ...)] makes of it; [None] when the file cannot be
      read *)
  resolv_conf_nameservers : option (list (option Z));
  (** whether [nm_platform_ip4_route_sync] succeeds *)
  ip4_route_sync_succeeds : Z -> list NMPlatformIP4Route -> bool;
  link_get_mtu : Z -> Z
}.

Inductive platform_call : Type :=
| ip4_address_sync (ifindex : Z) (known_addresses : list NMPlatformIP4Address)
    (default_route_metric : Z)
| ip4_route_sync (ifindex : Z) (known_routes : list NMPlatformIP4Route)
| link_set_mtu (ifindex : Z) (new_mtu : Z).

(** ** Capture *)

(** [nm_ip4_config_capture_resolv_conf]: the array after the call and
    whether name servers were added. *)
Fixpoint capture_resolv_conf_loop (ns_array : list Z)
    (read_ns : list (option Z)) (changed : bool) : list Z * bool :=
  match read_ns with
  | [] => (ns_array, changed)
  | None :: rest => capture_resolv_conf_loop ns_array rest changed
  | Some ns :: rest =>
      if ns =? 0 then capture_resolv_conf_loop ns_array rest changed
      else if existsb (Z.eqb ns) ns_array
      then capture_resolv_conf_loop ns_array rest changed
      else capture_resolv_conf_loop (ns_array ++ [ns]) rest true
  end.

Definition nm_ip4_config_capture_resolv_conf (ns_array : list Z)
    (rc : option (list (option Z))) : list Z * bool :=
  match rc with
  | None => (ns_array, false)
  | Some read_ns => capture_resolv_conf_loop ns_array read_ns false
  end.

(** The first loop of [nm_ip4_config_capture]: the routes that stay in the
    array, and [priv->gateway], [lowest_metric] and [has_gateway] after the
    loop. *)
Fixpoint capture_default_routes (items : list NMPlatformIP4Route)
    (gw lowest_metric : Z) (has_gateway : bool)
  : list NMPlatformIP4Route * Z * Z * bool :=
  match items with
  | [] => ([], gw, lowest_metric, has_gateway)
  | route :: rest =>
      if NM_PLATFORM_IP_ROUTE_IS_DEFAULT route then
        if route_metric route <? lowest_metric
        then capture_default_routes rest (route_gateway route)
               (route_metric route) true
        else capture_default_routes rest gw lowest_metric true
      else
        let '(kept, gw', lowest', has') :=
          capture_default_routes rest gw lowest_metric has_gateway in
        (route :: kept, gw', lowest', has')
  end.

(** The second loop: the host routes to the gateway are removed. *)
Definition capture_host_routes (items : list NMPlatformIP4Route) (gw : Z)
  : list NMPlatformIP4Route :=
  filter (fun route =>
            negb ((route_plen route =? 32)
                  && (route_network route =? gw)
                  && (route_gateway route =? 0)))
    items.

Definition nm_ip4_config_capture (platform : NMPlatform) (ifindex : Z)
    (capture_resolv_conf : bool) : option NMIP4Config :=
  if link_get_master platform ifindex >? 0 then None
  else
    let config := nm_ip4_config_new in
    let config := with_addresses config (ip4_address_get_all platform ifindex) in
    let '(kept, gw, _, has_gateway) :=
      capture_default_routes (ip4_route_get_all platform ifindex)
        (gateway config) G_MAXUINT32 false in
    let config := with_gateway config gw in
    let kept := if has_gateway then capture_host_routes kept gw else kept in
    let config := with_routes config kept in
    let config :=
      if negb (Nat.eqb (List.length (addresses config)) 0) && has_gateway
         && capture_resolv_conf
      then with_nameservers config
             (fst (nm_ip4_config_capture_resolv_conf (nameservers config)
                     (resolv_conf_nameservers platform)))
      else config in
    Some config.

(** ** Direct destinations and commit

    [same_prefix] shifts a [guint32] to the right by [32 - plen].  C defines
    that shift for the counts 0 to 31 only, that is for the prefixes 1 to
    32; for every other prefix, 0 among them, the behaviour of the program
    is undefined.  The functions that reach [same_prefix] are therefore
    parametric in what the shift yields out of range. *)

Section UndefinedShift.

(** [shift_out_of_range x n] stands for what the compiled program yields
    for [x >> n] on a [guint32] [x] when [n] is not one of 0 .. 31.  That it
    yields a value, and one that depends on the operands only, is all that
    is assumed of it. *)
Variable shift_out_of_range : Z -> Z -> Z.

(** [x >> n] on a [guint32]. *)
Definition guint32_shift_right (x n : Z) : Z :=
  if (0 <=? n) && (n <? 32) then Z.shiftr x n else shift_out_of_range x n.

Definition same_prefix (address1 address2 : Z) (plen : Z) : bool :=
  let masked1 := guint32_shift_right (ntohl address1) (32 - plen) in
  let masked2 := guint32_shift_right (ntohl address2) (32 - plen) in
  masked1 =? masked2.

Definition nm_ip4_config_destination_is_direct (config : NMIP4Config)
    (network : Z) (plen : Z) : bool :=
  existsb (fun item =>
             (addr_plen item <=? plen)
             && same_prefix (addr_address item) network (addr_plen item))
    (addresses config).

(** The array [routes] that [nm_ip4_config_commit] builds for the route
    synchronization. *)
Definition commit_routes (config : NMIP4Config) : list NMPlatformIP4Route :=
  filter (fun route =>
            negb ((route_gateway route =? 0)
                  && nm_ip4_config_destination_is_direct config
                       (route_network route) (route_plen route)))
    (routes config).

(** The result of [nm_ip4_config_commit] and the platform calls it makes,
    in order. *)
Definition nm_ip4_config_commit (platform : NMPlatform) (config : NMIP4Config)
    (ifindex : Z) (default_route_metric : Z) : bool * list platform_call :=
  if negb (ifindex >? 0) then (false, [])
  else
    let calls := [ip4_address_sync ifindex (addresses config)
                    default_route_metric] in
    let known_routes := commit_routes config in
    let calls := calls ++ [ip4_route_sync ifindex known_routes] in
    if negb (ip4_route_sync_succeeds platform ifindex known_routes)
    then (false, calls)
    else if negb (mtu config =? 0)
            && negb (mtu config =? link_get_mtu platform ifindex)
    then (true, calls ++ [link_set_mtu ifindex (mtu config)])
    else (true, calls).

End UndefinedShift.

(** ** Merge *)

Definition nm_ip4_config_merge (dst src : NMIP4Config) : NMIP4Config :=
  (* addresses *)
  let dst := fold_left nm_ip4_config_add_address (addresses src) dst in
  (* nameservers *)
  let dst := fold_left nm_ip4_config_add_nameserver (nameservers src) dst in
  (* default gateway *)
  let dst := if gateway dst =? 0
             then nm_ip4_config_set_gateway dst (gateway src) else dst in
  (* routes *)
  let dst := fold_left nm_ip4_config_add_route (routes src) dst in
  (* domains *)
  let dst := fold_left nm_ip4_config_add_domain (domains src) dst in
  (* dns searches *)
  let dst := fold_left nm_ip4_config_add_search (searches src) dst in
  (* MSS *)
  let dst := if mss dst =? 0
             then nm_ip4_config_set_mss dst (mss src) else dst in
  (* MTU *)
  let dst := if mtu dst =? 0
             then nm_ip4_config_set_mtu dst (mtu src) (mtu_source src)
             else dst in
  (* NIS *)
  let dst := fold_left nm_ip4_config_add_nis_server (nis src) dst in
  let dst := match nis_domain src with
             | Some d => nm_ip4_config_set_nis_domain dst (Some d)
             | None => dst
             end in
  (* WINS *)
  fold_left nm_ip4_config_add_wins (wins src) dst.

(** ** Subtract *)

Definition subtract_address (dst : NMIP4Config)
    (src_addr : NMPlatformIP4Address) : NMIP4Config :=
  match find_index (fun dst_addr =>
                      (addr_address src_addr =? addr_address dst_addr)
                      && (addr_plen src_addr =? addr_plen dst_addr))
          (addresses dst) with
  | Some j => nm_ip4_config_del_address dst j
  | None => dst
  end.

Definition subtract_nameserver (dst : NMIP4Config) (src_ns : Z)
  : NMIP4Config :=
  match find_index (fun dst_ns => dst_ns =? src_ns) (nameservers dst) with
  | Some j => nm_ip4_config_del_nameserver dst j
  | None => dst
  end.

Definition subtract_route (dst : NMIP4Config) (src_route : NMPlatformIP4Route)
  : NMIP4Config :=
  match find_index (fun dst_route =>
                      (route_network src_route =? route_network dst_route)
                      && (route_plen src_route =? route_plen dst_route))
          (routes dst) with
  | Some j => nm_ip4_config_del_route dst j
  | None => dst
  end.

Definition subtract_domain (dst : NMIP4Config) (src_domain : string)
  : NMIP4Config :=
  match find_index (fun dst_domain => String.eqb src_domain dst_domain)
          (domains dst) with
  | Some j => nm_ip4_config_del_domain dst j
  | None => dst
  end.

Definition subtract_search (dst : NMIP4Config) (src_search : string)
  : NMIP4Config :=
  match find_index (fun dst_search => String.eqb src_search dst_search)
          (searches dst) with
  | Some j => nm_ip4_config_del_search dst j
  | None => dst
  end.

Definition subtract_nis_server (dst : NMIP4Config) (src_nis : Z)
  : NMIP4Config :=
  match find_index (fun dst_nis => dst_nis =? src_nis) (nis dst) with
  | Some j => nm_ip4_config_del_nis_server dst j
  | None => dst
  end.

Definition subtract_wins (dst : NMIP4Config) (src_wins : Z) : NMIP4Config :=
  match find_index (fun dst_wins => dst_wins =? src_wins) (wins dst) with
  | Some j => nm_ip4_config_del_wins dst j
  | None => dst
  end.

Definition nm_ip4_config_subtract (dst src : NMIP4Config) : NMIP4Config :=
  (* addresses *)
  let dst := fold_left subtract_address (addresses src) dst in
  (* nameservers *)
  let dst := fold_left subtract_nameserver (nameservers src) dst in
  (* default gateway *)
  let dst := if gateway src =? gateway dst
             then nm_ip4_config_set_gateway dst 0 else dst in
  let dst := if Nat.eqb (List.length (addresses dst)) 0
             then nm_ip4_config_set_gateway dst 0 else dst in
  (* routes *)
  let dst := fold_left subtract_route (routes src) dst in
  (* domains *)
  let dst := fold_left subtract_domain (domains src) dst in
  (* dns searches *)
  let dst := fold_left subtract_search (searches src) dst in
  (* MSS *)
  let dst := if mss src =? mss dst then nm_ip4_config_set_mss dst 0 else dst in
  (* MTU *)
  let dst := if mtu src =? mtu dst
             then nm_ip4_config_set_mtu dst 0 NM_IP_CONFIG_SOURCE_UNKNOWN
             else dst in
  (* NIS *)
  let dst := fold_left subtract_nis_server (nis src) dst in
  let dst := if g_strcmp0_eq (nis_domain src) (nis_domain dst)
             then nm_ip4_config_set_nis_domain dst None else dst in
  (* WINS *)
  fold_left subtract_wins (wins src) dst.

(** ** Subtract on objects that may be one and the same

    [nm_ip4_config_subtract] takes two pointers and does not check that
    they differ.  The definition above takes [dst] and [src] as two values:
    it is the call on two distinct objects.  Below the aggregates live in a
    store, [dst] and [src] are their places in it, and every read of [src]
    sees what the call has written to [dst] so far when the two are one
    object. *)

Definition objects : Type := nat -> NMIP4Config.

Definition store (heap : objects) (p : nat) (config : NMIP4Config)
  : objects :=
  fun q => if Nat.eqb q p then config else heap q.


(** One of the seven loops, [for (i = 0; i < num (src); i++)], from round
    [i] on: the entry [i] of [src] is read and its first match is deleted
    from [dst].  The loop makes at most [fuel] more rounds. *)
Fixpoint subtract_loop {T : Type} (get : NMIP4Config -> list T)
    (subtract_entry : NMIP4Config -> T -> NMIP4Config) (fuel i : nat)
    (heap : objects) (dst src : nat) : objects :=
  match fuel with
  | O => heap
  | S fuel' =>
      match nth_error (get (heap src)) i with
      | None => heap
      | Some entry =>
          subtract_loop get subtract_entry fuel' (S i)
            (store heap dst (subtract_entry (heap dst) entry)) dst src
      end
  end.

(** The whole loop.  No round makes the array of [src] longer, so the
    loop ends within as many rounds as that array has entries at the
    start. *)
Definition subtract_array {T : Type} (get : NMIP4Config -> list T)
    (subtract_entry : NMIP4Config -> T -> NMIP4Config)
    (heap : objects) (dst src : nat) : objects :=
  subtract_loop get subtract_entry (List.length (get (heap src))) 0 heap
    dst src.

(** One of the steps [if (test (src, dst)) set (dst, ...)]. *)
Definition subtract_field (test : NMIP4Config -> NMIP4Config -> bool)
    (clear : NMIP4Config -> NMIP4Config) (heap : objects) (dst src : nat)
  : objects :=
  if test (heap src) (heap dst) then store heap dst (clear (heap dst))
  else heap.

Definition nm_ip4_config_subtract_objects (heap : objects) (dst src : nat)
  : objects :=
  (* addresses *)
  let heap := subtract_array addresses subtract_address heap dst src in
  (* nameservers *)
  let heap := subtract_array nameservers subtract_nameserver heap dst src in
  (* default gateway *)
  let heap :=
    subtract_field (fun src dst => gateway src =? gateway dst)
      (fun dst => nm_ip4_config_set_gateway dst 0) heap dst src in
  let heap :=
    subtract_field (fun _ dst => Nat.eqb (List.length (addresses dst)) 0)
      (fun dst => nm_ip4_config_set_gateway dst 0) heap dst src in
  (* routes *)
  let heap := subtract_array routes subtract_route heap dst src in
  (* domains *)
  let heap := subtract_array domains subtract_domain heap dst src in
  (* dns searches *)
  let heap := subtract_array searches subtract_search heap dst src in
  (* MSS *)
  let heap :=
    subtract_field (fun src dst => mss src =? mss dst)
      (fun dst => nm_ip4_config_set_mss dst 0) heap dst src in
  (* MTU *)
  let heap :=
    subtract_field (fun src dst => mtu src =? mtu dst)
      (fun dst => nm_ip4_config_set_mtu dst 0 NM_IP_CONFIG_SOURCE_UNKNOWN)
      heap dst src in
  (* NIS *)
  let heap := subtract_array nis subtract_nis_server heap dst src in
  let heap :=
    subtract_field
      (fun src dst => g_strcmp0_eq (nis_domain src) (nis_domain dst))
      (fun dst => nm_ip4_config_set_nis_domain dst None) heap dst src in
  (* WINS *)
  subtract_array wins subtract_wins heap dst src.

(** ** Hash and equality *)

(** A [GChecksum] is the sequence of bytes fed to it so far. *)
Definition GChecksum : Type := list Z.

Definition g_checksum_new : GChecksum := [].

Definition hash_u32 (sum : GChecksum) (n : Z) : GChecksum :=
  sum ++ guint32_bytes n.

Definition hash_str (sum : GChecksum) (s : string) : GChecksum :=
  sum ++ string_bytes s.

Definition nm_ip4_config_hash (config : NMIP4Config) (sum : GChecksum)
    (dns_only : bool) : GChecksum :=
  let sum :=
    if negb dns_only then
      let sum := hash_u32 sum (gateway config) in
      let sum :=
        fold_left (fun sum address =>
                     hash_u32 (hash_u32 sum (addr_address address))
                       (addr_plen address))
          (addresses config) sum in
      let sum :=
        fold_left (fun sum route =>
                     hash_u32
                       (hash_u32
                          (hash_u32 (hash_u32 sum (route_network route))
                             (route_plen route))
                          (route_gateway route))
                       (route_metric route))
          (routes config) sum in
      let sum := fold_left hash_u32 (nis config) sum in
      match nis_domain config with
      | Some s => hash_str sum s
      | None => sum
      end
    else sum in
  let sum := fold_left hash_u32 (nameservers config) sum in
  let sum := fold_left hash_u32 (wins config) sum in
  let sum := fold_left hash_str (domains config) sum in
  fold_left hash_str (searches config) sum.

(** [!memcmp (a, b, len)] on two digests. *)
Fixpoint memcmp_eq (a b : list Z) : bool :=
  match a, b with
  | [], [] => true
  | x :: a', y :: b' => (x =? y) && memcmp_eq a' b'
  | _, _ => false
  end.

Definition nm_ip4_config_equal (a b : option NMIP4Config) : bool :=
  let a_checksum :=
    match a with
    | Some a => nm_ip4_config_hash a g_checksum_new false
    | None => g_checksum_new
    end in
  let b_checksum :=
    match b with
    | Some b => nm_ip4_config_hash b g_checksum_new false
    | None => g_checksum_new
    end in
  memcmp_eq (SHA1.digest a_checksum) (SHA1.digest b_checksum).

(** ** Replace *)

(** The comparison loop of [nm_ip4_config_replace] over the addresses at
    equal positions: [are_equal] and whether a relevant change was seen. *)
Fixpoint replace_compare_addresses (src dst : list NMPlatformIP4Address)
    (are_equal : bool) : bool * bool :=
  match src, dst with
  | src_addr :: src', dst_addr :: dst' =>
      if negb (nm_platform_ip4_address_cmp src_addr dst_addr =? 0) then
        if negb (addresses_are_duplicate src_addr dst_addr true)
        then (false, true)
        else replace_compare_addresses src' dst' false
      else replace_compare_addresses src' dst' are_equal
  | _, _ => (are_equal, false)
  end.

Fixpoint replace_compare_routes (src dst : list NMPlatformIP4Route)
    (are_equal : bool) : bool * bool :=
  match src, dst with
  | src_route :: src', dst_route :: dst' =>
      if negb (nm_platform_ip4_route_cmp src_route dst_route =? 0) then
        if negb (routes_are_duplicate src_route dst_route true)
        then (false, true)
        else replace_compare_routes src' dst' false
      else replace_compare_routes src' dst' are_equal
  | _, _ => (are_equal, false)
  end.

(** The comparison loop over two arrays of the same length: [are_equal]. *)
Fixpoint replace_compare {T : Type} (differ : T -> T -> bool)
    (src dst : list T) : bool :=
  match src, dst with
  | x :: src', y :: dst' =>
      if differ x y then false else replace_compare differ src' dst'
  | _, _ => true
  end.

Definition same_length {T U : Type} (src : list T) (dst : list U) : bool :=
  Nat.eqb (List.length src) (List.length dst).

(** The state of [nm_ip4_config_replace] between two of its steps. *)
Record replace_state : Type := mkReplace {
  rs_dst : NMIP4Config;
  has_minor_changes : bool;
  has_relevant_changes : bool
}.

Definition replace_never_default (src : NMIP4Config) (st : replace_state)
  : replace_state :=
  let dst := rs_dst st in
  if negb (Bool.eqb (never_default src) (never_default dst))
  then mkReplace (with_never_default dst (never_default src)) true
         (has_relevant_changes st)
  else st.

Definition replace_gateway (src : NMIP4Config) (st : replace_state)
  : replace_state :=
  let dst := rs_dst st in
  if negb (gateway src =? gateway dst)
  then mkReplace (nm_ip4_config_set_gateway dst (gateway src))
         (has_minor_changes st) true
  else st.

Definition replace_addresses (src : NMIP4Config) (st : replace_state)
  : replace_state :=
  let dst := rs_dst st in
  let '(are_equal, relevant) :=
    if same_length (addresses src) (addresses dst)
    then replace_compare_addresses (addresses src) (addresses dst) true
    else (false, true) in
  if negb are_equal
  then mkReplace
         (fold_left nm_ip4_config_add_address (addresses src)
            (nm_ip4_config_reset_addresses dst))
         true (has_relevant_changes st || relevant)
  else mkReplace dst (has_minor_changes st)
         (has_relevant_changes st || relevant).

Definition replace_routes (src : NMIP4Config) (st : replace_state)
  : replace_state :=
  let dst := rs_dst st in
  let '(are_equal, relevant) :=
    if same_length (routes src) (routes dst)
    then replace_compare_routes (routes src) (routes dst) true
    else (false, true) in
  if negb are_equal
  then mkReplace
         (fold_left nm_ip4_config_add_route (routes src)
            (nm_ip4_config_reset_routes dst))
         true (has_relevant_changes st || relevant)
  else mkReplace dst (has_minor_changes st)
         (has_relevant_changes st || relevant).

Definition replace_nameservers (src : NMIP4Config) (st : replace_state)
  : replace_state :=
  let dst := rs_dst st in
  if same_length (nameservers src) (nameservers dst)
     && replace_compare (fun x y => negb (x =? y)) (nameservers src)
          (nameservers dst)
  then st
  else mkReplace
         (fold_left nm_ip4_config_add_nameserver (nameservers src)
            (nm_ip4_config_reset_nameservers dst))
         (has_minor_changes st) true.

Definition replace_domains (src : NMIP4Config) (st : replace_state)
  : replace_state :=
  let dst := rs_dst st in
  if same_length (domains src) (domains dst)
     && replace_compare (fun x y => negb (String.eqb x y)) (domains src)
          (domains dst)
  then st
  else mkReplace
         (fold_left nm_ip4_config_add_domain (domains src)
            (nm_ip4_config_reset_domains dst))
         (has_minor_changes st) true.

Definition replace_searches (src : NMIP4Config) (st : replace_state)
  : replace_state :=
  let dst := rs_dst st in
  if same_length (searches src) (searches dst)
     && replace_compare (fun x y => negb (String.eqb x y)) (searches src)
          (searches dst)
  then st
  else mkReplace
         (fold_left nm_ip4_config_add_search (searches src)
            (nm_ip4_config_reset_searches dst))
         (has_minor_changes st) true.

Definition replace_mss (src : NMIP4Config) (st : replace_state)
  : replace_state :=
  let dst := rs_dst st in
  if negb (mss src =? mss dst)
  then mkReplace (nm_ip4_config_set_mss dst (mss src)) true
         (has_relevant_changes st)
  else st.

Definition replace_nis (src : NMIP4Config) (st : replace_state)
  : replace_state :=
  let dst := rs_dst st in
  if same_length (nis src) (nis dst)
     && replace_compare (fun x y => negb (x =? y)) (nis src) (nis dst)
  then st
  else mkReplace
         (fold_left nm_ip4_config_add_nis_server (nis src)
            (nm_ip4_config_reset_nis_servers dst))
         (has_minor_changes st) true.

Definition replace_nis_domain (src : NMIP4Config) (st : replace_state)
  : replace_state :=
  let dst := rs_dst st in
  if negb (g_strcmp0_eq (nis_domain src) (nis_domain dst))
  then mkReplace (nm_ip4_config_set_nis_domain dst (nis_domain src))
         (has_minor_changes st) true
  else st.

Definition replace_wins (src : NMIP4Config) (st : replace_state)
  : replace_state :=
  let dst := rs_dst st in
  if same_length (wins src) (wins dst)
     && replace_compare (fun x y => negb (x =? y)) (wins src) (wins dst)
  then st
  else mkReplace
         (fold_left nm_ip4_config_add_wins (wins src)
            (nm_ip4_config_reset_wins dst))
         (has_minor_changes st) true.

Definition replace_mtu (src : NMIP4Config) (st : replace_state)
  : replace_state :=
  let dst := rs_dst st in
  if negb (mtu src =? mtu dst)
  then mkReplace (nm_ip4_config_set_mtu dst (mtu src) (mtu_source src)) true
         (has_relevant_changes st)
  else st.

(** The body of [nm_ip4_config_replace] up to its final assertion. *)
Definition replace_steps (dst src : NMIP4Config) : replace_state :=
  let st := mkReplace dst false false in
  let st := replace_never_default src st in
  let st := replace_gateway src st in
  let st := replace_addresses src st in
  let st := replace_routes src st in
  let st := replace_nameservers src st in
  let st := replace_domains src st in
  let st := replace_searches src st in
  let st := replace_mss src st in
  let st := replace_nis src st in
  let st := replace_nis_domain src st in
  let st := replace_wins src st in
  replace_mtu src st.

(** What [nm_ip4_config_replace] gives back: the new [dst], the returned
    "changed" and [*relevant_changes]. *)
Record replace_result : Type := mkResult {
  replaced : NMIP4Config;
  changed : bool;
  relevant_changes : bool
}.

(** [nm_ip4_config_replace] on two distinct objects, built with assertions
    enabled: [None] when [g_assert (config_equal == !has_relevant_changes)]
    fails and aborts the program. *)
Definition nm_ip4_config_replace (dst src : NMIP4Config)
  : option replace_result :=
  let config_equal := nm_ip4_config_equal (Some dst) (Some src) in
  let st := replace_steps dst src in
  if Bool.eqb config_equal (negb (has_relevant_changes st))
  then Some (mkResult (rs_dst st)
               (has_relevant_changes st || has_minor_changes st)
               (has_relevant_changes st))
  else None.

(** ** Array-level views of the primitives

    Every primitive touches one array of the object.  These functions give
    the array after the call; the lemmas of the next part relate them to
    the primitives. *)

Definition address_array_add (items : list NMPlatformIP4Address)
    (new : NMPlatformIP4Address) : list NMPlatformIP4Address :=
  match add_address_loop items new with
  | Some (items', _) => items'
  | None => items ++ [new]
  end.

Definition route_array_add (items : list NMPlatformIP4Route)
    (new : NMPlatformIP4Route) : list NMPlatformIP4Route :=
  if negb (route_plen new >? 0) then items
  else
    match add_route_loop items new with
    | Some (items', _) => items'
    | None => items ++ [new]
    end.

Definition array_add_unique (items : list Z) (new : Z) : list Z :=
  if existsb (Z.eqb new) items then items else items ++ [new].

Definition array_add_nonzero (items : list Z) (new : Z) : list Z :=
  if new =? 0 then items else array_add_unique items new.

Definition array_add_string (items : list string) (new : string)
  : list string :=
  if String.eqb new EmptyString then items
  else if existsb (String.eqb new) items then items
  else items ++ [new].

Definition array_remove_first {T : Type} (p : T -> bool) (items : list T)
  : list T :=
  match find_index p items with
  | Some j => g_array_remove_index items j
  | None => items
  end.

(** ** Identity and uniqueness *)

(** The identity of an address in the data model: address and prefix. *)
Definition address_identity (a : NMPlatformIP4Address) : Z * Z :=
  (addr_address a, addr_plen a).

(** The identity of a route: destination network and prefix. *)
Definition route_identity (r : NMPlatformIP4Route) : Z * Z :=
  (route_network r, route_plen r).

Definition addresses_unique (items : list NMPlatformIP4Address) : Prop :=
  NoDup (map address_identity items).

Definition routes_unique (items : list NMPlatformIP4Route) : Prop :=
  NoDup (map route_identity items).

(** What [nm_ip4_config_add_address] really keeps apart: no two stored
    addresses have the same address, whatever their prefixes. *)
Definition addresses_distinct (items : list NMPlatformIP4Address) : Prop :=
  NoDup (map addr_address items).

(** The invariant that the mutations keep: no two stored addresses have the
    same address and no two stored routes have the same identity. *)
Definition identities_kept_apart (config : NMIP4Config) : Prop :=
  addresses_distinct (addresses config) /\ routes_unique (routes config).

(** The lifetime fields of an address. *)
Definition address_lifetimes (a : NMPlatformIP4Address) : Z * Z * Z :=
  (addr_timestamp a, addr_lifetime a, addr_preferred a).

(** When [nm_ip4_config_add_address] keeps the lifetimes of the stored
    entry [old] instead of those of [new]. *)
Definition keeps_old_lifetimes (old new : NMPlatformIP4Address) : Prop :=
  (addr_source new = NM_IP_CONFIG_SOURCE_KERNEL
   /\ addr_source old <> NM_IP_CONFIG_SOURCE_KERNEL)
  \/ nm_platform_ip_address_cmp_expiry old new > 0.

(** The netmask of a prefix, in host byte order: the [plen] highest of 32
    bits. *)
Definition netmask (plen : Z) : Z := Z.shiftl (Z.ones plen) (32 - plen).

(** The network of an address under a prefix: the address with its host
    bits masked out. *)
Definition masked_network (address plen : Z) : Z :=
  Z.land (ntohl address) (netmask plen).

(** A route is covered by an on-link subnet of the aggregate, in the words
    of the data model and without the test of the code: one of the
    addresses of the aggregate has a prefix that is not longer than the
    route's, and under that prefix the address and the destination of the
    route have the same masked network. *)
Definition covered_by_on_link_subnet (config : NMIP4Config)
    (route : NMPlatformIP4Route) : Prop :=
  exists item, In item (addresses config)
    /\ addr_plen item <= route_plen route
    /\ masked_network (addr_address item) (addr_plen item)
       = masked_network (route_network route) (addr_plen item).


(** ** Sequences of mutations *)

Inductive mutation : Type :=
| M_set_never_default (v : bool)
| M_set_gateway (gw : Z)
| M_reset_addresses
| M_add_address (new : NMPlatformIP4Address)
| M_del_address (i : nat)
| M_reset_routes
| M_add_route (new : NMPlatformIP4Route)
| M_del_route (i : nat)
| M_reset_nameservers
| M_add_nameserver (new : Z)
| M_del_nameserver (i : nat)
| M_reset_domains
| M_add_domain (new : string)
| M_del_domain (i : nat)
| M_reset_searches
| M_add_search (new : string)
| M_del_search (i : nat)
| M_set_mss (v : Z)
| M_reset_nis_servers
| M_add_nis_server (new : Z)
| M_del_nis_server (i : nat)
| M_set_nis_domain (domain : option string)
| M_reset_wins
| M_add_wins (new : Z)
| M_del_wins (i : nat)
| M_set_mtu (new_mtu : Z) (source : NMIPConfigSource)
| M_merge (src : NMIP4Config)
| M_subtract (src : NMIP4Config)
| M_replace (src : NMIP4Config).

(** The object after one mutation; for [replace] the object as the call
    leaves it when it returns. *)
Definition apply_mutation (config : NMIP4Config) (m : mutation)
  : NMIP4Config :=
  match m with
  | M_set_never_default v => nm_ip4_config_set_never_default config v
  | M_set_gateway gw => nm_ip4_config_set_gateway config gw
  | M_reset_addresses => nm_ip4_config_reset_addresses config
  | M_add_address new => nm_ip4_config_add_address config new
  | M_del_address i => nm_ip4_config_del_address config i
  | M_reset_routes => nm_ip4_config_reset_routes config
  | M_add_route new => nm_ip4_config_add_route config new
  | M_del_route i => nm_ip4_config_del_route config i
  | M_reset_nameservers => nm_ip4_config_reset_nameservers config
  | M_add_nameserver new => nm_ip4_config_add_nameserver config new
  | M_del_nameserver i => nm_ip4_config_del_nameserver config i
  | M_reset_domains => nm_ip4_config_reset_domains config
  | M_add_domain new => nm_ip4_config_add_domain config new
  | M_del_domain i => nm_ip4_config_del_domain config i
  | M_reset_searches => nm_ip4_config_reset_searches config
  | M_add_search new => nm_ip4_config_add_search config new
  | M_del_search i => nm_ip4_config_del_search config i
  | M_set_mss v => nm_ip4_config_set_mss config v
  | M_reset_nis_servers => nm_ip4_config_reset_nis_servers config
  | M_add_nis_server new => nm_ip4_config_add_nis_server config new
  | M_del_nis_server i => nm_ip4_config_del_nis_server config i
  | M_set_nis_domain domain => nm_ip4_config_set_nis_domain config domain
  | M_reset_wins => nm_ip4_config_reset_wins config
  | M_add_wins new => nm_ip4_config_add_wins config new
  | M_del_wins i => nm_ip4_config_del_wins config i
  | M_set_mtu new_mtu source => nm_ip4_config_set_mtu config new_mtu source
  | M_merge src => nm_ip4_config_merge config src
  | M_subtract src => nm_ip4_config_subtract config src
  | M_replace src => rs_dst (replace_steps config src)
  end.

Definition apply_mutations (config : NMIP4Config) (ms : list mutation)
  : NMIP4Config :=
  fold_left apply_mutation ms config.

(** ** Example aggregates *)

Module Examples.

(** Two aggregates that differ in their NIS domain only. *)
Definition nis_dst : NMIP4Config :=
  with_nis_domain nm_ip4_config_new (Some "lab.example"%string).
Definition nis_src : NMIP4Config :=
  with_nis_domain nm_ip4_config_new (Some "office.example"%string).

(** An aggregate whose MTU of 1500 comes from DHCP. *)
Definition dhcp_mtu : NMIP4Config :=
  with_mtu nm_ip4_config_new 1500 NM_IP_CONFIG_SOURCE_DHCP.

End Examples.

Module CommitExample.

(** The aggregate of the scenario: address 10.0.0.5/24, the on-link route
    10.0.0.0/24 via 0.0.0.0 metric 100 and a route through a gateway. *)
Definition address : NMPlatformIP4Address :=
  mkAddress 2 NM_IP_CONFIG_SOURCE_USER 0 NM_PLATFORM_LIFETIME_PERMANENT
    NM_PLATFORM_LIFETIME_PERMANENT 24 (inet_addr 10 0 0 5) EmptyString.
Definition on_link_route : NMPlatformIP4Route :=
  mkRoute 2 NM_IP_CONFIG_SOURCE_USER 24 100 (inet_addr 10 0 0 0) 0.
Definition gateway_route : NMPlatformIP4Route :=
  mkRoute 2 NM_IP_CONFIG_SOURCE_USER 16 100 (inet_addr 172 16 0 0)
    (inet_addr 10 0 0 1).
Definition config : NMIP4Config :=
  nm_ip4_config_add_route
    (nm_ip4_config_add_route
       (nm_ip4_config_add_address nm_ip4_config_new address)
       on_link_route)
    gateway_route.

(** A platform on which every synchronization succeeds. *)
Definition platform : NMPlatform :=
  mkPlatform (fun _ => 0) (fun _ => []) (fun _ => []) None
    (fun _ _ => true) (fun _ => 1500).

End CommitExample.

Module AddressExample.

(** A link that carries the address 10.0.0.5 under two prefixes, as the
    kernel allows, and the aggregate captured from it. *)
Definition wide : NMPlatformIP4Address :=
  mkAddress 2 NM_IP_CONFIG_SOURCE_KERNEL 0 NM_PLATFORM_LIFETIME_PERMANENT
    NM_PLATFORM_LIFETIME_PERMANENT 16 (inet_addr 10 0 0 5) EmptyString.
Definition stored : NMPlatformIP4Address :=
  mkAddress 2 NM_IP_CONFIG_SOURCE_KERNEL 1000 100 100 24
    (inet_addr 10 0 0 5) EmptyString.
Definition platform : NMPlatform :=
  mkPlatform (fun _ => 0) (fun _ => [wide; stored]) (fun _ => []) None
    (fun _ _ => true) (fun _ => 1500).
Definition config : NMIP4Config :=
  match nm_ip4_config_capture platform 2 false with
  | Some config => config
  | None => nm_ip4_config_new
  end.

(** The address 10.0.0.5/24 again, from DHCP, with a longer lifetime. *)
Definition new : NMPlatformIP4Address :=
  mkAddress 2 NM_IP_CONFIG_SOURCE_DHCP 1000 200 200 24
    (inet_addr 10 0 0 5) EmptyString.

End AddressExample.

Module IdempotenceExample.

(** An aggregate with one address of unknown source, and the same address
    as the kernel reports it, with a longer lifetime. *)
Definition old : NMPlatformIP4Address :=
  mkAddress 2 NM_IP_CONFIG_SOURCE_UNKNOWN 1000 100 100 24
    (inet_addr 10 0 0 5) EmptyString.
Definition new : NMPlatformIP4Address :=
  mkAddress 2 NM_IP_CONFIG_SOURCE_KERNEL 1000 200 200 24
    (inet_addr 10 0 0 5) EmptyString.
Definition config : NMIP4Config :=
  nm_ip4_config_add_address nm_ip4_config_new old.

Definition once : NMIP4Config := nm_ip4_config_add_address config new.

End IdempotenceExample.

Module CaptureExample.

Definition address : NMPlatformIP4Address :=
  mkAddress 2 NM_IP_CONFIG_SOURCE_KERNEL 0 NM_PLATFORM_LIFETIME_PERMANENT
    NM_PLATFORM_LIFETIME_PERMANENT 24 (inet_addr 192 168 1 10) EmptyString.

(** A link with two default routes, of metrics 100 and 50, a host route
    to the gateway of the second and a subnet route. *)
Definition default_100 : NMPlatformIP4Route :=
  mkRoute 2 NM_IP_CONFIG_SOURCE_KERNEL 0 100 0 (inet_addr 192 168 1 254).
Definition default_50 : NMPlatformIP4Route :=
  mkRoute 2 NM_IP_CONFIG_SOURCE_KERNEL 0 50 0 (inet_addr 192 168 1 1).
Definition host_route : NMPlatformIP4Route :=
  mkRoute 2 NM_IP_CONFIG_SOURCE_KERNEL 32 0 (inet_addr 192 168 1 1) 0.
Definition subnet_route : NMPlatformIP4Route :=
  mkRoute 2 NM_IP_CONFIG_SOURCE_KERNEL 24 0 (inet_addr 192 168 1 0) 0.
Definition platform : NMPlatform :=
  mkPlatform (fun _ => 0) (fun _ => [address])
    (fun _ => [default_100; host_route; default_50; subnet_route]) None
    (fun _ _ => true) (fun _ => 1500).

(** A link whose only default route has the highest metric that a
    [guint32] can hold. *)
Definition default_max : NMPlatformIP4Route :=
  mkRoute 2 NM_IP_CONFIG_SOURCE_KERNEL 0 G_MAXUINT32 0
    (inet_addr 192 168 1 1).
Definition platform_max : NMPlatform :=
  mkPlatform (fun _ => 0) (fun _ => [address])
    (fun _ => [default_max; subnet_route]) None
    (fun _ _ => true) (fun _ => 1500).

End CaptureExample.

Module CancellationExample.

(** Two aggregates with different gateways, MTUs and MSSs that share the
    address 10.0.0.5/24. *)
Definition shared : NMPlatformIP4Address :=
  mkAddress 2 NM_IP_CONFIG_SOURCE_USER 0 NM_PLATFORM_LIFETIME_PERMANENT
    NM_PLATFORM_LIFETIME_PERMANENT 24 (inet_addr 10 0 0 5) EmptyString.
Definition A : NMIP4Config :=
  mkConfig None false (inet_addr 10 0 0 1) [shared] [] [] [] [] 1400 []
    None [] 1500 NM_IP_CONFIG_SOURCE_USER.
Definition B : NMIP4Config :=
  mkConfig None false (inet_addr 10 0 0 254) [shared] [] [] [] [] 1360 []
    None [] 1400 NM_IP_CONFIG_SOURCE_USER.

(** An aggregate that shares nothing with [A]. *)
Definition other : NMPlatformIP4Address :=
  mkAddress 2 NM_IP_CONFIG_SOURCE_DHCP 1000 3600 3600 24
    (inet_addr 10 0 0 6) EmptyString.
Definition C : NMIP4Config :=
  mkConfig None false (inet_addr 10 0 0 254) [other]
    [mkRoute 2 NM_IP_CONFIG_SOURCE_DHCP 16 100 (inet_addr 172 16 0 0)
       (inet_addr 10 0 0 254)]
    [inet_addr 8 8 8 8] ["example.org"%string] [] 1360 []
    (Some "office.example"%string) [] 1400 NM_IP_CONFIG_SOURCE_DHCP.

End CancellationExample.

Module EqualExample.

(** Two aggregates with the same name, once as a domain and once as a
    search domain. *)
Definition dst : NMIP4Config :=
  nm_ip4_config_add_domain nm_ip4_config_new "example.com"%string.
Definition src : NMIP4Config :=
  nm_ip4_config_add_search nm_ip4_config_new "example.com"%string.

End EqualExample.

Module ReplaceExample.

(** The address 10.0.0.5/24 with lifetime 3600 and with lifetime 7200. *)
Definition short : NMPlatformIP4Address :=
  mkAddress 2 NM_IP_CONFIG_SOURCE_DHCP 1000 3600 3600 24
    (inet_addr 10 0 0 5) EmptyString.
Definition long : NMPlatformIP4Address :=
  mkAddress 2 NM_IP_CONFIG_SOURCE_DHCP 1000 7200 7200 24
    (inet_addr 10 0 0 5) EmptyString.
Definition dst : NMIP4Config :=
  nm_ip4_config_add_address nm_ip4_config_new short.
Definition src : NMIP4Config :=
  nm_ip4_config_add_address nm_ip4_config_new long.

(** An aggregate with one address, a gateway and a name server. *)
Definition address : NMPlatformIP4Address :=
  mkAddress 2 NM_IP_CONFIG_SOURCE_USER 0 NM_PLATFORM_LIFETIME_PERMANENT
    NM_PLATFORM_LIFETIME_PERMANENT 24 (inet_addr 192 168 1 10) EmptyString.
Definition full : NMIP4Config :=
  nm_ip4_config_add_nameserver
    (nm_ip4_config_set_gateway
       (nm_ip4_config_add_address nm_ip4_config_new address)
       (inet_addr 192 168 1 1))
    (inet_addr 8 8 8 8).

End ReplaceExample.

(** ** Well-formed aggregates *)

(** What the primitives keep true of the arrays of an aggregate: no two
    addresses with the same address, no two routes with the same identity,
    no route with a prefix length below 1, and no duplicate, zero or empty
    entry among the name servers, domains, searches, NIS servers and WINS
    servers (a NIS server may be zero). *)
Record well_formed (config : NMIP4Config) : Prop := mkWellFormed {
  wf_addresses : addresses_distinct (addresses config);
  wf_routes : routes_unique (routes config);
  wf_route_plen : Forall (fun r => route_plen r > 0) (routes config);
  wf_nameservers : NoDup (nameservers config);
  wf_nameservers_nonzero : ~ In 0 (nameservers config);
  wf_domains : NoDup (domains config);
  wf_domains_nonempty : ~ In EmptyString (domains config);
  wf_searches : NoDup (searches config);
  wf_searches_nonempty : ~ In EmptyString (searches config);
  wf_nis : NoDup (nis config);
  wf_wins : NoDup (wins config);
  wf_wins_nonzero : ~ In 0 (wins config)
}.

(** The ways in which a mutation turns one array of the aggregate into the
    next: it leaves it, empties it, adds an element with the array's own
    insertion, removes the element at an index, or does several of these
    in a row. *)
Inductive derived {T : Type} (add : list T -> T -> list T)
  : list T -> list T -> Prop :=
| derived_same (l : list T) : derived add l l
| derived_reset (l : list T) : derived add l []
| derived_add (l : list T) (x : T) : derived add l (add l x)
| derived_remove (l : list T) (i : nat) :
    derived add l (g_array_remove_index l i)
| derived_trans (l1 l2 l3 : list T) :
    derived add l1 l2 -> derived add l2 l3 -> derived add l1 l3.


(** The seven arrays of an aggregate change only by the four operations of
    [derived], each with the insertion of its own [add] function. *)
Definition arrays_derived (c c' : NMIP4Config) : Prop :=
  derived address_array_add (addresses c) (addresses c')
  /\ derived route_array_add (routes c) (routes c')
  /\ derived array_add_nonzero (nameservers c) (nameservers c')
  /\ derived array_add_string (domains c) (domains c')
  /\ derived array_add_string (searches c) (searches c')
  /\ derived array_add_unique (nis c) (nis c')
  /\ derived array_add_nonzero (wins c) (wins c').

(** ** What [replace] compares *)

(** The two aggregates agree on every field that [nm_ip4_config_replace]
    compares: all but the D-Bus path and the source of the MTU. *)
Definition compared_fields_agree (dst src : NMIP4Config) : Prop :=
  never_default dst = never_default src
  /\ gateway dst = gateway src
  /\ addresses dst = addresses src
  /\ routes dst = routes src
  /\ nameservers dst = nameservers src
  /\ domains dst = domains src
  /\ searches dst = searches src
  /\ mss dst = mss src
  /\ nis dst = nis src
  /\ nis_domain dst = nis_domain src
  /\ wins dst = wins src
  /\ mtu dst = mtu src.

(** [has_relevant_changes || has_minor_changes], the value that
    [nm_ip4_config_replace] returns. *)
Definition has_changes (st : replace_state) : bool :=
  has_relevant_changes st || has_minor_changes st.

(** ** Differences of arrays *)


Definition same_address_identity (a d : NMPlatformIP4Address) : bool :=
  (addr_address a =? addr_address d) && (addr_plen a =? addr_plen d).


(** ** Unions of arrays *)

(** [merged] extends [dst] by the accepted entries of [src] whose key [dst]
    does not hold yet, each key once: the keys of [dst] stay where they
    are and the new keys follow them. *)
Definition extends_by {T K : Type} (key : T -> K) (accepted : T -> bool)
    (dst src merged : list T) : Prop :=
  exists zs,
    map key merged = map key dst ++ zs
    /\ NoDup zs
    /\ forall k, In k zs
                 <-> (exists x, In x src /\ accepted x = true /\ key x = k)
                     /\ ~ In k (map key dst).

(** ** Looking up a host *)

Section HostLookup.

(** [nm_utils_ip4_address_clear_host_address (addr, plen)] is defined
    outside the files modelled here; the lookups only compare its results,
    and the development is parametric in it. *)
Variable nm_utils_ip4_address_clear_host_address : Z -> Z -> Z.

(** The test of both lookups: [host] and [network] agree once their host
    parts are cleared under the prefix [plen]. *)
Definition same_subnet (host network plen : Z) : bool :=
  nm_utils_ip4_address_clear_host_address host plen
  =? nm_utils_ip4_address_clear_host_address network plen.

(** The loop of [nm_ip4_config_get_direct_route_for_host], with
    [best_route] as it is when the loop reaches [items]. *)
Fixpoint direct_route_loop (items : list NMPlatformIP4Route) (host : Z)
    (best_route : option NMPlatformIP4Route) : option NMPlatformIP4Route :=
  match items with
  | [] => best_route
  | item :: rest =>
      if negb (route_gateway item =? 0)
      then direct_route_loop rest host best_route
      else if match best_route with
              | Some best => route_plen best >? route_plen item
              | None => false
              end
      then direct_route_loop rest host best_route
      else if negb (same_subnet host (route_network item) (route_plen item))
      then direct_route_loop rest host best_route
      else if match best_route with
              | Some best => route_metric best <=? route_metric item
              | None => false
              end
      then direct_route_loop rest host best_route
      else direct_route_loop rest host (Some item)
  end.

Definition nm_ip4_config_get_direct_route_for_host (config : NMIP4Config)
    (host : Z) : option NMPlatformIP4Route :=
  if host =? 0 then None
  else direct_route_loop (routes config) host None.

(** The loop of [nm_ip4_config_get_subnet_for_host]. *)
Fixpoint subnet_loop (items : list NMPlatformIP4Address) (host : Z)
    (subnet : option NMPlatformIP4Address) : option NMPlatformIP4Address :=
  match items with
  | [] => subnet
  | item :: rest =>
      if match subnet with
         | Some found => addr_plen found >=? addr_plen item
         | None => false
         end
      then subnet_loop rest host subnet
      else if negb (same_subnet host (addr_address item) (addr_plen item))
      then subnet_loop rest host subnet
      else subnet_loop rest host (Some item)
  end.

Definition nm_ip4_config_get_subnet_for_host (config : NMIP4Config)
    (host : Z) : option NMPlatformIP4Address :=
  if host =? 0 then None
  else subnet_loop (addresses config) host None.

(** The address [item] is on the subnet of [host], under its own prefix. *)
Definition address_covers (host : Z) (item : NMPlatformIP4Address) : Prop :=
  same_subnet host (addr_address item) (addr_plen item) = true.

(** The route [item] is a direct route (no gateway) whose network holds
    [host]. *)
Definition route_reaches (host : Z) (item : NMPlatformIP4Route) : Prop :=
  route_gateway item = 0
  /\ same_subnet host (route_network item) (route_plen item) = true.

End HostLookup.

(** ** The name servers of resolv.conf *)

(** The entries of the file that [inet_pton] could read. *)
Definition parsed_nameservers (read_ns : list (option Z)) : list Z :=
  flat_map (fun entry => match entry with Some ns => [ns] | None => [] end)
    read_ns.

(** ** Creating a setting *)

Inductive ip4_method : Type :=
| NM_SETTING_IP4_CONFIG_METHOD_AUTO
| NM_SETTING_IP4_CONFIG_METHOD_MANUAL
| NM_SETTING_IP4_CONFIG_METHOD_DISABLED.

(** The address loop of [nm_ip4_config_create_setting]: [method] after the
    loop, and the stored addresses for which an [NMIPAddress] is built and
    handed to [nm_setting_ip_config_add_address], in order. *)
Fixpoint create_setting_addresses (items : list NMPlatformIP4Address)
    (method : option ip4_method)
  : option ip4_method * list NMPlatformIP4Address :=
  match items with
  | [] => (method, [])
  | address :: rest =>
      if negb (addr_lifetime address =? NM_PLATFORM_LIFETIME_PERMANENT)
      then create_setting_addresses rest
             (Some NM_SETTING_IP4_CONFIG_METHOD_AUTO)
      else
        let method :=
          match method with
          | None => Some NM_SETTING_IP4_CONFIG_METHOD_MANUAL
          | Some m => Some m
          end in
        let '(method', handed) := create_setting_addresses rest method in
        (method', address :: handed)
  end.

(** The method that [nm_ip4_config_create_setting] sets; a NULL [config]
    gives a disabled setting. *)
Definition create_setting_method (config : option NMIP4Config) : ip4_method :=
  match config with
  | None => NM_SETTING_IP4_CONFIG_METHOD_DISABLED
  | Some config =>
      match fst (create_setting_addresses (addresses config) None) with
      | Some method => method
      | None => NM_SETTING_IP4_CONFIG_METHOD_DISABLED
      end
  end.

(** The routes for which [nm_ip4_config_create_setting] builds an
    [NMIPRoute]. *)
Definition create_setting_routes (config : NMIP4Config)
  : list NMPlatformIP4Route :=
  filter (fun route =>
            negb (route_plen route =? 0)
            && (route_source route =? NM_IP_CONFIG_SOURCE_USER))
    (routes config).

(** ** The legacy D-Bus properties *)

(** The value of the property "Addresses": one array (address, prefix,
    gateway) for every address, the gateway in the first one only. *)
Fixpoint get_property_addresses_loop (items : list NMPlatformIP4Address)
    (i : nat) (gw : Z) : list (list Z) :=
  match items with
  | [] => []
  | address :: rest =>
      [addr_address address; addr_plen address;
       if Nat.eqb i 0 then gw else 0]
      :: get_property_addresses_loop rest (S i) gw
  end.

Definition get_property_addresses (config : NMIP4Config) : list (list Z) :=
  get_property_addresses_loop (addresses config) 0 (gateway config).

(** The value of the property "Routes": one array (network, prefix,
    gateway, metric) for every route that is not a default route. *)
Definition get_property_routes (config : NMIP4Config) : list (list Z) :=
  map (fun route =>
         [route_network route; route_plen route; route_gateway route;
          route_metric route])
    (filter (fun route => negb (NM_PLATFORM_IP_ROUTE_IS_DEFAULT route))
       (routes config)).

(** ** More example aggregates *)

Module MtuExample.

(** An aggregate whose MTU of 1400 comes from the kernel. *)
Definition kernel_mtu : NMIP4Config :=
  with_mtu nm_ip4_config_new 1400 NM_IP_CONFIG_SOURCE_KERNEL.

End MtuExample.

Module InstallExample.

(** The empty aggregate after [replace] from [ReplaceExample.full]. *)
Definition installed : NMIP4Config :=
  rs_dst (replace_steps nm_ip4_config_new ReplaceExample.full).

(** A link without routes that carries one address, and a resolv.conf
    with one name server. *)
Definition platform : NMPlatform :=
  mkPlatform (fun _ => 0) (fun _ => [ReplaceExample.address]) (fun _ => [])
    (Some [Some (inet_addr 8 8 8 8)]) (fun _ _ => true) (fun _ => 1500).

End InstallExample.

Module PrefixZeroExample.

(** An aggregate with the address 192.168.1.10/0 and the route
    192.168.1.0/24 via 0.0.0.0. *)
Definition address : NMPlatformIP4Address :=
  mkAddress 2 NM_IP_CONFIG_SOURCE_KERNEL 0 NM_PLATFORM_LIFETIME_PERMANENT
    NM_PLATFORM_LIFETIME_PERMANENT 0 (inet_addr 192 168 1 10) EmptyString.
Definition route : NMPlatformIP4Route :=
  mkRoute 2 NM_IP_CONFIG_SOURCE_USER 24 100 (inet_addr 192 168 1 0) 0.
Definition config : NMIP4Config :=
  nm_ip4_config_add_route
    (nm_ip4_config_add_address nm_ip4_config_new address) route.

(** A processor that takes the count of a 32-bit shift modulo 32, so that
    a shift by 32 leaves the value as it is. *)
Definition count_modulo_32 (x n : Z) : Z := Z.shiftr x (n mod 32).

End PrefixZeroExample.

Module SubtractExample.

(** Two objects, at the places 0 and 1 of a store. *)
Definition heap : objects :=
  fun p => if Nat.eqb p 0 then CancellationExample.C
           else CancellationExample.A.

(** An aggregate with the addresses 10.0.0.5/24, 10.0.0.6/24 and
    10.0.0.7/24, alone in its store. *)
Definition first : NMPlatformIP4Address :=
  mkAddress 2 NM_IP_CONFIG_SOURCE_USER 0 NM_PLATFORM_LIFETIME_PERMANENT
    NM_PLATFORM_LIFETIME_PERMANENT 24 (inet_addr 10 0 0 5) EmptyString.
Definition second : NMPlatformIP4Address :=
  mkAddress 2 NM_IP_CONFIG_SOURCE_USER 0 NM_PLATFORM_LIFETIME_PERMANENT
    NM_PLATFORM_LIFETIME_PERMANENT 24 (inet_addr 10 0 0 6) EmptyString.
Definition third : NMPlatformIP4Address :=
  mkAddress 2 NM_IP_CONFIG_SOURCE_USER 0 NM_PLATFORM_LIFETIME_PERMANENT
    NM_PLATFORM_LIFETIME_PERMANENT 24 (inet_addr 10 0 0 7) EmptyString.
Definition alone : objects :=
  fun _ => with_addresses nm_ip4_config_new [first; second; third].

End SubtractExample.

(** * Properties *)

(** ** The checksum is SHA-1: the test vectors of FIPS 180 *)

Example sha1_abc :
  SHA1.digest (string_bytes "abc")
  = [169; 153; 62; 54; 71; 6; 129; 106; 186; 62;
     37; 113; 120; 80; 194; 108; 156; 208; 216; 157].
Proof. vm_compute. reflexivity. Qed.

Example sha1_empty :
  SHA1.digest []
  = [218; 57; 163; 238; 94; 107; 75; 13; 50; 85;
     191; 239; 149; 96; 24; 144; 175; 216; 7; 9].
Proof. vm_compute. reflexivity. Qed.

Example sha1_two_blocks :
  SHA1.digest
    (string_bytes "abcdbcdecdefdefgefghfghighijhijkijkljklmklmnlmnomnopnopq")
  = [132; 152; 62; 68; 28; 59; 210; 110; 186; 174;
     74; 161; 249; 81; 41; 229; 229; 70; 112; 241].
Proof. vm_compute. reflexivity. Qed.

(** ** Comparison helpers *)

Lemma MAX_max (a b : Z) : MAX a b = Z.max a b.
Proof. unfold MAX. destruct (Z.gtb_spec a b); lia. Qed.

Lemma cmp_field_zero (x y rest : Z) :
  cmp_field x y rest = 0 <-> x = y /\ rest = 0.
Proof.
  unfold cmp_field.
  destruct (Z.eqb_spec x y) as [E | E]; simpl.
  - tauto.
  - destruct (x <? y); split; intros H; try discriminate; tauto.
Qed.

Lemma cmp_field_str_zero (x y : string) (rest : Z) :
  cmp_field_str x y rest = 0 <-> x = y /\ rest = 0.
Proof.
  unfold cmp_field_str.
  destruct (String.eqb_spec x y) as [E | E]; simpl.
  - tauto.
  - destruct (String.compare x y); split; intros H; try discriminate; tauto.
Qed.

Lemma address_cmp_zero (a b : NMPlatformIP4Address) :
  nm_platform_ip4_address_cmp a b = 0 <-> a = b.
Proof.
  unfold nm_platform_ip4_address_cmp.
  rewrite !cmp_field_zero, cmp_field_str_zero.
  destruct a, b; simpl. split.
  - intros (? & ? & ? & ? & ? & ? & ? & ? & _). congruence.
  - intros E. injection E as -> -> -> -> -> -> -> ->. tauto.
Qed.

Lemma route_cmp_zero (a b : NMPlatformIP4Route) :
  nm_platform_ip4_route_cmp a b = 0 <-> a = b.
Proof.
  unfold nm_platform_ip4_route_cmp.
  rewrite !cmp_field_zero.
  destruct a, b; simpl. split.
  - intros (? & ? & ? & ? & ? & ? & _). congruence.
  - intros E. injection E as -> -> -> -> -> ->. tauto.
Qed.

Lemma address_cmp_refl (a : NMPlatformIP4Address) :
  nm_platform_ip4_address_cmp a a = 0.
Proof. apply address_cmp_zero. reflexivity. Qed.

Lemma route_cmp_refl (a : NMPlatformIP4Route) :
  nm_platform_ip4_route_cmp a a = 0.
Proof. apply route_cmp_zero. reflexivity. Qed.

(** ** MTU: the source-priority rule of [nm_ip4_config_set_mtu] *)

(** The three cases of [nm_ip4_config_set_mtu]. *)
Lemma set_mtu_cases (config : NMIP4Config) (new_mtu : Z)
    (source : NMIPConfigSource) :
  let config' := nm_ip4_config_set_mtu config new_mtu source in
  (source > mtu_source config ->
     mtu config' = new_mtu /\ mtu_source config' = source)
  /\ (source = mtu_source config ->
        mtu_source config' = mtu_source config
        /\ (mtu config = 0 \/ mtu config > new_mtu -> mtu config' = new_mtu)
        /\ (mtu config <> 0 /\ mtu config <= new_mtu ->
              mtu config' = mtu config))
  /\ (source < mtu_source config -> config' = config)
  /\ with_mtu config' (mtu config) (mtu_source config) = config.
Proof.
  unfold nm_ip4_config_set_mtu. cbv zeta.
  destruct (Z.gtb_spec source (mtu_source config)) as [Hgt | Hle];
    [ | destruct (Z.eqb_spec source (mtu_source config)) as [He | Hne];
        [ destruct (Z.eqb_spec (mtu config) 0) as [Hz | Hnz];
          [ | destruct (Z.gtb_spec (mtu config) new_mtu) as [Hg | Hng] ] | ] ];
    simpl; repeat split; intros; simpl; try lia;
    destruct config; reflexivity.
Qed.

(** C10. [set_mtu] overwrites the stored MTU together with its source when
    the new source is strictly higher than the stored one; with equal
    sources it replaces the stored MTU exactly when that is zero or strictly
    greater than the new value (the source stays); with a strictly lower
    source it changes nothing.  No other field of the object is touched. *)
Theorem set_mtu_source_priority (config : NMIP4Config) (new_mtu : Z)
    (source : NMIPConfigSource) :
  let config' := nm_ip4_config_set_mtu config new_mtu source in
  (source > mtu_source config ->
     mtu config' = new_mtu /\ mtu_source config' = source)
  /\ (source = mtu_source config ->
        mtu_source config' = mtu_source config
        /\ (mtu config = 0 \/ mtu config > new_mtu -> mtu config' = new_mtu)
        /\ (mtu config <> 0 /\ mtu config <= new_mtu ->
              mtu config' = mtu config))
  /\ (source < mtu_source config -> config' = config)
  /\ with_mtu config' (mtu config) (mtu_source config) = config.
Proof. exact (set_mtu_cases config new_mtu source). Qed.

Lemma set_mtu_source_priority_witness :
  mtu (nm_ip4_config_set_mtu Examples.dhcp_mtu 1400 NM_IP_CONFIG_SOURCE_USER)
  = 1400
  /\ mtu (nm_ip4_config_set_mtu Examples.dhcp_mtu 1400
            NM_IP_CONFIG_SOURCE_DHCP)
     = 1400
  /\ mtu (nm_ip4_config_set_mtu Examples.dhcp_mtu 9000
            NM_IP_CONFIG_SOURCE_DHCP)
     = 1500
  /\ nm_ip4_config_set_mtu Examples.dhcp_mtu 1400 NM_IP_CONFIG_SOURCE_KERNEL
     = Examples.dhcp_mtu.
Proof.
  pose proof (set_mtu_source_priority Examples.dhcp_mtu 1400
                NM_IP_CONFIG_SOURCE_USER) as (Hhigh & _).
  pose proof (set_mtu_source_priority Examples.dhcp_mtu 1400
                NM_IP_CONFIG_SOURCE_DHCP) as (_ & Heq1 & _).
  pose proof (set_mtu_source_priority Examples.dhcp_mtu 9000
                NM_IP_CONFIG_SOURCE_DHCP) as (_ & Heq2 & _).
  pose proof (set_mtu_source_priority Examples.dhcp_mtu 1400
                NM_IP_CONFIG_SOURCE_KERNEL) as (_ & _ & Hlow & _).
  split; [ apply Hhigh; reflexivity | ].
  split; [ apply Heq1; [ reflexivity | right; reflexivity ] | ].
  split; [ rewrite (proj2 (proj2 (Heq2 eq_refl)));
           [ reflexivity | split; [ discriminate | discriminate ] ] | ].
  apply Hlow. reflexivity.
Defined.

(** ** Every primitive rewrites one field *)

Lemma find_index_bound {T : Type} (p : T -> bool) (l : list T) (j : nat) :
  find_index p l = Some j -> (j < List.length l)%nat.
Proof.
  revert j. induction l as [| x l IH]; simpl; intros j H; [discriminate |].
  destruct (p x).
  - injection H as <-. lia.
  - destruct (find_index p l) as [k |]; [| discriminate].
    injection H as <-. specialize (IH k eq_refl). lia.
Qed.

(** Reduce projections and field updates, and nothing else. *)
Ltac config_simpl :=
  cbn [with_never_default with_gateway with_addresses with_routes
       with_nameservers with_domains with_searches with_mss with_nis
       with_nis_domain with_wins with_mtu
       path never_default gateway addresses routes nameservers domains
       searches mss nis nis_domain wins mtu mtu_source].

(** Case analysis on the tests of the goal, innermost first. *)
Ltac case_conditions :=
  repeat (match goal with
          | |- context [if ?b then _ else _] =>
              lazymatch b with
              | context [if _ then _ else _] => fail
              | context [match _ with Some _ => _ | None => _ end] => fail
              | _ => destruct b
              end
          | |- context [match ?o with Some _ => _ | None => _ end] =>
              lazymatch o with
              | context [if _ then _ else _] => fail
              | _ => destruct o
              end
          end; config_simpl).

Ltac by_cases_on_config c :=
  repeat match goal with
         | |- context [if ?b then _ else _] => destruct b
         | |- context [match ?o with Some _ => _ | None => _ end] =>
             destruct o as [[? ?] |]
         end;
  destruct c; reflexivity.

Lemma set_gateway_view (c : NMIP4Config) (gw : Z) :
  nm_ip4_config_set_gateway c gw = with_gateway c gw.
Proof.
  unfold nm_ip4_config_set_gateway.
  destruct (Z.eqb_spec (gateway c) gw) as [<- | _]; simpl;
    destruct c; reflexivity.
Qed.

Lemma add_address_view (c : NMIP4Config) (new : NMPlatformIP4Address) :
  nm_ip4_config_add_address c new
  = with_addresses c (address_array_add (addresses c) new).
Proof.
  unfold nm_ip4_config_add_address, nm_ip4_config_add_address_outcome,
    address_array_add.
  destruct (add_address_loop (addresses c) new) as [[? ?] |]; reflexivity.
Qed.

Lemma add_route_view (c : NMIP4Config) (new : NMPlatformIP4Route) :
  nm_ip4_config_add_route c new
  = with_routes c (route_array_add (routes c) new).
Proof.
  unfold nm_ip4_config_add_route, nm_ip4_config_add_route_outcome,
    route_array_add.
  destruct (negb (route_plen new >? 0)); simpl.
  - destruct c; reflexivity.
  - destruct (add_route_loop (routes c) new) as [[? ?] |]; reflexivity.
Qed.

Lemma add_nameserver_view (c : NMIP4Config) (new : Z) :
  nm_ip4_config_add_nameserver c new
  = with_nameservers c (array_add_nonzero (nameservers c) new).
Proof.
  unfold nm_ip4_config_add_nameserver, array_add_nonzero, array_add_unique.
  by_cases_on_config c.
Qed.

Lemma add_wins_view (c : NMIP4Config) (new : Z) :
  nm_ip4_config_add_wins c new
  = with_wins c (array_add_nonzero (wins c) new).
Proof.
  unfold nm_ip4_config_add_wins, array_add_nonzero, array_add_unique.
  by_cases_on_config c.
Qed.

Lemma add_nis_server_view (c : NMIP4Config) (new : Z) :
  nm_ip4_config_add_nis_server c new
  = with_nis c (array_add_unique (nis c) new).
Proof.
  unfold nm_ip4_config_add_nis_server, array_add_unique.
  by_cases_on_config c.
Qed.

Lemma add_domain_view (c : NMIP4Config) (new : string) :
  nm_ip4_config_add_domain c new
  = with_domains c (array_add_string (domains c) new).
Proof.
  unfold nm_ip4_config_add_domain, array_add_string.
  by_cases_on_config c.
Qed.

Lemma add_search_view (c : NMIP4Config) (new : string) :
  nm_ip4_config_add_search c new
  = with_searches c (array_add_string (searches c) new).
Proof.
  unfold nm_ip4_config_add_search, array_add_string.
  by_cases_on_config c.
Qed.

Ltac subtract_view_tac c get :=
  unfold array_remove_first;
  match goal with
  | |- context [find_index ?p (get c)] =>
      destruct (find_index p (get c)) as [j |] eqn:Hfind;
      [ apply find_index_bound in Hfind;
        apply Nat.ltb_lt in Hfind | destruct c; reflexivity ]
  end.

Lemma subtract_address_view (c : NMIP4Config) (a : NMPlatformIP4Address) :
  subtract_address c a
  = with_addresses c
      (array_remove_first
         (fun d => (addr_address a =? addr_address d)
                   && (addr_plen a =? addr_plen d))
         (addresses c)).
Proof.
  unfold subtract_address, nm_ip4_config_del_address.
  subtract_view_tac c addresses. now rewrite Hfind.
Qed.

Lemma subtract_route_view (c : NMIP4Config) (r : NMPlatformIP4Route) :
  subtract_route c r
  = with_routes c
      (array_remove_first
         (fun d => (route_network r =? route_network d)
                   && (route_plen r =? route_plen d))
         (routes c)).
Proof.
  unfold subtract_route, nm_ip4_config_del_route.
  subtract_view_tac c routes. now rewrite Hfind.
Qed.

Lemma subtract_nameserver_view (c : NMIP4Config) (x : Z) :
  subtract_nameserver c x
  = with_nameservers c
      (array_remove_first (fun d => d =? x) (nameservers c)).
Proof.
  unfold subtract_nameserver, nm_ip4_config_del_nameserver.
  subtract_view_tac c nameservers. now rewrite Hfind.
Qed.

Lemma subtract_nis_server_view (c : NMIP4Config) (x : Z) :
  subtract_nis_server c x
  = with_nis c (array_remove_first (fun d => d =? x) (nis c)).
Proof.
  unfold subtract_nis_server, nm_ip4_config_del_nis_server.
  subtract_view_tac c nis. now rewrite Hfind.
Qed.

Lemma subtract_wins_view (c : NMIP4Config) (x : Z) :
  subtract_wins c x
  = with_wins c (array_remove_first (fun d => d =? x) (wins c)).
Proof.
  unfold subtract_wins, nm_ip4_config_del_wins.
  subtract_view_tac c wins. now rewrite Hfind.
Qed.

Lemma subtract_domain_view (c : NMIP4Config) (x : string) :
  subtract_domain c x
  = with_domains c (array_remove_first (String.eqb x) (domains c)).
Proof.
  unfold subtract_domain, nm_ip4_config_del_domain.
  subtract_view_tac c domains. now rewrite Hfind.
Qed.

Lemma subtract_search_view (c : NMIP4Config) (x : string) :
  subtract_search c x
  = with_searches c (array_remove_first (String.eqb x) (searches c)).
Proof.
  unfold subtract_search, nm_ip4_config_del_search.
  subtract_view_tac c searches. now rewrite Hfind.
Qed.

(** A loop that calls such a primitive for every element of an array
    rewrites the same field with the folded array function. *)
Section FoldView.
Context {X T : Type}.
Variable f : NMIP4Config -> X -> NMIP4Config.
Variable g : list T -> X -> list T.
Variable get : NMIP4Config -> list T.
Variable set : NMIP4Config -> list T -> NMIP4Config.
Hypothesis view : forall c x, f c x = set c (g (get c) x).
Hypothesis get_set : forall c l, get (set c l) = l.
Hypothesis set_set : forall c l l', set (set c l) l' = set c l'.
Hypothesis set_get : forall c, set c (get c) = c.

Lemma fold_view (xs : list X) (c : NMIP4Config) :
  fold_left f xs c = set c (fold_left g xs (get c)).
Proof.
  revert c. induction xs as [| x xs IH]; intros c; simpl.
  - symmetry. apply set_get.
  - rewrite IH, view, get_set, set_set. reflexivity.
Qed.
End FoldView.

Ltac field_law :=
  intros;
  try match goal with c : NMIP4Config |- _ => destruct c end;
  reflexivity.

Lemma fold_add_address (xs : list NMPlatformIP4Address) (c : NMIP4Config) :
  fold_left nm_ip4_config_add_address xs c
  = with_addresses c (fold_left address_array_add xs (addresses c)).
Proof.
  apply (fold_view _ _ addresses with_addresses); try field_law.
  apply add_address_view.
Qed.

Lemma fold_add_route (xs : list NMPlatformIP4Route) (c : NMIP4Config) :
  fold_left nm_ip4_config_add_route xs c
  = with_routes c (fold_left route_array_add xs (routes c)).
Proof.
  apply (fold_view _ _ routes with_routes); try field_law.
  apply add_route_view.
Qed.

Lemma fold_add_nameserver (xs : list Z) (c : NMIP4Config) :
  fold_left nm_ip4_config_add_nameserver xs c
  = with_nameservers c (fold_left array_add_nonzero xs (nameservers c)).
Proof.
  apply (fold_view _ _ nameservers with_nameservers); try field_law.
  apply add_nameserver_view.
Qed.

Lemma fold_add_wins (xs : list Z) (c : NMIP4Config) :
  fold_left nm_ip4_config_add_wins xs c
  = with_wins c (fold_left array_add_nonzero xs (wins c)).
Proof.
  apply (fold_view _ _ wins with_wins); try field_law.
  apply add_wins_view.
Qed.

Lemma fold_add_nis_server (xs : list Z) (c : NMIP4Config) :
  fold_left nm_ip4_config_add_nis_server xs c
  = with_nis c (fold_left array_add_unique xs (nis c)).
Proof.
  apply (fold_view _ _ nis with_nis); try field_law.
  apply add_nis_server_view.
Qed.

Lemma fold_add_domain (xs : list string) (c : NMIP4Config) :
  fold_left nm_ip4_config_add_domain xs c
  = with_domains c (fold_left array_add_string xs (domains c)).
Proof.
  apply (fold_view _ _ domains with_domains); try field_law.
  apply add_domain_view.
Qed.

Lemma fold_add_search (xs : list string) (c : NMIP4Config) :
  fold_left nm_ip4_config_add_search xs c
  = with_searches c (fold_left array_add_string xs (searches c)).
Proof.
  apply (fold_view _ _ searches with_searches); try field_law.
  apply add_search_view.
Qed.

Lemma fold_subtract_address (xs : list NMPlatformIP4Address)
    (c : NMIP4Config) :
  fold_left subtract_address xs c
  = with_addresses c
      (fold_left
         (fun l a =>
            array_remove_first
              (fun d => (addr_address a =? addr_address d)
                        && (addr_plen a =? addr_plen d)) l)
         xs (addresses c)).
Proof.
  apply (fold_view _ _ addresses with_addresses); try field_law.
  apply subtract_address_view.
Qed.

Lemma fold_subtract_route (xs : list NMPlatformIP4Route) (c : NMIP4Config) :
  fold_left subtract_route xs c
  = with_routes c
      (fold_left
         (fun l r =>
            array_remove_first
              (fun d => (route_network r =? route_network d)
                        && (route_plen r =? route_plen d)) l)
         xs (routes c)).
Proof.
  apply (fold_view _ _ routes with_routes); try field_law.
  apply subtract_route_view.
Qed.

Lemma fold_subtract_nameserver (xs : list Z) (c : NMIP4Config) :
  fold_left subtract_nameserver xs c
  = with_nameservers c
      (fold_left (fun l x => array_remove_first (fun d => d =? x) l) xs
         (nameservers c)).
Proof.
  apply (fold_view _ _ nameservers with_nameservers); try field_law.
  apply subtract_nameserver_view.
Qed.

Lemma fold_subtract_nis_server (xs : list Z) (c : NMIP4Config) :
  fold_left subtract_nis_server xs c
  = with_nis c
      (fold_left (fun l x => array_remove_first (fun d => d =? x) l) xs
         (nis c)).
Proof.
  apply (fold_view _ _ nis with_nis); try field_law.
  apply subtract_nis_server_view.
Qed.

Lemma fold_subtract_wins (xs : list Z) (c : NMIP4Config) :
  fold_left subtract_wins xs c
  = with_wins c
      (fold_left (fun l x => array_remove_first (fun d => d =? x) l) xs
         (wins c)).
Proof.
  apply (fold_view _ _ wins with_wins); try field_law.
  apply subtract_wins_view.
Qed.

Lemma fold_subtract_domain (xs : list string) (c : NMIP4Config) :
  fold_left subtract_domain xs c
  = with_domains c
      (fold_left (fun l x => array_remove_first (String.eqb x) l) xs
         (domains c)).
Proof.
  apply (fold_view _ _ domains with_domains); try field_law.
  apply subtract_domain_view.
Qed.

Lemma fold_subtract_search (xs : list string) (c : NMIP4Config) :
  fold_left subtract_search xs c
  = with_searches c
      (fold_left (fun l x => array_remove_first (String.eqb x) l) xs
         (searches c)).
Proof.
  apply (fold_view _ _ searches with_searches); try field_law.
  apply subtract_search_view.
Qed.

(** [merge], field by field. *)
Lemma merge_view (dst src : NMIP4Config) :
  nm_ip4_config_merge dst src
  = mkConfig (path dst) (never_default dst)
      (if gateway dst =? 0 then gateway src else gateway dst)
      (fold_left address_array_add (addresses src) (addresses dst))
      (fold_left route_array_add (routes src) (routes dst))
      (fold_left array_add_nonzero (nameservers src) (nameservers dst))
      (fold_left array_add_string (domains src) (domains dst))
      (fold_left array_add_string (searches src) (searches dst))
      (if mss dst =? 0 then mss src else mss dst)
      (fold_left array_add_unique (nis src) (nis dst))
      (match nis_domain src with
       | Some d => Some d
       | None => nis_domain dst
       end)
      (fold_left array_add_nonzero (wins src) (wins dst))
      (mtu (if mtu dst =? 0
            then nm_ip4_config_set_mtu dst (mtu src) (mtu_source src)
            else dst))
      (mtu_source (if mtu dst =? 0
                   then nm_ip4_config_set_mtu dst (mtu src) (mtu_source src)
                   else dst)).
Proof.
  unfold nm_ip4_config_merge.
  rewrite fold_add_address, fold_add_nameserver, set_gateway_view.
  rewrite fold_add_route, fold_add_domain, fold_add_search.
  rewrite fold_add_nis_server, fold_add_wins.
  unfold nm_ip4_config_set_mss, nm_ip4_config_set_nis_domain,
    nm_ip4_config_set_mtu.
  destruct dst, src; config_simpl.
  case_conditions; reflexivity.
Qed.

(** ** Merge: the scalar fields *)

(** C2, as the code has it.  [merge] leaves a non-zero gateway, MSS and MTU
    (with its source) of [dst] alone and fills a zero one from [src], the
    MTU through the source-priority rule of [set_mtu].  The NIS domain
    follows another rule: it is taken from [src] whenever [src] has one,
    whatever [dst] holds, and is left alone when [src] has none. *)
Theorem merge_scalar_fields (dst src : NMIP4Config) :
  let merged := nm_ip4_config_merge dst src in
  (gateway dst <> 0 -> gateway merged = gateway dst)
  /\ (gateway dst = 0 -> gateway merged = gateway src)
  /\ (mss dst <> 0 -> mss merged = mss dst)
  /\ (mss dst = 0 -> mss merged = mss src)
  /\ (mtu dst <> 0 ->
        mtu merged = mtu dst /\ mtu_source merged = mtu_source dst)
  /\ (mtu dst = 0 -> mtu_source dst <= mtu_source src ->
        mtu merged = mtu src /\ mtu_source merged = mtu_source src)
  /\ (mtu dst = 0 -> mtu_source src < mtu_source dst ->
        mtu merged = 0 /\ mtu_source merged = mtu_source dst)
  /\ (forall d, nis_domain src = Some d -> nis_domain merged = Some d)
  /\ (nis_domain src = None -> nis_domain merged = nis_domain dst).
Proof.
  intros merged. subst merged. rewrite merge_view. config_simpl.
  repeat split.
  - intros H. destruct (Z.eqb_spec (gateway dst) 0); congruence.
  - intros H. destruct (Z.eqb_spec (gateway dst) 0); congruence.
  - intros H. destruct (Z.eqb_spec (mss dst) 0); congruence.
  - intros H. destruct (Z.eqb_spec (mss dst) 0); congruence.
  - destruct (Z.eqb_spec (mtu dst) 0); congruence.
  - destruct (Z.eqb_spec (mtu dst) 0); congruence.
  - destruct (Z.eqb_spec (mtu dst) 0) as [E | E]; [ | congruence ].
    pose proof (set_mtu_cases dst (mtu src) (mtu_source src))
      as (Hgt & Heq & _).
    cbv zeta in Hgt, Heq.
    destruct (Z.eq_dec (mtu_source src) (mtu_source dst)) as [Es | Es].
    + apply (proj1 (proj2 (Heq Es))). now left.
    + apply Hgt. lia.
  - destruct (Z.eqb_spec (mtu dst) 0) as [E | E]; [ | congruence ].
    pose proof (set_mtu_cases dst (mtu src) (mtu_source src))
      as (Hgt & Heq & _).
    cbv zeta in Hgt, Heq.
    destruct (Z.eq_dec (mtu_source src) (mtu_source dst)) as [Es | Es].
    + rewrite (proj1 (Heq Es)). symmetry. exact Es.
    + apply Hgt. lia.
  - destruct (Z.eqb_spec (mtu dst) 0) as [E | E]; [ | congruence ].
    pose proof (set_mtu_cases dst (mtu src) (mtu_source src))
      as (_ & _ & Hlt & _).
    cbv zeta in Hlt. rewrite Hlt by lia. exact E.
  - destruct (Z.eqb_spec (mtu dst) 0) as [E | E]; [ | congruence ].
    pose proof (set_mtu_cases dst (mtu src) (mtu_source src))
      as (_ & _ & Hlt & _).
    cbv zeta in Hlt. rewrite Hlt by lia. reflexivity.
  - intros d ->. reflexivity.
  - intros ->. reflexivity.
Qed.

Lemma merge_scalar_fields_witness :
  nis_domain (nm_ip4_config_merge Examples.nis_dst Examples.nis_src)
  = Some "office.example"%string
  /\ gateway (nm_ip4_config_merge
                (with_gateway nm_ip4_config_new (inet_addr 10 0 0 1))
                (with_gateway nm_ip4_config_new (inet_addr 10 0 0 254)))
     = inet_addr 10 0 0 1.
Proof.
  split.
  - apply (merge_scalar_fields Examples.nis_dst Examples.nis_src).
    reflexivity.
  - apply (merge_scalar_fields
             (with_gateway nm_ip4_config_new (inet_addr 10 0 0 1))
             (with_gateway nm_ip4_config_new (inet_addr 10 0 0 254))).
    simpl. discriminate.
Defined.

(** C2 as the spec words it fails for the NIS domain: [dst] has a NIS
    domain of its own and [merge] replaces it by that of [src]. *)
Lemma merge_overwrites_nis_domain :
  nis_domain Examples.nis_dst = Some "lab.example"%string
  /\ nis_domain (nm_ip4_config_merge Examples.nis_dst Examples.nis_src)
     <> nis_domain Examples.nis_dst.
Proof. split; [ reflexivity | vm_compute; discriminate ]. Qed.

(** ** Routes: [add_route] *)

Lemma routes_are_duplicate_identity (a b : NMPlatformIP4Route) :
  routes_are_duplicate a b false = true
  <-> route_identity a = route_identity b.
Proof.
  unfold routes_are_duplicate, route_identity. simpl.
  rewrite Bool.andb_true_r, Bool.andb_true_iff, !Z.eqb_eq.
  split; [ intros [-> ->]; reflexivity | intros E; injection E; auto ].
Qed.

Lemma overwrite_route_same (r : NMPlatformIP4Route) : overwrite_route r r = r.
Proof.
  unfold overwrite_route. rewrite MAX_max, Z.max_id. destruct r; reflexivity.
Qed.

(** The loop stops at the first stored route with the identity of [new]
    and leaves [new] there, with the higher of the two sources. *)
Lemma add_route_loop_first (before after : list NMPlatformIP4Route)
    (old new : NMPlatformIP4Route) :
  (forall r, In r before -> route_identity r <> route_identity new) ->
  route_identity old = route_identity new ->
  exists o,
    add_route_loop (before ++ old :: after) new
    = Some (before ++ overwrite_route old new :: after, o).
Proof.
  intros Hbefore Hold.
  induction before as [| r before IH]; simpl.
  - rewrite (proj2 (routes_are_duplicate_identity old new) Hold).
    destruct (Z.eqb_spec (nm_platform_ip4_route_cmp old new) 0) as [E | E].
    + apply route_cmp_zero in E. subst new. rewrite overwrite_route_same.
      eauto.
    + eauto.
  - destruct (routes_are_duplicate r new false) eqn:D.
    + apply routes_are_duplicate_identity in D.
      exfalso. apply (Hbefore r); [ now left | exact D ].
    + destruct IH as [o IH]; [ intros r' Hr'; apply Hbefore; now right | ].
      rewrite IH. eauto.
Qed.

(** C7. [add_route] refuses a route with prefix length 0 and leaves the
    aggregate as it was.  For a route with a positive prefix length whose
    identity (network, prefix) is that of a stored route, the stored record
    found by the lookup (the first with that identity, the only one in an
    aggregate with unique identities) becomes the new record, except that
    its source is the higher of the old and the new source; nothing else
    in the aggregate changes. *)
Theorem add_route_rejects_default_and_replaces (config : NMIP4Config)
    (new : NMPlatformIP4Route) :
  (route_plen new = 0 ->
     nm_ip4_config_add_route_outcome config new = (config, Rejected))
  /\ (forall before old after,
        route_plen new > 0 ->
        routes config = before ++ old :: after ->
        (forall r, In r before -> route_identity r <> route_identity new) ->
        route_identity old = route_identity new ->
        nm_ip4_config_add_route config new
        = with_routes config
            (before
             ++ mkRoute (route_ifindex new)
                  (Z.max (route_source old) (route_source new))
                  (route_plen new) (route_metric new) (route_network new)
                  (route_gateway new)
             :: after)).
Proof.
  split.
  - intros H. unfold nm_ip4_config_add_route_outcome. rewrite H. reflexivity.
  - intros before old after Hplen Hroutes Hbefore Hold.
    rewrite add_route_view. f_equal.
    unfold route_array_add.
    destruct (Z.gtb_spec (route_plen new) 0) as [_ | Hle]; [ | lia ].
    simpl. rewrite Hroutes.
    destruct (add_route_loop_first before after old new Hbefore Hold)
      as [o ->].
    unfold overwrite_route. rewrite MAX_max. reflexivity.
Qed.

Lemma add_route_rejects_default_and_replaces_witness :
  nm_ip4_config_add_route_outcome CommitExample.config
    (mkRoute 2 NM_IP_CONFIG_SOURCE_USER 0 100 0 (inet_addr 10 0 0 1))
  = (CommitExample.config, Rejected)
  /\ routes
       (nm_ip4_config_add_route CommitExample.config
          (mkRoute 2 NM_IP_CONFIG_SOURCE_DHCP 16 50 (inet_addr 172 16 0 0)
             (inet_addr 10 0 0 254)))
     = [CommitExample.on_link_route;
        mkRoute 2 NM_IP_CONFIG_SOURCE_USER 16 50 (inet_addr 172 16 0 0)
          (inet_addr 10 0 0 254)].
Proof.
  split.
  - apply (add_route_rejects_default_and_replaces CommitExample.config).
    reflexivity.
  - rewrite (proj2 (add_route_rejects_default_and_replaces
                      CommitExample.config
                      (mkRoute 2 NM_IP_CONFIG_SOURCE_DHCP 16 50
                         (inet_addr 172 16 0 0) (inet_addr 10 0 0 254)))
               [CommitExample.on_link_route] CommitExample.gateway_route []).
    + reflexivity.
    + reflexivity.
    + reflexivity.
    + intros r [<- | []]. vm_compute. discriminate.
    + reflexivity.
Defined.

(** ** Commit: routes covered by an on-link subnet *)



Section CommitProperties.

Variable shift_out_of_range : Z -> Z -> Z.





End CommitProperties.



(** The scenario of the spec: the route 10.0.0.0/24 via 0.0.0.0 of an
    aggregate with the address 10.0.0.5/24 does not reach the platform. *)
Example commit_scenario (shift_out_of_range : Z -> Z -> Z) :
  nm_ip4_config_commit shift_out_of_range CommitExample.platform
    CommitExample.config 2 100
  = (true,
     [ip4_address_sync 2 [CommitExample.address] 100;
      ip4_route_sync 2 [CommitExample.gateway_route]]).
Proof. reflexivity. Qed.

(** With an address of prefix 0 it is the shift out of range alone that
    decides whether a covered route reaches the platform. *)
Example commit_routes_prefix_zero (shift_out_of_range : Z -> Z -> Z) :
  commit_routes shift_out_of_range PrefixZeroExample.config
  = if shift_out_of_range
         (ntohl (addr_address PrefixZeroExample.address)) 32
       =? shift_out_of_range
            (ntohl (route_network PrefixZeroExample.route)) 32
    then []
    else [PrefixZeroExample.route].
Proof.
  unfold commit_routes, nm_ip4_config_destination_is_direct, same_prefix,
    guint32_shift_right.
  cbn -[ntohl Z.eqb inet_addr].
  destruct (shift_out_of_range _ _ =? shift_out_of_range _ _); reflexivity.
Qed.

(** C5 fails on the code for an address of prefix 0.  The aggregate holds
    the address 192.168.1.10/0 and the route 192.168.1.0/24 via 0.0.0.0.
    The prefix of the address is not longer than that of the route and
    under the prefix 0 every two networks have the same masked network, so
    the route is covered by an on-link subnet of the aggregate.
    [same_prefix] shifts by 32 - 0 = 32 bits, which C leaves undefined; on
    a processor that takes the shift count modulo 32 it compares the two
    unshifted values, finds them different, and [commit] hands the covered
    route to the route synchronization of the platform. *)
Theorem commit_passes_covered_route :
  In PrefixZeroExample.route (routes PrefixZeroExample.config)
  /\ route_gateway PrefixZeroExample.route = 0
  /\ covered_by_on_link_subnet PrefixZeroExample.config
       PrefixZeroExample.route
  /\ nm_ip4_config_commit PrefixZeroExample.count_modulo_32
       CommitExample.platform PrefixZeroExample.config 2 100
     = (true,
        [ip4_address_sync 2 [PrefixZeroExample.address] 100;
         ip4_route_sync 2 [PrefixZeroExample.route]]).
Proof.
  split; [ left; reflexivity | ].
  split; [ reflexivity | ].
  split; [ | reflexivity ].
  exists PrefixZeroExample.address.
  split; [ left; reflexivity | ].
  split; [ discriminate | reflexivity ].
Qed.

(** ** Addresses: [add_address] *)

Lemma addresses_are_duplicate_address (a b : NMPlatformIP4Address) :
  addresses_are_duplicate a b false = true
  <-> addr_address a = addr_address b.
Proof.
  unfold addresses_are_duplicate. simpl.
  rewrite Bool.andb_true_r. apply Z.eqb_eq.
Qed.

Lemma overwrite_address_identity (old new : NMPlatformIP4Address) :
  addr_address (overwrite_address old new) = addr_address new
  /\ addr_plen (overwrite_address old new) = addr_plen new
  /\ addr_label (overwrite_address old new) = addr_label new
  /\ addr_ifindex (overwrite_address old new) = addr_ifindex new
  /\ addr_source (overwrite_address old new)
     = Z.max (addr_source old) (addr_source new).
Proof.
  unfold overwrite_address. rewrite MAX_max.
  destruct (_ || _); simpl; auto.
Qed.

Lemma keeps_old_lifetimes_test (old new : NMPlatformIP4Address) :
  ((addr_source new =? NM_IP_CONFIG_SOURCE_KERNEL)
   && negb (addr_source new =? addr_source old))
  || (nm_platform_ip_address_cmp_expiry old new >? 0) = true
  <-> keeps_old_lifetimes old new.
Proof.
  unfold keeps_old_lifetimes.
  rewrite Bool.orb_true_iff, Bool.andb_true_iff, Bool.negb_true_iff.
  rewrite Z.eqb_eq, Z.eqb_neq, Z.gtb_gt.
  split; (intros [[H1 H2] | H]; [ left | right; exact H ]);
    split; congruence.
Qed.

Lemma overwrite_address_lifetimes (old new : NMPlatformIP4Address) :
  (keeps_old_lifetimes old new ->
     address_lifetimes (overwrite_address old new) = address_lifetimes old)
  /\ (~ keeps_old_lifetimes old new ->
        address_lifetimes (overwrite_address old new)
        = address_lifetimes new).
Proof.
  unfold overwrite_address.
  destruct (_ || _) eqn:T; split; intros H; try reflexivity.
  - apply keeps_old_lifetimes_test in T. contradiction.
  - apply keeps_old_lifetimes_test in H. congruence.
Qed.

(** The loop stops at the first stored entry with the address of [new],
    whatever its prefix, and rewrites that entry. *)
Lemma add_address_loop_first (before after : list NMPlatformIP4Address)
    (old new : NMPlatformIP4Address) :
  (forall a, In a before -> addr_address a <> addr_address new) ->
  addr_address old = addr_address new ->
  old <> new ->
  exists o,
    add_address_loop (before ++ old :: after) new
    = Some (before ++ overwrite_address old new :: after, o).
Proof.
  intros Hbefore Hold Hnew.
  induction before as [| a before IH]; simpl.
  - rewrite (proj2 (addresses_are_duplicate_address old new) Hold).
    destruct (Z.eqb_spec (nm_platform_ip4_address_cmp old new) 0) as [E | E].
    + apply address_cmp_zero in E. contradiction.
    + destruct (_ =? 0); eauto.
  - destruct (addresses_are_duplicate a new false) eqn:D.
    + apply addresses_are_duplicate_address in D.
      exfalso. apply (Hbefore a); [ now left | exact D ].
    + destruct IH as [o IH]; [ intros a' Ha'; apply Hbefore; now right | ].
      rewrite IH. eauto.
Qed.

(** What the loop of [add_address] does.  It looks the stored entry up by
    its address alone, whatever its prefix.  The first stored entry with
    the address of [new], when it differs from [new], takes the prefix,
    label and interface of [new] and the higher of the two sources; it
    takes the lifetime, preferred lifetime and timestamp of [new] unless
    [new] is a kernel address that meets another source or the stored entry
    expires strictly later, in which case it keeps its own.  No other entry
    changes. *)
Lemma add_address_overwrites_first (config : NMIP4Config)
    (new : NMPlatformIP4Address)
    (before after : list NMPlatformIP4Address) (old : NMPlatformIP4Address) :
  addresses config = before ++ old :: after ->
  (forall a, In a before -> addr_address a <> addr_address new) ->
  addr_address old = addr_address new ->
  old <> new ->
  exists item,
    nm_ip4_config_add_address config new
    = with_addresses config (before ++ item :: after)
    /\ address_identity item = address_identity new
    /\ addr_ifindex item = addr_ifindex new
    /\ addr_label item = addr_label new
    /\ addr_source item = Z.max (addr_source old) (addr_source new)
    /\ (keeps_old_lifetimes old new ->
          address_lifetimes item = address_lifetimes old)
    /\ (~ keeps_old_lifetimes old new ->
          address_lifetimes item = address_lifetimes new).
Proof.
  intros Haddrs Hbefore Hold Hnew.
  exists (overwrite_address old new).
  destruct (overwrite_address_identity old new) as (Ha & Hp & Hl & Hi & Hs).
  destruct (overwrite_address_lifetimes old new) as (Hk & Hn).
  repeat split; auto.
  - rewrite add_address_view. f_equal. unfold address_array_add.
    rewrite Haddrs.
    destruct (add_address_loop_first before after old new Hbefore Hold Hnew)
      as [o ->].
    reflexivity.
  - unfold address_identity. congruence.
Qed.

Lemma add_address_overwrites_first_witness :
  exists item,
    nm_ip4_config_add_address AddressExample.config AddressExample.new
    = with_addresses AddressExample.config
        ([] ++ item :: [AddressExample.stored])
    /\ address_identity item = address_identity AddressExample.new
    /\ addr_ifindex item = addr_ifindex AddressExample.new
    /\ addr_label item = addr_label AddressExample.new
    /\ addr_source item
       = Z.max (addr_source AddressExample.wide)
           (addr_source AddressExample.new)
    /\ (keeps_old_lifetimes AddressExample.wide AddressExample.new ->
          address_lifetimes item = address_lifetimes AddressExample.wide)
    /\ (~ keeps_old_lifetimes AddressExample.wide AddressExample.new ->
          address_lifetimes item = address_lifetimes AddressExample.new).
Proof.
  apply (add_address_overwrites_first AddressExample.config
           AddressExample.new [] [AddressExample.stored]
           AddressExample.wide).
  - reflexivity.
  - intros a [].
  - reflexivity.
  - discriminate.
Defined.

(** When the first stored entry with the address of [new] has the prefix
    of [new] as well, [add_address] does what its docstring says: the entry
    with the identity (address, prefix) of [new] is overwritten.  It takes
    the label and interface of [new] and the higher of the two sources; it
    takes the lifetime, preferred lifetime and timestamp of [new] unless
    [new] is a kernel address that meets another source or the stored
    entry expires strictly later, in which case it keeps its own.  No
    other entry changes. *)
Theorem add_address_overwrites_same_identity (config : NMIP4Config)
    (new : NMPlatformIP4Address)
    (before after : list NMPlatformIP4Address) (old : NMPlatformIP4Address) :
  addresses config = before ++ old :: after ->
  (forall a, In a before -> addr_address a <> addr_address new) ->
  address_identity old = address_identity new ->
  old <> new ->
  exists item,
    nm_ip4_config_add_address config new
    = with_addresses config (before ++ item :: after)
    /\ address_identity item = address_identity old
    /\ addr_ifindex item = addr_ifindex new
    /\ addr_label item = addr_label new
    /\ addr_source item = Z.max (addr_source old) (addr_source new)
    /\ (keeps_old_lifetimes old new ->
          address_lifetimes item = address_lifetimes old)
    /\ (~ keeps_old_lifetimes old new ->
          address_lifetimes item = address_lifetimes new).
Proof.
  intros Haddrs Hbefore Hold Hnew.
  assert (addr_address old = addr_address new) as Haddress
      by (unfold address_identity in Hold; congruence).
  destruct (add_address_overwrites_first config new before after old
              Haddrs Hbefore Haddress Hnew)
    as (item & Hadd & Hid & Hrest).
  exists item. rewrite Hold. auto.
Qed.

Lemma add_address_overwrites_same_identity_witness :
  exists item,
    nm_ip4_config_add_address IdempotenceExample.config
      IdempotenceExample.new
    = with_addresses IdempotenceExample.config ([] ++ item :: [])
    /\ address_identity item = address_identity IdempotenceExample.old
    /\ addr_ifindex item = addr_ifindex IdempotenceExample.new
    /\ addr_label item = addr_label IdempotenceExample.new
    /\ addr_source item
       = Z.max (addr_source IdempotenceExample.old)
           (addr_source IdempotenceExample.new)
    /\ (keeps_old_lifetimes IdempotenceExample.old IdempotenceExample.new ->
          address_lifetimes item = address_lifetimes IdempotenceExample.old)
    /\ (~ keeps_old_lifetimes IdempotenceExample.old
           IdempotenceExample.new ->
          address_lifetimes item = address_lifetimes IdempotenceExample.new).
Proof.
  apply (add_address_overwrites_same_identity IdempotenceExample.config
           IdempotenceExample.new [] [] IdempotenceExample.old).
  - reflexivity.
  - intros a [].
  - reflexivity.
  - discriminate.
Defined.

(** C4 fails on the code at an aggregate captured from a link that carries
    10.0.0.5/16 and 10.0.0.5/24.  The aggregate holds an entry with the
    identity (address, prefix) of the new record 10.0.0.5/24 and other
    lifetimes; neither exception applies (the new record is not a kernel
    address and expires later), so by the claim, and by the docstring of
    [nm_ip4_config_add_address], that entry takes the lifetimes of the new
    record.  The loop tests [addresses_are_duplicate (item, new, FALSE)],
    without the prefix: it stops at the entry 10.0.0.5/16, turns that into
    a second 10.0.0.5/24 and leaves the entry with the identity of the new
    record as it was, with its old lifetime. *)
Theorem add_address_misses_stored_identity :
  In AddressExample.stored (addresses AddressExample.config)
  /\ address_identity AddressExample.stored
     = address_identity AddressExample.new
  /\ AddressExample.stored <> AddressExample.new
  /\ ~ keeps_old_lifetimes AddressExample.stored AddressExample.new
  /\ addresses
       (nm_ip4_config_add_address AddressExample.config AddressExample.new)
     = [mkAddress 2 NM_IP_CONFIG_SOURCE_DHCP 0 NM_PLATFORM_LIFETIME_PERMANENT
          NM_PLATFORM_LIFETIME_PERMANENT 24 (inet_addr 10 0 0 5) EmptyString;
        AddressExample.stored]
  /\ addr_lifetime AddressExample.stored <> addr_lifetime AddressExample.new.
Proof.
  split; [ right; left; reflexivity | ].
  split; [ reflexivity | ].
  split; [ discriminate | ].
  split.
  - intros [[H _] | H]; [ discriminate H | ].
    vm_compute in H. discriminate H.
  - split; [ vm_compute; reflexivity | discriminate ].
Qed.

(** ** Addresses: adding the same record twice *)







(** ** Identity uniqueness *)

Lemma NoDup_map_finer {A B C : Type} (f : A -> B) (g : A -> C) (l : list A) :
  (forall x y, g x = g y -> f x = f y) ->
  NoDup (map f l) -> NoDup (map g l).
Proof.
  intros Hfg. induction l as [| x l IH]; simpl; intros H.
  - constructor.
  - inversion H as [| ? ? Hnotin Hrest]; subst. constructor; auto.
    intros Hin. apply Hnotin.
    apply in_map_iff in Hin as (y & Hy & Hin).
    apply in_map_iff. exists y. split; [ apply Hfg; exact Hy | exact Hin ].
Qed.

Lemma addresses_distinct_unique (items : list NMPlatformIP4Address) :
  addresses_distinct items -> addresses_unique items.
Proof.
  apply NoDup_map_finer. unfold address_identity. intros x y E.
  now injection E.
Qed.

Lemma NoDup_map_remove_index {A B : Type} (f : A -> B) (l : list A)
    (i : nat) :
  NoDup (map f l) -> NoDup (map f (g_array_remove_index l i)).
Proof.
  revert i. induction l as [| x l IH]; intros i H; simpl.
  - constructor.
  - inversion H as [| ? ? Hnotin Hrest]; subst.
    destruct i as [| i]; [ exact Hrest | ].
    simpl. constructor; [ | apply IH; exact Hrest ].
    intros Hin. apply Hnotin. clear -Hin.
    revert i Hin. induction l as [| y l IHl]; intros i Hin.
    + destruct i; destruct Hin.
    + destruct i as [| i]; simpl in Hin.
      * right. exact Hin.
      * destruct Hin as [Hin | Hin]; [ now left | right; eauto ].
Qed.

Lemma NoDup_map_remove_first {A B : Type} (f : A -> B) (p : A -> bool)
    (l : list A) :
  NoDup (map f l) -> NoDup (map f (array_remove_first p l)).
Proof.
  intros H. unfold array_remove_first.
  destruct (find_index p l); [ apply NoDup_map_remove_index | ]; exact H.
Qed.

Lemma add_address_loop_addresses (items : list NMPlatformIP4Address)
    (new : NMPlatformIP4Address) :
  match add_address_loop items new with
  | Some (items', _) => map addr_address items' = map addr_address items
  | None => ~ In (addr_address new) (map addr_address items)
  end.
Proof.
  induction items as [| item rest IH]; simpl; [ tauto | ].
  destruct (addresses_are_duplicate item new false) eqn:D.
  - apply addresses_are_duplicate_address in D.
    destruct (overwrite_address_identity item new) as (Ha & _).
    destruct (_ =? 0); [ reflexivity | ].
    destruct (_ =? 0); simpl; congruence.
  - assert (addr_address item <> addr_address new) as N.
    { intros E. apply addresses_are_duplicate_address in E. congruence. }
    destruct (add_address_loop rest new) as [[rest' o] |]; simpl.
    + congruence.
    + intros [E | Hin]; auto.
Qed.

Lemma address_array_add_distinct (items : list NMPlatformIP4Address)
    (new : NMPlatformIP4Address) :
  addresses_distinct items -> addresses_distinct (address_array_add items new).
Proof.
  unfold addresses_distinct, address_array_add. intros H.
  pose proof (add_address_loop_addresses items new) as Hloop.
  destruct (add_address_loop items new) as [[items' o] |].
  - rewrite Hloop. exact H.
  - rewrite map_app. simpl.
    apply NoDup_Add with (a := addr_address new)
                         (l := map addr_address items).
    + rewrite <- (app_nil_r (map addr_address items)) at 1.
      apply Add_app.
    + split; assumption.
Qed.

Lemma add_route_loop_identities (items : list NMPlatformIP4Route)
    (new : NMPlatformIP4Route) :
  match add_route_loop items new with
  | Some (items', _) => map route_identity items' = map route_identity items
  | None => ~ In (route_identity new) (map route_identity items)
  end.
Proof.
  induction items as [| item rest IH]; simpl; [ tauto | ].
  destruct (routes_are_duplicate item new false) eqn:D.
  - apply routes_are_duplicate_identity in D.
    destruct (_ =? 0); [ reflexivity | ].
    simpl. f_equal. rewrite D. reflexivity.
  - assert (route_identity item <> route_identity new) as N.
    { intros E. apply routes_are_duplicate_identity in E. congruence. }
    destruct (add_route_loop rest new) as [[rest' o] |]; simpl.
    + congruence.
    + intros [E | Hin]; auto.
Qed.

Lemma route_array_add_unique (items : list NMPlatformIP4Route)
    (new : NMPlatformIP4Route) :
  routes_unique items -> routes_unique (route_array_add items new).
Proof.
  unfold routes_unique, route_array_add. intros H.
  destruct (negb (route_plen new >? 0)); [ exact H | ].
  pose proof (add_route_loop_identities items new) as Hloop.
  destruct (add_route_loop items new) as [[items' o] |].
  - rewrite Hloop. exact H.
  - rewrite map_app. simpl.
    apply NoDup_Add with (a := route_identity new)
                         (l := map route_identity items).
    + rewrite <- (app_nil_r (map route_identity items)) at 1.
      apply Add_app.
    + split; assumption.
Qed.

Lemma fold_left_invariant {A X : Type} (P : A -> Prop) (f : A -> X -> A) :
  (forall a x, P a -> P (f a x)) ->
  forall xs a, P a -> P (fold_left f xs a).
Proof.
  intros Hf xs. induction xs as [| x xs IH]; simpl; auto.
Qed.

(** [subtract], field by field. *)
Lemma subtract_view (dst src : NMIP4Config) :
  let addresses' :=
    fold_left
      (fun l a =>
         array_remove_first
           (fun d => (addr_address a =? addr_address d)
                     && (addr_plen a =? addr_plen d)) l)
      (addresses src) (addresses dst) in
  nm_ip4_config_subtract dst src
  = mkConfig (path dst) (never_default dst)
      (if Nat.eqb (List.length addresses') 0 then 0
       else if gateway src =? gateway dst then 0 else gateway dst)
      addresses'
      (fold_left
         (fun l r =>
            array_remove_first
              (fun d => (route_network r =? route_network d)
                        && (route_plen r =? route_plen d)) l)
         (routes src) (routes dst))
      (fold_left (fun l x => array_remove_first (fun d => d =? x) l)
         (nameservers src) (nameservers dst))
      (fold_left (fun l x => array_remove_first (String.eqb x) l)
         (domains src) (domains dst))
      (fold_left (fun l x => array_remove_first (String.eqb x) l)
         (searches src) (searches dst))
      (if mss src =? mss dst then 0 else mss dst)
      (fold_left (fun l x => array_remove_first (fun d => d =? x) l)
         (nis src) (nis dst))
      (if g_strcmp0_eq (nis_domain src) (nis_domain dst) then None
       else nis_domain dst)
      (fold_left (fun l x => array_remove_first (fun d => d =? x) l)
         (wins src) (wins dst))
      (mtu (if mtu src =? mtu dst
            then nm_ip4_config_set_mtu dst 0 NM_IP_CONFIG_SOURCE_UNKNOWN
            else dst))
      (mtu_source (if mtu src =? mtu dst
                   then nm_ip4_config_set_mtu dst 0
                          NM_IP_CONFIG_SOURCE_UNKNOWN
                   else dst)).
Proof.
  intros addresses'. subst addresses'.
  unfold nm_ip4_config_subtract.
  rewrite fold_subtract_address, fold_subtract_nameserver.
  rewrite !set_gateway_view.
  rewrite fold_subtract_route, fold_subtract_domain, fold_subtract_search.
  rewrite fold_subtract_nis_server, fold_subtract_wins.
  unfold nm_ip4_config_set_mss, nm_ip4_config_set_nis_domain,
    nm_ip4_config_set_mtu.
  destruct dst, src; config_simpl.
  case_conditions; reflexivity.
Qed.

(** Every step of [replace] rewrites one field of [dst], the one it
    compares ([replace_mtu] the MTU and its source). *)
Ltac replace_step_field :=
  intros;
  unfold replace_never_default, replace_gateway, replace_addresses,
    replace_routes, replace_nameservers, replace_domains, replace_searches,
    replace_mss, replace_nis, replace_nis_domain, replace_wins, replace_mtu;
  cbv zeta;
  repeat match goal with
         | |- context [let '(_, _) := ?p in _] =>
             lazymatch p with
             | context [if _ then _ else _] => fail
             | _ => destruct p as [? ?]
             end
         | |- context [if ?b then _ else _] =>
             lazymatch b with
             | context [if _ then _ else _] => fail
             | _ => destruct b
             end
         end;
  cbn [rs_dst];
  unfold nm_ip4_config_reset_addresses, nm_ip4_config_reset_routes,
    nm_ip4_config_reset_nameservers, nm_ip4_config_reset_domains,
    nm_ip4_config_reset_searches, nm_ip4_config_reset_nis_servers,
    nm_ip4_config_reset_wins, nm_ip4_config_set_mss,
    nm_ip4_config_set_nis_domain;
  rewrite ?set_gateway_view, ?fold_add_address, ?fold_add_route,
    ?fold_add_nameserver, ?fold_add_domain, ?fold_add_search,
    ?fold_add_nis_server, ?fold_add_wins;
  config_simpl; try reflexivity;
  match goal with
  | |- ?c = _ => destruct c; reflexivity
  end.

Lemma replace_never_default_field (src : NMIP4Config) (st : replace_state) :
  rs_dst (replace_never_default src st)
  = with_never_default (rs_dst st)
      (never_default (rs_dst (replace_never_default src st))).
Proof. replace_step_field. Qed.

Lemma replace_gateway_field (src : NMIP4Config) (st : replace_state) :
  rs_dst (replace_gateway src st)
  = with_gateway (rs_dst st) (gateway (rs_dst (replace_gateway src st))).
Proof. replace_step_field. Qed.

Lemma replace_addresses_field (src : NMIP4Config) (st : replace_state) :
  rs_dst (replace_addresses src st)
  = with_addresses (rs_dst st)
      (addresses (rs_dst (replace_addresses src st))).
Proof. replace_step_field. Qed.

Lemma replace_routes_field (src : NMIP4Config) (st : replace_state) :
  rs_dst (replace_routes src st)
  = with_routes (rs_dst st) (routes (rs_dst (replace_routes src st))).
Proof. replace_step_field. Qed.

Lemma replace_nameservers_field (src : NMIP4Config) (st : replace_state) :
  rs_dst (replace_nameservers src st)
  = with_nameservers (rs_dst st)
      (nameservers (rs_dst (replace_nameservers src st))).
Proof. replace_step_field. Qed.

Lemma replace_domains_field (src : NMIP4Config) (st : replace_state) :
  rs_dst (replace_domains src st)
  = with_domains (rs_dst st) (domains (rs_dst (replace_domains src st))).
Proof. replace_step_field. Qed.

Lemma replace_searches_field (src : NMIP4Config) (st : replace_state) :
  rs_dst (replace_searches src st)
  = with_searches (rs_dst st) (searches (rs_dst (replace_searches src st))).
Proof. replace_step_field. Qed.

Lemma replace_mss_field (src : NMIP4Config) (st : replace_state) :
  rs_dst (replace_mss src st)
  = with_mss (rs_dst st) (mss (rs_dst (replace_mss src st))).
Proof. replace_step_field. Qed.

Lemma replace_nis_field (src : NMIP4Config) (st : replace_state) :
  rs_dst (replace_nis src st)
  = with_nis (rs_dst st) (nis (rs_dst (replace_nis src st))).
Proof. replace_step_field. Qed.

Lemma replace_nis_domain_field (src : NMIP4Config) (st : replace_state) :
  rs_dst (replace_nis_domain src st)
  = with_nis_domain (rs_dst st)
      (nis_domain (rs_dst (replace_nis_domain src st))).
Proof. replace_step_field. Qed.

Lemma replace_wins_field (src : NMIP4Config) (st : replace_state) :
  rs_dst (replace_wins src st)
  = with_wins (rs_dst st) (wins (rs_dst (replace_wins src st))).
Proof. replace_step_field. Qed.

Lemma replace_mtu_field (src : NMIP4Config) (st : replace_state) :
  rs_dst (replace_mtu src st)
  = with_mtu (rs_dst st) (mtu (rs_dst (replace_mtu src st)))
      (mtu_source (rs_dst (replace_mtu src st))).
Proof.
  unfold replace_mtu. cbv zeta.
  destruct (negb (mtu src =? mtu (rs_dst st))); cbn [rs_dst].
  - unfold nm_ip4_config_set_mtu. case_conditions;
      try reflexivity; destruct (rs_dst st); reflexivity.
  - destruct (rs_dst st); reflexivity.
Qed.

(** Look through one step of [replace] at a field that the step does not
    rewrite. *)
Ltac through H := rewrite H; config_simpl.

Lemma replace_steps_addresses (dst src : NMIP4Config) :
  addresses (rs_dst (replace_steps dst src)) = addresses dst
  \/ addresses (rs_dst (replace_steps dst src))
     = fold_left address_array_add (addresses src) [].
Proof.
  unfold replace_steps. cbv zeta.
  through replace_mtu_field. through replace_wins_field.
  through replace_nis_domain_field. through replace_nis_field.
  through replace_mss_field. through replace_searches_field.
  through replace_domains_field. through replace_nameservers_field.
  through replace_routes_field.
  set (st := replace_gateway src _).
  assert (addresses (rs_dst st) = addresses dst) as <-.
  { subst st. through replace_gateway_field.
    through replace_never_default_field. reflexivity. }
  clearbody st.
  unfold replace_addresses. cbv zeta.
  destruct (same_length _ _);
    [ destruct (replace_compare_addresses _ _ _) as [[|] ?] | ];
    cbn [negb rs_dst]; auto;
    unfold nm_ip4_config_reset_addresses; rewrite fold_add_address;
    config_simpl; auto.
Qed.

Lemma replace_steps_routes (dst src : NMIP4Config) :
  routes (rs_dst (replace_steps dst src)) = routes dst
  \/ routes (rs_dst (replace_steps dst src))
     = fold_left route_array_add (routes src) [].
Proof.
  unfold replace_steps. cbv zeta.
  through replace_mtu_field. through replace_wins_field.
  through replace_nis_domain_field. through replace_nis_field.
  through replace_mss_field. through replace_searches_field.
  through replace_domains_field. through replace_nameservers_field.
  set (st := replace_addresses src _).
  assert (routes (rs_dst st) = routes dst) as <-.
  { subst st. through replace_addresses_field.
    through replace_gateway_field. through replace_never_default_field.
    reflexivity. }
  clearbody st.
  unfold replace_routes. cbv zeta.
  destruct (same_length _ _);
    [ destruct (replace_compare_routes _ _ _) as [[|] ?] | ];
    cbn [negb rs_dst]; auto;
    unfold nm_ip4_config_reset_routes; rewrite fold_add_route;
    config_simpl; auto.
Qed.

Lemma fold_address_array_add_distinct (xs items : list NMPlatformIP4Address) :
  addresses_distinct items ->
  addresses_distinct (fold_left address_array_add xs items).
Proof. apply fold_left_invariant, address_array_add_distinct. Qed.

Lemma fold_route_array_add_unique (xs items : list NMPlatformIP4Route) :
  routes_unique items -> routes_unique (fold_left route_array_add xs items).
Proof. apply fold_left_invariant, route_array_add_unique. Qed.

Ltac unfold_primitives :=
  unfold nm_ip4_config_set_never_default, nm_ip4_config_reset_addresses,
    nm_ip4_config_del_address, nm_ip4_config_reset_routes,
    nm_ip4_config_del_route, nm_ip4_config_reset_nameservers,
    nm_ip4_config_del_nameserver, nm_ip4_config_reset_domains,
    nm_ip4_config_del_domain, nm_ip4_config_reset_searches,
    nm_ip4_config_del_search, nm_ip4_config_set_mss,
    nm_ip4_config_reset_nis_servers, nm_ip4_config_del_nis_server,
    nm_ip4_config_set_nis_domain, nm_ip4_config_reset_wins,
    nm_ip4_config_del_wins, nm_ip4_config_set_mtu;
  rewrite ?set_gateway_view, ?add_address_view, ?add_route_view,
    ?add_nameserver_view, ?add_domain_view, ?add_search_view,
    ?add_nis_server_view, ?add_wins_view.

Lemma apply_mutation_keeps_apart (config : NMIP4Config) (m : mutation) :
  identities_kept_apart config ->
  identities_kept_apart (apply_mutation config m).
Proof.
  unfold identities_kept_apart. intros [Ha Hr].
  destruct m; cbn [apply_mutation];
    try (unfold_primitives;
         repeat match goal with
                | |- context [if ?b then _ else _] => destruct b
                end;
         config_simpl;
         first [ split; assumption
               | split; [ constructor | assumption ]
               | split; [ assumption | constructor ]
               | split; [ apply address_array_add_distinct | ]; assumption
               | split; [ | apply route_array_add_unique ]; assumption
               | split; [ apply NoDup_map_remove_index | ]; assumption
               | split; [ | apply NoDup_map_remove_index ]; assumption ]).
  - (* merge *)
    rewrite merge_view. config_simpl. split.
    + apply fold_address_array_add_distinct, Ha.
    + apply fold_route_array_add_unique, Hr.
  - (* subtract *)
    rewrite subtract_view. config_simpl. split.
    + apply (fold_left_invariant addresses_distinct); [ | exact Ha ].
      intros l a. apply NoDup_map_remove_first.
    + apply (fold_left_invariant routes_unique); [ | exact Hr ].
      intros l r. apply NoDup_map_remove_first.
  - (* replace *)
    split.
    + destruct (replace_steps_addresses config src) as [-> | ->];
        [ exact Ha | ].
      apply fold_address_array_add_distinct. constructor.
    + destruct (replace_steps_routes config src) as [-> | ->];
        [ exact Hr | ].
      apply fold_route_array_add_unique. constructor.
Qed.

(** C8. After any sequence of mutations of an aggregate that was created
    empty ([add_address] and [add_route] calls, and the deletions, resets,
    setters, [merge], [subtract] and [replace] as well)
    no two stored addresses share an identity (address, prefix) and no two
    stored routes share an identity (network, prefix).  For the addresses
    the code keeps more: no two share an address. *)
Theorem identity_uniqueness (ms : list mutation) :
  addresses_unique (addresses (apply_mutations nm_ip4_config_new ms))
  /\ routes_unique (routes (apply_mutations nm_ip4_config_new ms))
  /\ addresses_distinct (addresses (apply_mutations nm_ip4_config_new ms)).
Proof.
  assert (identities_kept_apart (apply_mutations nm_ip4_config_new ms))
    as [Ha Hr].
  { unfold apply_mutations.
    apply (fold_left_invariant identities_kept_apart).
    - apply apply_mutation_keeps_apart.
    - split; constructor. }
  auto using addresses_distinct_unique.
Qed.

(** From an aggregate that was not created empty the identities of the
    addresses are not kept apart by [add_address]: the captured aggregate
    of [AddressExample] has unique identities, and one call later two of
    its addresses are 10.0.0.5/24. *)
Example add_address_on_captured_aggregate :
  addresses_unique (addresses AddressExample.config)
  /\ ~ addresses_unique
         (addresses
            (nm_ip4_config_add_address AddressExample.config
               AddressExample.new)).
Proof.
  split.
  - unfold addresses_unique. vm_compute.
    constructor; [ | constructor; [ | constructor ] ].
    + intros [E | []]. discriminate E.
    + intros [].
  - unfold addresses_unique. vm_compute. intros H.
    inversion H as [| ? ? Hnotin _]; subst. apply Hnotin. left. reflexivity.
Qed.

(** ** Capture: the default routes *)

Lemma capture_default_routes_kept (items : list NMPlatformIP4Route)
    (gw0 lowest0 : Z) (has0 : bool) :
  match capture_default_routes items gw0 lowest0 has0 with
  | (kept, _, _, has) =>
      kept = filter (fun r => negb (NM_PLATFORM_IP_ROUTE_IS_DEFAULT r)) items
      /\ has = has0 || existsb NM_PLATFORM_IP_ROUTE_IS_DEFAULT items
  end.
Proof.
  revert gw0 lowest0 has0.
  induction items as [| route rest IH]; intros gw0 lowest0 has0; simpl.
  - rewrite Bool.orb_false_r. auto.
  - destruct (NM_PLATFORM_IP_ROUTE_IS_DEFAULT route) eqn:D; simpl.
    + destruct (route_metric route <? lowest0).
      * specialize (IH (route_gateway route) (route_metric route) true).
        destruct (capture_default_routes rest _ _ true)
          as [[[kept gw] lowest] has].
        rewrite Bool.orb_true_r. tauto.
      * specialize (IH gw0 lowest0 true).
        destruct (capture_default_routes rest _ _ true)
          as [[[kept gw] lowest] has].
        rewrite Bool.orb_true_r. tauto.
    + specialize (IH gw0 lowest0 has0).
      destruct (capture_default_routes rest gw0 lowest0 has0)
        as [[[kept gw] lowest] has].
      destruct IH as [-> ->]. auto.
Qed.

(** The gateway after the first loop: either no default route had a metric
    below the initial [lowest_metric] and the gateway is untouched, or it is
    the gateway of a default route whose metric no other default route
    undercuts. *)
Lemma capture_default_routes_lowest (items : list NMPlatformIP4Route)
    (gw0 lowest0 : Z) (has0 : bool) :
  match capture_default_routes items gw0 lowest0 has0 with
  | (_, gw, lowest, _) =>
      (gw = gw0 /\ lowest = lowest0
       /\ forall r, In r items -> NM_PLATFORM_IP_ROUTE_IS_DEFAULT r = true ->
                    lowest0 <= route_metric r)
      \/ (exists r, In r items
            /\ NM_PLATFORM_IP_ROUTE_IS_DEFAULT r = true
            /\ route_metric r < lowest0
            /\ gw = route_gateway r /\ lowest = route_metric r
            /\ forall r', In r' items ->
                 NM_PLATFORM_IP_ROUTE_IS_DEFAULT r' = true ->
                 route_metric r <= route_metric r')
  end.
Proof.
  revert gw0 lowest0 has0.
  induction items as [| route rest IH]; intros gw0 lowest0 has0; simpl.
  - left. repeat split. intros r [].
  - destruct (NM_PLATFORM_IP_ROUTE_IS_DEFAULT route) eqn:D.
    + destruct (Z.ltb_spec (route_metric route) lowest0) as [Hlt | Hge].
      * specialize (IH (route_gateway route) (route_metric route) true).
        destruct (capture_default_routes rest _ _ true)
          as [[[kept gw] lowest] has].
        right.
        destruct IH as [(-> & -> & Hall) | (r & Hin & Hd & Hm & -> & -> & Hall)].
        -- exists route. repeat split; auto.
           intros r' [<- | Hin'] Hd'; [ lia | auto ].
        -- exists r. repeat split; auto; try lia.
           intros r' [<- | Hin'] Hd'; [ lia | auto ].
      * specialize (IH gw0 lowest0 true).
        destruct (capture_default_routes rest _ _ true)
          as [[[kept gw] lowest] has].
        destruct IH as [(-> & -> & Hall) | (r & Hin & Hd & Hm & -> & -> & Hall)].
        -- left. repeat split.
           intros r' [<- | Hin'] Hd'; [ lia | auto ].
        -- right. exists r. repeat split; auto.
           intros r' [<- | Hin'] Hd'; [ lia | auto ].
    + specialize (IH gw0 lowest0 has0).
      destruct (capture_default_routes rest gw0 lowest0 has0)
        as [[[kept gw] lowest] has].
      destruct IH as [(-> & -> & Hall) | (r & Hin & Hd & Hm & -> & -> & Hall)].
      * left. repeat split.
        intros r' [<- | Hin'] Hd'; [ congruence | auto ].
      * right. exists r. repeat split; auto.
        intros r' [<- | Hin'] Hd'; [ congruence | auto ].
Qed.

(** What [capture] does for a link that is not enslaved and has default
    routes: no default route is stored, no host route (prefix 32, gateway
    0) to the captured gateway is stored, the other routes of the link are
    all stored, and, if some default route has a metric below 2^32 - 1, the
    gateway is that of a default route with the lowest metric. *)
Lemma capture_extracts_default_routes (platform : NMPlatform) (ifindex : Z)
    (capture_resolv_conf : bool) :
  link_get_master platform ifindex <= 0 ->
  existsb NM_PLATFORM_IP_ROUTE_IS_DEFAULT (ip4_route_get_all platform ifindex)
  = true ->
  exists config,
    nm_ip4_config_capture platform ifindex capture_resolv_conf = Some config
    /\ (forall r, In r (routes config) <->
          In r (ip4_route_get_all platform ifindex)
          /\ route_plen r <> 0
          /\ ~ (route_plen r = 32 /\ route_network r = gateway config
                /\ route_gateway r = 0))
    /\ ((exists r, In r (ip4_route_get_all platform ifindex)
           /\ route_plen r = 0 /\ route_metric r < G_MAXUINT32) ->
        exists r, In r (ip4_route_get_all platform ifindex)
          /\ route_plen r = 0
          /\ gateway config = route_gateway r
          /\ forall r', In r' (ip4_route_get_all platform ifindex) ->
               route_plen r' = 0 -> route_metric r <= route_metric r').
Proof.
  intros Hmaster Hdefault.
  unfold nm_ip4_config_capture.
  destruct (Z.gtb_spec (link_get_master platform ifindex) 0) as [? | _];
    [ lia | ].
  set (all := ip4_route_get_all platform ifindex) in *.
  config_simpl.
  change (gateway nm_ip4_config_new) with 0.
  pose proof (capture_default_routes_kept all 0 G_MAXUINT32 false) as Hkept.
  pose proof (capture_default_routes_lowest all 0 G_MAXUINT32 false) as Hlow.
  destruct (capture_default_routes all 0 G_MAXUINT32 false)
    as [[[kept gw] lowest] has].
  destruct Hkept as [-> ->]. rewrite Hdefault. simpl orb. cbv iota.
  assert (forall r,
             In r (capture_host_routes
                     (filter
                        (fun r => negb (NM_PLATFORM_IP_ROUTE_IS_DEFAULT r))
                        all) gw)
             <-> In r all /\ route_plen r <> 0
                 /\ ~ (route_plen r = 32 /\ route_network r = gw
                       /\ route_gateway r = 0)) as Hroutes.
  { intros r. unfold capture_host_routes. rewrite !filter_In.
    unfold NM_PLATFORM_IP_ROUTE_IS_DEFAULT.
    rewrite !Bool.negb_true_iff, !Bool.andb_false_iff, !Z.eqb_neq.
    split.
    - intros [[Hin Hp] H]. repeat split; auto. tauto.
    - intros (Hin & Hp & H). repeat split; auto.
      destruct (Z.eq_dec (route_plen r) 32); [ | tauto ].
      destruct (Z.eq_dec (route_network r) gw); [ | tauto ].
      destruct (Z.eq_dec (route_gateway r) 0); tauto. }
  assert ((exists r, In r all /\ route_plen r = 0
                     /\ route_metric r < G_MAXUINT32) ->
          exists r, In r all /\ route_plen r = 0 /\ gw = route_gateway r
            /\ forall r', In r' all -> route_plen r' = 0 ->
                 route_metric r <= route_metric r') as Hgw.
  { intros (r0 & Hin0 & Hp0 & Hm0).
    destruct Hlow as [(_ & _ & Hall) | (r & Hin & Hd & Hm & -> & _ & Hall)].
    - specialize (Hall r0 Hin0).
      unfold NM_PLATFORM_IP_ROUTE_IS_DEFAULT in Hall.
      rewrite Hp0 in Hall. specialize (Hall eq_refl). lia.
    - exists r. unfold NM_PLATFORM_IP_ROUTE_IS_DEFAULT in Hd.
      apply Z.eqb_eq in Hd. repeat split; auto.
      intros r' Hin' Hp'. apply Hall; [ exact Hin' | ].
      unfold NM_PLATFORM_IP_ROUTE_IS_DEFAULT. now apply Z.eqb_eq. }
  eexists. split; [ reflexivity | ].
  match goal with
  | |- context [if ?b then with_nameservers _ _ else _] => destruct b
  end; config_simpl; split; assumption.
Qed.

(** The scenario of the spec: two default routes of metrics 100 and 50.
    The gateway is that of the metric-50 route, neither default route is
    stored, and the host route to that gateway is dropped as well. *)
Example capture_scenario :
  nm_ip4_config_capture CaptureExample.platform 2 false
  = Some (with_routes
            (with_gateway
               (with_addresses nm_ip4_config_new [CaptureExample.address])
               (inet_addr 192 168 1 1))
            [CaptureExample.subnet_route]).
Proof. vm_compute. reflexivity. Qed.

(** C3, at a link whose only default route has metric 2^32 - 1.  That
    route is the default route with the lowest metric, and its gateway is
    192.168.1.1; [capture] removes it from the routes and leaves the gateway
    of the aggregate at 0, because the metric is compared with [<] against
    a [lowest_metric] that starts at the same 2^32 - 1. *)
Theorem capture_misses_gateway_of_highest_metric :
  In CaptureExample.default_max (ip4_route_get_all CaptureExample.platform_max 2)
  /\ NM_PLATFORM_IP_ROUTE_IS_DEFAULT CaptureExample.default_max = true
  /\ (forall r, In r (ip4_route_get_all CaptureExample.platform_max 2) ->
        NM_PLATFORM_IP_ROUTE_IS_DEFAULT r = true ->
        route_metric CaptureExample.default_max <= route_metric r)
  /\ route_gateway CaptureExample.default_max = inet_addr 192 168 1 1
  /\ exists config,
       nm_ip4_config_capture CaptureExample.platform_max 2 false = Some config
       /\ gateway config = 0
       /\ routes config = [CaptureExample.subnet_route].
Proof.
  split; [ left; reflexivity | ].
  split; [ reflexivity | ].
  split.
  - intros r [<- | [<- | []]] Hd; [ lia | discriminate Hd ].
  - split; [ reflexivity | ].
    eexists. split; [ vm_compute; reflexivity | ].
    split; reflexivity.
Qed.

(** ** Merge followed by subtract *)

Lemma remove_first_app {T : Type} (p : T -> bool) (xs ys : list T) :
  (forall x, In x xs -> p x = false) ->
  array_remove_first p (xs ++ ys) = xs ++ array_remove_first p ys.
Proof.
  unfold array_remove_first. intros Hxs.
  induction xs as [| x xs IH]; simpl; [ reflexivity | ].
  rewrite (Hxs x) by now left.
  assert (forall x', In x' xs -> p x' = false) as Hxs'
      by (intros x' Hin; apply Hxs; now right).
  specialize (IH Hxs').
  destruct (find_index p (xs ++ ys)) as [j |];
    destruct (find_index p ys) as [k |]; simpl; congruence.
Qed.

Lemma remove_first_In {T K : Type} (key : T -> K) (p : T -> bool) (k : K)
    (xs : list T) (x : T) :
  (forall y, p y = true <-> k = key y) ->
  NoDup (map key xs) ->
  In x (array_remove_first p xs) -> In x xs /\ key x <> k.
Proof.
  unfold array_remove_first. intros Hp.
  induction xs as [| y xs IH]; simpl; intros Hnodup Hin; [ destruct Hin | ].
  inversion Hnodup as [| ? ? Hnotin Hrest]; subst.
  destruct (p y) eqn:Py.
  - simpl in Hin. split; [ now right | ].
    apply Hp in Py. intros E. apply Hnotin. rewrite <- Py, <- E.
    now apply in_map.
  - assert (key y <> k) as Hy.
    { intros E. symmetry in E. apply Hp in E. congruence. }
    destruct (find_index p xs) as [j |]; simpl in Hin.
    + destruct Hin as [<- | Hin]; [ split; [ now left | exact Hy ] | ].
      destruct (IH Hrest Hin). split; [ now right | assumption ].
    + destruct Hin as [<- | Hin]; [ split; [ now left | exact Hy ] | ].
      destruct (IH Hrest Hin). split; [ now right | assumption ].
Qed.

(** One array of [dst] through [merge] and then [subtract]: the entries
    that [merge] took from [src] are removed again and those of [dst] stay,
    provided that no entry of [src] collides with one of [dst]. *)
Section Cancellation.
Context {T AK K : Type}.
Variable add : list T -> T -> list T.
Variable remove_test : T -> T -> bool.
Variable add_key : T -> AK.
Variable key : T -> K.
Hypothesis remove_test_key :
  forall b x, remove_test b x = true <-> key b = key x.
Hypothesis key_finer : forall x y, key x = key y -> add_key x = add_key y.
Hypothesis add_app :
  forall xs ys b, (forall a, In a xs -> add_key a <> add_key b) ->
                  add (xs ++ ys) b = xs ++ add ys b.
Hypothesis add_NoDup :
  forall ys b, NoDup (map add_key ys) -> NoDup (map add_key (add ys b)).
Hypothesis add_In :
  forall ys b y, In y (add ys b) -> In y ys \/ key y = key b.

Let remove (l : list T) (b : T) : list T :=
  array_remove_first (remove_test b) l.

Lemma merged_array (dst src ys : list T) :
  (forall a b, In a dst -> In b src -> add_key a <> add_key b) ->
  NoDup (map add_key ys) ->
  exists zs,
    fold_left add src (dst ++ ys) = dst ++ zs
    /\ NoDup (map add_key zs)
    /\ forall z, In z zs -> In z ys \/ exists b, In b src /\ key z = key b.
Proof.
  revert ys. induction src as [| b src IH]; intros ys Hdisj Hys; simpl.
  - exists ys. auto.
  - rewrite add_app by (intros a Ha; apply Hdisj; [ exact Ha | now left ]).
    destruct (IH (add ys b)) as (zs & Hfold & Hnodup & Hin).
    + intros a b' Ha Hb'. apply Hdisj; [ exact Ha | now right ].
    + apply add_NoDup, Hys.
    + exists zs. repeat split; auto.
      intros z Hz. destruct (Hin z Hz) as [Hadd | (b' & Hb' & E)].
      * destruct (add_In ys b z Hadd) as [? | E]; [ now left | ].
        right. exists b. split; [ now left | exact E ].
      * right. exists b'. split; [ now right | exact E ].
Qed.

Lemma subtracted_keeps (dst src zs : list T) :
  (forall a b, In a dst -> In b src -> add_key a <> add_key b) ->
  fold_left remove src (dst ++ zs) = dst ++ fold_left remove src zs.
Proof.
  revert zs. induction src as [| b src IH]; intros zs Hdisj; simpl.
  - reflexivity.
  - unfold remove at 2. rewrite remove_first_app.
    + apply IH. intros a b' Ha Hb'. apply Hdisj; [ exact Ha | now right ].
    + intros a Ha. apply Bool.not_true_is_false. intros E.
      apply remove_test_key in E. apply key_finer in E.
      apply (Hdisj a b Ha); [ now left | congruence ].
Qed.

Lemma subtracted_all (src zs : list T) :
  NoDup (map key zs) ->
  (forall z, In z zs -> exists b, In b src /\ key z = key b) ->
  fold_left remove src zs = [].
Proof.
  revert zs. induction src as [| b src IH]; intros zs Hnodup Hin; simpl.
  - destruct zs as [| z zs]; [ reflexivity | ].
    destruct (Hin z) as (b & [] & _). now left.
  - apply IH.
    + apply NoDup_map_remove_first, Hnodup.
    + intros z Hz.
      apply (remove_first_In key (remove_test b) (key b)) in Hz
        as [Hz Hk]; [ | apply remove_test_key | exact Hnodup ].
      destruct (Hin z Hz) as (b' & [<- | Hb'] & E); [ contradiction | ].
      exists b'. auto.
Qed.

Lemma merge_subtract_array (dst src : list T) :
  (forall a b, In a dst -> In b src -> add_key a <> add_key b) ->
  fold_left remove src (fold_left add src dst) = dst.
Proof.
  intros Hdisj.
  destruct (merged_array dst src [] Hdisj) as (zs & Hfold & Hnodup & Hin);
    [ constructor | ].
  rewrite app_nil_r in Hfold. rewrite Hfold.
  rewrite subtracted_keeps by exact Hdisj.
  rewrite subtracted_all; [ apply app_nil_r | | ].
  - revert Hnodup. apply NoDup_map_finer, key_finer.
  - intros z Hz. destruct (Hin z Hz) as [[] | H]. exact H.
Qed.
End Cancellation.

Lemma add_address_loop_app (xs ys : list NMPlatformIP4Address)
    (b : NMPlatformIP4Address) :
  (forall a, In a xs -> addr_address a <> addr_address b) ->
  add_address_loop (xs ++ ys) b
  = match add_address_loop ys b with
    | Some (ys', o) => Some (xs ++ ys', o)
    | None => None
    end.
Proof.
  intros Hxs. induction xs as [| a xs IH]; simpl.
  - destruct (add_address_loop ys b) as [[ys' o] |]; reflexivity.
  - assert (addresses_are_duplicate a b false = false) as ->.
    { apply Bool.not_true_is_false. intros D.
      apply addresses_are_duplicate_address in D.
      apply (Hxs a); [ now left | exact D ]. }
    rewrite IH by (intros a' Ha'; apply Hxs; now right).
    destruct (add_address_loop ys b) as [[ys' o] |]; reflexivity.
Qed.

Lemma address_array_add_app (xs ys : list NMPlatformIP4Address)
    (b : NMPlatformIP4Address) :
  (forall a, In a xs -> addr_address a <> addr_address b) ->
  address_array_add (xs ++ ys) b = xs ++ address_array_add ys b.
Proof.
  intros Hxs. unfold address_array_add.
  rewrite add_address_loop_app by exact Hxs.
  destruct (add_address_loop ys b) as [[ys' o] |];
    [ reflexivity | symmetry; apply app_assoc ].
Qed.

Lemma address_array_add_In (ys : list NMPlatformIP4Address)
    (b y : NMPlatformIP4Address) :
  In y (address_array_add ys b) ->
  In y ys \/ address_identity y = address_identity b.
Proof.
  unfold address_array_add.
  induction ys as [| item rest IH]; simpl.
  - intros [<- | []]. now right.
  - destruct (addresses_are_duplicate item b false).
    + assert (address_identity (overwrite_address item b)
              = address_identity b) as Hid.
      { destruct (overwrite_address_identity item b) as (Ha & Hp & _).
        unfold address_identity. congruence. }
      destruct (_ =? 0); [ now left | ].
      destruct (_ =? 0); simpl;
        (intros [<- | Hin]; [ now right | left; now right ]).
    + destruct (add_address_loop rest b) as [[rest' o] |]; simpl.
      * intros [<- | Hin]; [ left; now left | ].
        destruct (IH Hin); [ left; now right | now right ].
      * intros [<- | Hin]; [ left; now left | ].
        destruct (IH Hin); [ left; now right | now right ].
Qed.

Lemma add_route_loop_app (xs ys : list NMPlatformIP4Route)
    (b : NMPlatformIP4Route) :
  (forall a, In a xs -> route_identity a <> route_identity b) ->
  add_route_loop (xs ++ ys) b
  = match add_route_loop ys b with
    | Some (ys', o) => Some (xs ++ ys', o)
    | None => None
    end.
Proof.
  intros Hxs. induction xs as [| a xs IH]; simpl.
  - destruct (add_route_loop ys b) as [[ys' o] |]; reflexivity.
  - assert (routes_are_duplicate a b false = false) as ->.
    { apply Bool.not_true_is_false. intros D.
      apply routes_are_duplicate_identity in D.
      apply (Hxs a); [ now left | exact D ]. }
    rewrite IH by (intros a' Ha'; apply Hxs; now right).
    destruct (add_route_loop ys b) as [[ys' o] |]; reflexivity.
Qed.

Lemma route_array_add_app (xs ys : list NMPlatformIP4Route)
    (b : NMPlatformIP4Route) :
  (forall a, In a xs -> route_identity a <> route_identity b) ->
  route_array_add (xs ++ ys) b = xs ++ route_array_add ys b.
Proof.
  intros Hxs. unfold route_array_add.
  destruct (negb (route_plen b >? 0)); [ reflexivity | ].
  rewrite add_route_loop_app by exact Hxs.
  destruct (add_route_loop ys b) as [[ys' o] |];
    [ reflexivity | symmetry; apply app_assoc ].
Qed.

Lemma route_array_add_In (ys : list NMPlatformIP4Route)
    (b y : NMPlatformIP4Route) :
  In y (route_array_add ys b) ->
  In y ys \/ route_identity y = route_identity b.
Proof.
  unfold route_array_add.
  destruct (negb (route_plen b >? 0)); [ now left | ].
  induction ys as [| item rest IH]; simpl.
  - intros [<- | []]. now right.
  - destruct (routes_are_duplicate item b false).
    + destruct (_ =? 0); [ now left | ].
      simpl. intros [<- | Hin]; [ now right | left; now right ].
    + destruct (add_route_loop rest b) as [[rest' o] |]; simpl.
      * intros [<- | Hin]; [ left; now left | ].
        destruct (IH Hin); [ left; now right | now right ].
      * intros [<- | Hin]; [ left; now left | ].
        destruct (IH Hin); [ left; now right | now right ].
Qed.

Lemma existsb_eqb_In (x : Z) (l : list Z) :
  existsb (Z.eqb x) l = true <-> In x l.
Proof.
  rewrite existsb_exists. split.
  - intros (y & Hin & E). apply Z.eqb_eq in E. now subst.
  - intros Hin. exists x. split; [ exact Hin | apply Z.eqb_refl ].
Qed.

Lemma existsb_string_eqb_In (x : string) (l : list string) :
  existsb (String.eqb x) l = true <-> In x l.
Proof.
  rewrite existsb_exists. split.
  - intros (y & Hin & E). apply String.eqb_eq in E. now subst.
  - intros Hin. exists x. split; [ exact Hin | apply String.eqb_refl ].
Qed.

Lemma array_add_unique_app (xs ys : list Z) (b : Z) :
  (forall a, In a xs -> a <> b) ->
  array_add_unique (xs ++ ys) b = xs ++ array_add_unique ys b.
Proof.
  intros Hxs. unfold array_add_unique. rewrite existsb_app.
  assert (existsb (Z.eqb b) xs = false) as ->.
  { apply Bool.not_true_is_false. intros E. apply existsb_eqb_In in E.
    now apply (Hxs b). }
  simpl. destruct (existsb (Z.eqb b) ys);
    [ reflexivity | symmetry; apply app_assoc ].
Qed.

Lemma array_add_unique_NoDup (ys : list Z) (b : Z) :
  NoDup (map (fun x => x) ys) ->
  NoDup (map (fun x => x) (array_add_unique ys b)).
Proof.
  rewrite !map_id. unfold array_add_unique. intros H.
  destruct (existsb (Z.eqb b) ys) eqn:E; [ exact H | ].
  apply NoDup_Add with (a := b) (l := ys).
  - rewrite <- (app_nil_r ys) at 1. apply Add_app.
  - split; [ exact H | ]. intros Hin. apply existsb_eqb_In in Hin. congruence.
Qed.

Lemma array_add_unique_In (ys : list Z) (b y : Z) :
  In y (array_add_unique ys b) -> In y ys \/ y = b.
Proof.
  unfold array_add_unique. destruct (existsb (Z.eqb b) ys); [ now left | ].
  rewrite in_app_iff. simpl. intuition.
Qed.

Lemma array_add_string_app (xs ys : list string) (b : string) :
  (forall a, In a xs -> a <> b) ->
  array_add_string (xs ++ ys) b = xs ++ array_add_string ys b.
Proof.
  intros Hxs. unfold array_add_string.
  destruct (String.eqb b EmptyString); [ reflexivity | ].
  rewrite existsb_app.
  assert (existsb (String.eqb b) xs = false) as ->.
  { apply Bool.not_true_is_false. intros E.
    apply existsb_string_eqb_In in E. now apply (Hxs b). }
  simpl. destruct (existsb (String.eqb b) ys);
    [ reflexivity | symmetry; apply app_assoc ].
Qed.

Lemma array_add_string_NoDup (ys : list string) (b : string) :
  NoDup (map (fun x => x) ys) ->
  NoDup (map (fun x => x) (array_add_string ys b)).
Proof.
  rewrite !map_id. unfold array_add_string. intros H.
  destruct (String.eqb b EmptyString); [ exact H | ].
  destruct (existsb (String.eqb b) ys) eqn:E; [ exact H | ].
  apply NoDup_Add with (a := b) (l := ys).
  - rewrite <- (app_nil_r ys) at 1. apply Add_app.
  - split; [ exact H | ]. intros Hin.
    apply existsb_string_eqb_In in Hin. congruence.
Qed.

Lemma array_add_string_In (ys : list string) (b y : string) :
  In y (array_add_string ys b) -> In y ys \/ y = b.
Proof.
  unfold array_add_string.
  destruct (String.eqb b EmptyString); [ now left | ].
  destruct (existsb (String.eqb b) ys); [ now left | ].
  rewrite in_app_iff. simpl. intuition.
Qed.

Lemma merge_subtract_addresses (dst src : list NMPlatformIP4Address) :
  (forall a b, In a dst -> In b src -> addr_address a <> addr_address b) ->
  fold_left
    (fun l a =>
       array_remove_first
         (fun d => (addr_address a =? addr_address d)
                   && (addr_plen a =? addr_plen d)) l)
    src (fold_left address_array_add src dst)
  = dst.
Proof.
  apply (merge_subtract_array address_array_add
           (fun b x => (addr_address b =? addr_address x)
                       && (addr_plen b =? addr_plen x))
           addr_address address_identity).
  - intros b x. unfold address_identity.
    rewrite Bool.andb_true_iff, !Z.eqb_eq.
    split; [ intros [-> ->]; reflexivity | intros E; now injection E ].
  - unfold address_identity. intros x y E. now injection E.
  - apply address_array_add_app.
  - apply address_array_add_distinct.
  - apply address_array_add_In.
Qed.

Lemma merge_subtract_routes (dst src : list NMPlatformIP4Route) :
  (forall a b, In a dst -> In b src -> route_identity a <> route_identity b) ->
  fold_left
    (fun l r =>
       array_remove_first
         (fun d => (route_network r =? route_network d)
                   && (route_plen r =? route_plen d)) l)
    src (fold_left route_array_add src dst)
  = dst.
Proof.
  apply (merge_subtract_array route_array_add
           (fun b x => (route_network b =? route_network x)
                       && (route_plen b =? route_plen x))
           route_identity route_identity).
  - intros b x. unfold route_identity.
    rewrite Bool.andb_true_iff, !Z.eqb_eq.
    split; [ intros [-> ->]; reflexivity | intros E; now injection E ].
  - auto.
  - apply route_array_add_app.
  - apply route_array_add_unique.
  - apply route_array_add_In.
Qed.

Lemma merge_subtract_unique (dst src : list Z) :
  (forall x, In x dst -> ~ In x src) ->
  fold_left (fun l x => array_remove_first (fun d => d =? x) l) src
    (fold_left array_add_unique src dst)
  = dst.
Proof.
  intros Hdisj.
  apply (merge_subtract_array array_add_unique (fun b x => x =? b)
           (fun x => x) (fun x => x)).
  - intros b x. rewrite Z.eqb_eq. split; congruence.
  - auto.
  - apply array_add_unique_app.
  - apply array_add_unique_NoDup.
  - apply array_add_unique_In.
  - intros a b Ha Hb ->. exact (Hdisj b Ha Hb).
Qed.

Lemma merge_subtract_nonzero (dst src : list Z) :
  (forall x, In x dst -> ~ In x src) ->
  fold_left (fun l x => array_remove_first (fun d => d =? x) l) src
    (fold_left array_add_nonzero src dst)
  = dst.
Proof.
  intros Hdisj.
  apply (merge_subtract_array array_add_nonzero (fun b x => x =? b)
           (fun x => x) (fun x => x)).
  - intros b x. rewrite Z.eqb_eq. split; congruence.
  - auto.
  - intros xs ys b H. unfold array_add_nonzero.
    destruct (b =? 0); [ reflexivity | now apply array_add_unique_app ].
  - intros ys b H. unfold array_add_nonzero.
    destruct (b =? 0); [ exact H | now apply array_add_unique_NoDup ].
  - intros ys b y. unfold array_add_nonzero.
    destruct (b =? 0); [ now left | apply array_add_unique_In ].
  - intros a b Ha Hb ->. exact (Hdisj b Ha Hb).
Qed.

Lemma merge_subtract_strings (dst src : list string) :
  (forall x, In x dst -> ~ In x src) ->
  fold_left (fun l x => array_remove_first (String.eqb x) l) src
    (fold_left array_add_string src dst)
  = dst.
Proof.
  intros Hdisj.
  apply (merge_subtract_array array_add_string String.eqb
           (fun x => x) (fun x => x)).
  - intros b x. apply String.eqb_eq.
  - auto.
  - apply array_add_string_app.
  - apply array_add_string_NoDup.
  - apply array_add_string_In.
  - intros a b Ha Hb ->. exact (Hdisj b Ha Hb).
Qed.

(** ** The checksum of an aggregate *)

(** The checksum reads the gateway, the identities of the addresses, the
    network, prefix, gateway and metric of the routes, the NIS servers, the
    bytes of the NIS domain, the name servers, the WINS servers, the domains
    and the searches, and nothing else. *)
Lemma hash_fields (c c' : NMIP4Config) (sum : GChecksum) :
  gateway c = gateway c' ->
  map address_identity (addresses c) = map address_identity (addresses c') ->
  map (fun r => (route_network r, route_plen r, route_gateway r,
                 route_metric r)) (routes c)
  = map (fun r => (route_network r, route_plen r, route_gateway r,
                   route_metric r)) (routes c') ->
  nis c = nis c' ->
  match nis_domain c with Some s => string_bytes s | None => [] end
  = match nis_domain c' with Some s => string_bytes s | None => [] end ->
  nameservers c = nameservers c' ->
  wins c = wins c' ->
  domains c = domains c' ->
  searches c = searches c' ->
  nm_ip4_config_hash c sum false = nm_ip4_config_hash c' sum false.
Proof.
  intros Hg Ha Hr Hn Hd Hns Hw Hdo Hs.
  unfold nm_ip4_config_hash. simpl negb. cbv iota.
  rewrite Hg, Hn, Hns, Hw, Hdo, Hs. do 4 f_equal.
  assert (forall l l' : list NMPlatformIP4Address,
             map address_identity l = map address_identity l' ->
             forall s,
               fold_left
                 (fun sum address =>
                    hash_u32 (hash_u32 sum (addr_address address))
                      (addr_plen address)) l s
               = fold_left
                   (fun sum address =>
                      hash_u32 (hash_u32 sum (addr_address address))
                        (addr_plen address)) l' s) as Haddr.
  { induction l as [| x l IH]; intros [| y l'] E s; try discriminate;
      [ reflexivity | ].
    simpl in *. unfold address_identity in E at 1 3.
    injection E as E1 E2 E. rewrite E1, E2. now apply IH. }
  assert (forall l l' : list NMPlatformIP4Route,
             map (fun r => (route_network r, route_plen r, route_gateway r,
                            route_metric r)) l
             = map (fun r => (route_network r, route_plen r, route_gateway r,
                              route_metric r)) l' ->
             forall s,
               fold_left
                 (fun sum route =>
                    hash_u32
                      (hash_u32
                         (hash_u32 (hash_u32 sum (route_network route))
                            (route_plen route))
                         (route_gateway route))
                      (route_metric route)) l s
               = fold_left
                   (fun sum route =>
                      hash_u32
                        (hash_u32
                           (hash_u32 (hash_u32 sum (route_network route))
                              (route_plen route))
                           (route_gateway route))
                        (route_metric route)) l' s) as Hroute.
  { induction l as [| x l IH]; intros [| y l'] E s; try discriminate;
      [ reflexivity | ].
    simpl in *. injection E as E1 E2 E3 E4 E.
    rewrite E1, E2, E3, E4. now apply IH. }
  rewrite (Haddr _ _ Ha), (Hroute _ _ Hr).
  unfold hash_str.
  destruct (nis_domain c) as [s |], (nis_domain c') as [s' |].
  - now rewrite Hd.
  - now rewrite Hd, app_nil_r.
  - now rewrite <- Hd, app_nil_r.
  - reflexivity.
Qed.

Lemma memcmp_eq_refl (a : list Z) : memcmp_eq a a = true.
Proof.
  induction a as [| x a IH]; simpl; [ reflexivity | ].
  now rewrite Z.eqb_refl.
Qed.

Lemma equal_of_hash (a b : NMIP4Config) :
  nm_ip4_config_hash a g_checksum_new false
  = nm_ip4_config_hash b g_checksum_new false ->
  nm_ip4_config_equal (Some a) (Some b) = true.
Proof.
  intros E. unfold nm_ip4_config_equal. rewrite E. apply memcmp_eq_refl.
Qed.

(** ** Merge followed by subtract, on aggregates *)

(** C6, as the code has it.  [subtract (merge (A, B), B)] is [equal] to [A]
    when [A] and [B] share no address, no route identity, no name server,
    domain, search, NIS server or WINS server, when [A] has no gateway or
    has a gateway other than that of [B] together with at least one address
    (without an address [subtract] clears the gateway), and when [B] has no
    NIS domain or [A] has none (or an empty one).  The MTU and the MSS do
    not matter: [equal] does not read them. *)
Theorem merge_subtract_cancels (A B : NMIP4Config) :
  (gateway A = 0 \/ (gateway A <> gateway B /\ addresses A <> [])) ->
  (nis_domain B = None \/ nis_domain A = None
   \/ nis_domain A = Some EmptyString) ->
  (forall a b, In a (addresses A) -> In b (addresses B) ->
     addr_address a <> addr_address b) ->
  (forall a b, In a (routes A) -> In b (routes B) ->
     route_identity a <> route_identity b) ->
  (forall x, In x (nameservers A) -> ~ In x (nameservers B)) ->
  (forall x, In x (domains A) -> ~ In x (domains B)) ->
  (forall x, In x (searches A) -> ~ In x (searches B)) ->
  (forall x, In x (nis A) -> ~ In x (nis B)) ->
  (forall x, In x (wins A) -> ~ In x (wins B)) ->
  nm_ip4_config_equal
    (Some (nm_ip4_config_subtract (nm_ip4_config_merge A B) B)) (Some A)
  = true.
Proof.
  intros Hgw Hnis Haddr Hroute Hns Hdom Hsearch Hnisserv Hwins.
  apply equal_of_hash.
  rewrite subtract_view. cbv zeta. rewrite merge_view. config_simpl.
  rewrite (merge_subtract_addresses _ _ Haddr).
  rewrite (merge_subtract_routes _ _ Hroute).
  rewrite (merge_subtract_nonzero _ _ Hns).
  rewrite (merge_subtract_strings _ _ Hdom).
  rewrite (merge_subtract_strings _ _ Hsearch).
  rewrite (merge_subtract_unique _ _ Hnisserv).
  rewrite (merge_subtract_nonzero _ _ Hwins).
  apply hash_fields; config_simpl; try reflexivity.
  - destruct Hgw as [Hz | [Hne Hnonempty]].
    + rewrite Hz. simpl. rewrite Z.eqb_refl.
      destruct (Nat.eqb _ 0); reflexivity.
    + destruct (addresses A) as [| a l]; [ congruence | ]. simpl.
      destruct (Z.eqb_spec (gateway A) 0) as [E | E].
      * rewrite Z.eqb_refl. congruence.
      * destruct (Z.eqb_spec (gateway B) (gateway A)); congruence.
  - destruct (nis_domain B) as [d |]; simpl.
    + rewrite String.eqb_refl.
      destruct Hnis as [H | [-> | ->]]; [ discriminate | | ]; reflexivity.
    + destruct (nis_domain A); reflexivity.
Qed.

Lemma merge_subtract_cancels_witness :
  nm_ip4_config_equal
    (Some (nm_ip4_config_subtract
             (nm_ip4_config_merge CancellationExample.A
                CancellationExample.C)
             CancellationExample.C))
    (Some CancellationExample.A)
  = true.
Proof.
  apply (merge_subtract_cancels CancellationExample.A CancellationExample.C).
  - right. split; [ discriminate | discriminate ].
  - right. left. reflexivity.
  - intros a b [<- | []] [<- | []]. discriminate.
  - intros a b [].
  - intros x [].
  - intros x [].
  - intros x [].
  - intros x [].
  - intros x [].
Defined.

(** C6 as the spec words it fails when the two aggregates overlap: [A] and
    [B] have different gateways, MTUs and MSSs and share the address
    10.0.0.5/24.  [merge] leaves [A] as it is, [subtract] then removes the
    shared address and, no address being left, clears the gateway. *)
Lemma merge_subtract_loses_shared_address :
  gateway CancellationExample.A <> gateway CancellationExample.B
  /\ mtu CancellationExample.A <> mtu CancellationExample.B
  /\ mss CancellationExample.A <> mss CancellationExample.B
  /\ addresses
       (nm_ip4_config_subtract
          (nm_ip4_config_merge CancellationExample.A CancellationExample.B)
          CancellationExample.B)
     = []
  /\ gateway
       (nm_ip4_config_subtract
          (nm_ip4_config_merge CancellationExample.A CancellationExample.B)
          CancellationExample.B)
     = 0
  /\ nm_ip4_config_equal
       (Some (nm_ip4_config_subtract
                (nm_ip4_config_merge CancellationExample.A
                   CancellationExample.B)
                CancellationExample.B))
       (Some CancellationExample.A)
     = false.
Proof.
  repeat split; try discriminate; vm_compute; reflexivity.
Qed.

(** ** Replace and equality *)

Lemma replace_compare_addresses_identities
    (src dst : list NMPlatformIP4Address) (are_equal are_equal' : bool) :
  List.length src = List.length dst ->
  replace_compare_addresses src dst are_equal = (are_equal', false) ->
  map address_identity src = map address_identity dst.
Proof.
  revert dst are_equal.
  induction src as [| s src IH]; intros [| d dst] are_equal Hlen H;
    try discriminate; [ reflexivity | ].
  simpl in *. injection Hlen as Hlen.
  destruct (Z.eqb_spec (nm_platform_ip4_address_cmp s d) 0) as [E | E];
    simpl in H.
  - apply address_cmp_zero in E. subst d. f_equal. eapply IH; eauto.
  - destruct (addresses_are_duplicate s d true) eqn:D; simpl in H;
      [ | discriminate ].
    unfold addresses_are_duplicate in D. simpl in D.
    apply Bool.andb_true_iff in D as [D1 D2].
    apply Z.eqb_eq in D1, D2. unfold address_identity at 1 3.
    rewrite D1, D2. f_equal. eapply IH; eauto.
Qed.

Lemma replace_compare_routes_identities
    (src dst : list NMPlatformIP4Route) (are_equal are_equal' : bool) :
  List.length src = List.length dst ->
  replace_compare_routes src dst are_equal = (are_equal', false) ->
  map (fun r => (route_network r, route_plen r, route_gateway r,
                 route_metric r)) src
  = map (fun r => (route_network r, route_plen r, route_gateway r,
                   route_metric r)) dst.
Proof.
  revert dst are_equal.
  induction src as [| s src IH]; intros [| d dst] are_equal Hlen H;
    try discriminate; [ reflexivity | ].
  simpl in *. injection Hlen as Hlen.
  destruct (Z.eqb_spec (nm_platform_ip4_route_cmp s d) 0) as [E | E];
    simpl in H.
  - apply route_cmp_zero in E. subst d. f_equal. eapply IH; eauto.
  - destruct (routes_are_duplicate s d true) eqn:D; simpl in H;
      [ | discriminate ].
    unfold routes_are_duplicate in D. simpl in D.
    rewrite !Bool.andb_true_iff, !Z.eqb_eq in D.
    destruct D as [[D1 D2] [D3 D4]].
    rewrite D1, D2, D3, D4. f_equal. eapply IH; eauto.
Qed.

Lemma replace_compare_equal {T : Type} (differ : T -> T -> bool)
    (src dst : list T) :
  (forall x y, differ x y = false -> x = y) ->
  same_length src dst && replace_compare differ src dst = true ->
  src = dst.
Proof.
  intros Hdiffer H. apply Bool.andb_true_iff in H as [Hlen H].
  apply Nat.eqb_eq in Hlen. revert dst Hlen H.
  induction src as [| x src IH]; intros [| y dst] Hlen H;
    try discriminate; [ reflexivity | ].
  simpl in *. injection Hlen as Hlen.
  destruct (differ x y) eqn:D; [ discriminate | ].
  f_equal; auto.
Qed.

Lemma Z_differ (x y : Z) : negb (x =? y) = false -> x = y.
Proof. rewrite Bool.negb_false_iff. apply Z.eqb_eq. Qed.

Lemma string_differ (x y : string) : negb (String.eqb x y) = false -> x = y.
Proof. rewrite Bool.negb_false_iff. apply String.eqb_eq. Qed.

(** A step of [replace] that ends without a relevant change started
    without one and found its field of [src] to agree with that of [dst]
    in what [equal] reads. *)
Lemma replace_never_default_relevant (src : NMIP4Config) (st : replace_state) :
  has_relevant_changes (replace_never_default src st)
  = has_relevant_changes st.
Proof. unfold replace_never_default. cbv zeta. now destruct (negb _). Qed.

Lemma replace_mss_relevant (src : NMIP4Config) (st : replace_state) :
  has_relevant_changes (replace_mss src st) = has_relevant_changes st.
Proof. unfold replace_mss. cbv zeta. now destruct (negb _). Qed.

Lemma replace_mtu_relevant (src : NMIP4Config) (st : replace_state) :
  has_relevant_changes (replace_mtu src st) = has_relevant_changes st.
Proof. unfold replace_mtu. cbv zeta. now destruct (negb _). Qed.

Lemma replace_gateway_relevant (src : NMIP4Config) (st : replace_state) :
  has_relevant_changes (replace_gateway src st) = false ->
  has_relevant_changes st = false /\ gateway src = gateway (rs_dst st).
Proof.
  unfold replace_gateway. cbv zeta.
  destruct (Z.eqb_spec (gateway src) (gateway (rs_dst st))); simpl;
    [ auto | discriminate ].
Qed.

Lemma replace_addresses_relevant (src : NMIP4Config) (st : replace_state) :
  has_relevant_changes (replace_addresses src st) = false ->
  has_relevant_changes st = false
  /\ map address_identity (addresses src)
     = map address_identity (addresses (rs_dst st)).
Proof.
  unfold replace_addresses. cbv zeta.
  destruct (same_length (addresses src) (addresses (rs_dst st))) eqn:L.
  - apply Nat.eqb_eq in L.
    destruct (replace_compare_addresses _ _ true) as [ae rel] eqn:C.
    intros H.
    assert (has_relevant_changes st || rel = false) as H'
        by (destruct (negb ae); exact H).
    apply Bool.orb_false_iff in H' as [H1 ->].
    split; [ exact H1 | ].
    eapply replace_compare_addresses_identities; eauto.
  - simpl. rewrite Bool.orb_true_r. discriminate.
Qed.

Lemma replace_routes_relevant (src : NMIP4Config) (st : replace_state) :
  has_relevant_changes (replace_routes src st) = false ->
  has_relevant_changes st = false
  /\ map (fun r => (route_network r, route_plen r, route_gateway r,
                    route_metric r)) (routes src)
     = map (fun r => (route_network r, route_plen r, route_gateway r,
                      route_metric r)) (routes (rs_dst st)).
Proof.
  unfold replace_routes. cbv zeta.
  destruct (same_length (routes src) (routes (rs_dst st))) eqn:L.
  - apply Nat.eqb_eq in L.
    destruct (replace_compare_routes _ _ true) as [ae rel] eqn:C.
    intros H.
    assert (has_relevant_changes st || rel = false) as H'
        by (destruct (negb ae); exact H).
    apply Bool.orb_false_iff in H' as [H1 ->].
    split; [ exact H1 | ].
    eapply replace_compare_routes_identities; eauto.
  - simpl. rewrite Bool.orb_true_r. discriminate.
Qed.

Lemma replace_nameservers_relevant (src : NMIP4Config) (st : replace_state) :
  has_relevant_changes (replace_nameservers src st) = false ->
  has_relevant_changes st = false
  /\ nameservers src = nameservers (rs_dst st).
Proof.
  unfold replace_nameservers. cbv zeta.
  destruct (_ && _) eqn:C; [ | discriminate ].
  intros H. split; [ exact H | ].
  exact (replace_compare_equal _ _ _ Z_differ C).
Qed.

Lemma replace_domains_relevant (src : NMIP4Config) (st : replace_state) :
  has_relevant_changes (replace_domains src st) = false ->
  has_relevant_changes st = false /\ domains src = domains (rs_dst st).
Proof.
  unfold replace_domains. cbv zeta.
  destruct (_ && _) eqn:C; [ | discriminate ].
  intros H. split; [ exact H | ].
  exact (replace_compare_equal _ _ _ string_differ C).
Qed.

Lemma replace_searches_relevant (src : NMIP4Config) (st : replace_state) :
  has_relevant_changes (replace_searches src st) = false ->
  has_relevant_changes st = false /\ searches src = searches (rs_dst st).
Proof.
  unfold replace_searches. cbv zeta.
  destruct (_ && _) eqn:C; [ | discriminate ].
  intros H. split; [ exact H | ].
  exact (replace_compare_equal _ _ _ string_differ C).
Qed.

Lemma replace_nis_relevant (src : NMIP4Config) (st : replace_state) :
  has_relevant_changes (replace_nis src st) = false ->
  has_relevant_changes st = false /\ nis src = nis (rs_dst st).
Proof.
  unfold replace_nis. cbv zeta.
  destruct (_ && _) eqn:C; [ | discriminate ].
  intros H. split; [ exact H | ].
  exact (replace_compare_equal _ _ _ Z_differ C).
Qed.

Lemma replace_wins_relevant (src : NMIP4Config) (st : replace_state) :
  has_relevant_changes (replace_wins src st) = false ->
  has_relevant_changes st = false /\ wins src = wins (rs_dst st).
Proof.
  unfold replace_wins. cbv zeta.
  destruct (_ && _) eqn:C; [ | discriminate ].
  intros H. split; [ exact H | ].
  exact (replace_compare_equal _ _ _ Z_differ C).
Qed.

Lemma replace_nis_domain_relevant (src : NMIP4Config) (st : replace_state) :
  has_relevant_changes (replace_nis_domain src st) = false ->
  has_relevant_changes st = false
  /\ nis_domain src = nis_domain (rs_dst st).
Proof.
  unfold replace_nis_domain. cbv zeta.
  destruct (g_strcmp0_eq _ _) eqn:C; simpl; [ | discriminate ].
  intros H. split; [ exact H | ].
  destruct (nis_domain src), (nis_domain (rs_dst st)); try discriminate;
    [ | reflexivity ].
  simpl in C. apply String.eqb_eq in C. now subst.
Qed.

Ltac through_in H L :=
  rewrite L in H;
  cbn [with_never_default with_gateway with_addresses with_routes
       with_nameservers with_domains with_searches with_mss with_nis
       with_nis_domain with_wins with_mtu
       path never_default gateway addresses routes nameservers domains
       searches mss nis nis_domain wins mtu mtu_source] in H.

(** The half of C1 that holds: when [replace] sees no relevant change, the
    two aggregates have the same checksum, so [equal] is true. *)
Lemma no_relevant_change_equal (dst src : NMIP4Config) :
  has_relevant_changes (replace_steps dst src) = false ->
  nm_ip4_config_equal (Some dst) (Some src) = true.
Proof.
  unfold replace_steps. cbv zeta. intros H.
  rewrite replace_mtu_relevant in H.
  apply replace_wins_relevant in H as [H Hwins].
  apply replace_nis_domain_relevant in H as [H Hnisdom].
  apply replace_nis_relevant in H as [H Hnis].
  rewrite replace_mss_relevant in H.
  apply replace_searches_relevant in H as [H Hsearches].
  apply replace_domains_relevant in H as [H Hdomains].
  apply replace_nameservers_relevant in H as [H Hns].
  apply replace_routes_relevant in H as [H Hroutes].
  apply replace_addresses_relevant in H as [H Haddrs].
  apply replace_gateway_relevant in H as [_ Hgw].
  through_in Hgw replace_never_default_field.
  through_in Haddrs replace_gateway_field.
  through_in Haddrs replace_never_default_field.
  through_in Hroutes replace_addresses_field.
  through_in Hroutes replace_gateway_field.
  through_in Hroutes replace_never_default_field.
  through_in Hns replace_routes_field.
  through_in Hns replace_addresses_field.
  through_in Hns replace_gateway_field.
  through_in Hns replace_never_default_field.
  through_in Hdomains replace_nameservers_field.
  through_in Hdomains replace_routes_field.
  through_in Hdomains replace_addresses_field.
  through_in Hdomains replace_gateway_field.
  through_in Hdomains replace_never_default_field.
  through_in Hsearches replace_domains_field.
  through_in Hsearches replace_nameservers_field.
  through_in Hsearches replace_routes_field.
  through_in Hsearches replace_addresses_field.
  through_in Hsearches replace_gateway_field.
  through_in Hsearches replace_never_default_field.
  through_in Hnis replace_mss_field.
  through_in Hnis replace_searches_field.
  through_in Hnis replace_domains_field.
  through_in Hnis replace_nameservers_field.
  through_in Hnis replace_routes_field.
  through_in Hnis replace_addresses_field.
  through_in Hnis replace_gateway_field.
  through_in Hnis replace_never_default_field.
  through_in Hnisdom replace_nis_field.
  through_in Hnisdom replace_mss_field.
  through_in Hnisdom replace_searches_field.
  through_in Hnisdom replace_domains_field.
  through_in Hnisdom replace_nameservers_field.
  through_in Hnisdom replace_routes_field.
  through_in Hnisdom replace_addresses_field.
  through_in Hnisdom replace_gateway_field.
  through_in Hnisdom replace_never_default_field.
  through_in Hwins replace_nis_domain_field.
  through_in Hwins replace_nis_field.
  through_in Hwins replace_mss_field.
  through_in Hwins replace_searches_field.
  through_in Hwins replace_domains_field.
  through_in Hwins replace_nameservers_field.
  through_in Hwins replace_routes_field.
  through_in Hwins replace_addresses_field.
  through_in Hwins replace_gateway_field.
  through_in Hwins replace_never_default_field.
  cbn [rs_dst] in *.
  apply equal_of_hash. apply hash_fields; try congruence.
  now rewrite Hnisdom.
Qed.

(** C1, at two aggregates that hold the name example.com, one as a domain
    and one as a search domain.  The checksum concatenates the bytes of
    the fields without marking where a field ends, so both aggregates feed
    it the same bytes and [equal] is true; [replace] finds other domains
    and other searches and counts a relevant change.  Its own assertion
    [config_equal == !has_relevant_changes] then fails. *)
Theorem equal_disagrees_with_replace :
  nm_ip4_config_hash EqualExample.dst g_checksum_new false
  = nm_ip4_config_hash EqualExample.src g_checksum_new false
  /\ nm_ip4_config_equal (Some EqualExample.dst) (Some EqualExample.src)
     = true
  /\ has_relevant_changes (replace_steps EqualExample.dst EqualExample.src)
     = true
  /\ nm_ip4_config_replace EqualExample.dst EqualExample.src = None.
Proof.
  repeat split; vm_compute; reflexivity.
Qed.

(** Two scenarios of the spec.  The same address with another lifetime is
    a minor change: [replace] reports a change that is not relevant. *)
Example replace_minor_change :
  nm_ip4_config_replace ReplaceExample.dst ReplaceExample.src
  = Some (mkResult ReplaceExample.src true false).
Proof. vm_compute. reflexivity. Qed.

(** Replacing an empty aggregate gives the address, the gateway and the
    name server of [src] and is a relevant change. *)
Example replace_empty_aggregate :
  nm_ip4_config_replace nm_ip4_config_new ReplaceExample.full
  = Some (mkResult ReplaceExample.full true true).
Proof. vm_compute. reflexivity. Qed.


(** ** The shape of every mutation, array by array *)

Lemma derived_fold_add {T : Type} (add : list T -> T -> list T)
    (xs l : list T) :
  derived add l (fold_left add xs l).
Proof.
  revert l. induction xs as [| x xs IH]; intros l; simpl.
  - apply derived_same.
  - eapply derived_trans; [ apply derived_add | apply IH ].
Qed.

Lemma derived_remove_first {T : Type} (add : list T -> T -> list T)
    (p : T -> bool) (l : list T) :
  derived add l (array_remove_first p l).
Proof.
  unfold array_remove_first.
  destruct (find_index p l); [ apply derived_remove | apply derived_same ].
Qed.

Lemma derived_fold_remove {T X : Type} (add : list T -> T -> list T)
    (p : X -> T -> bool) (xs : list X) (l : list T) :
  derived add l (fold_left (fun l x => array_remove_first (p x) l) xs l).
Proof.
  revert l. induction xs as [| x xs IH]; intros l; simpl.
  - apply derived_same.
  - eapply derived_trans; [ apply derived_remove_first | apply IH ].
Qed.

Lemma derived_invariant {T : Type} (add : list T -> T -> list T)
    (P : list T -> Prop) :
  P [] ->
  (forall l x, P l -> P (add l x)) ->
  (forall l i, P l -> P (g_array_remove_index l i)) ->
  forall l l', derived add l l' -> P l -> P l'.
Proof.
  intros Hnil Hadd Hrem l l' H. induction H; auto.
Qed.

(** ** What [replace] leaves in [dst], field by field *)

Lemma replace_compare_addresses_false (src dst : list NMPlatformIP4Address) :
  fst (replace_compare_addresses src dst false) = false.
Proof.
  revert dst. induction src as [| s src IH]; intros [| d dst]; simpl; auto.
  destruct (negb _); [ destruct (negb _); simpl; auto | auto ].
Qed.

Lemma replace_compare_addresses_true (src dst : list NMPlatformIP4Address) :
  List.length src = List.length dst ->
  fst (replace_compare_addresses src dst true) = true -> src = dst.
Proof.
  revert dst. induction src as [| s src IH]; intros [| d dst] Hlen H;
    try discriminate; [ reflexivity | ].
  simpl in *. injection Hlen as Hlen.
  destruct (Z.eqb_spec (nm_platform_ip4_address_cmp s d) 0) as [E | E];
    simpl in H.
  - apply address_cmp_zero in E. subst d. f_equal. auto.
  - destruct (negb _); simpl in H; [ discriminate | ].
    rewrite replace_compare_addresses_false in H. discriminate.
Qed.

Lemma replace_compare_routes_false (src dst : list NMPlatformIP4Route) :
  fst (replace_compare_routes src dst false) = false.
Proof.
  revert dst. induction src as [| s src IH]; intros [| d dst]; simpl; auto.
  destruct (negb _); [ destruct (negb _); simpl; auto | auto ].
Qed.

Lemma replace_compare_routes_true (src dst : list NMPlatformIP4Route) :
  List.length src = List.length dst ->
  fst (replace_compare_routes src dst true) = true -> src = dst.
Proof.
  revert dst. induction src as [| s src IH]; intros [| d dst] Hlen H;
    try discriminate; [ reflexivity | ].
  simpl in *. injection Hlen as Hlen.
  destruct (Z.eqb_spec (nm_platform_ip4_route_cmp s d) 0) as [E | E];
    simpl in H.
  - apply route_cmp_zero in E. subst d. f_equal. auto.
  - destruct (negb _); simpl in H; [ discriminate | ].
    rewrite replace_compare_routes_false in H. discriminate.
Qed.

Lemma replace_addresses_result (src : NMIP4Config) (st : replace_state) :
  (addresses (rs_dst (replace_addresses src st)) = addresses (rs_dst st)
   /\ addresses (rs_dst st) = addresses src)
  \/ addresses (rs_dst (replace_addresses src st))
     = fold_left address_array_add (addresses src) [].
Proof.
  unfold replace_addresses. cbv zeta.
  destruct (same_length (addresses src) (addresses (rs_dst st))) eqn:L.
  - apply Nat.eqb_eq in L.
    pose proof (replace_compare_addresses_true _ _ L) as Heq.
    destruct (replace_compare_addresses _ _ true) as [[|] rel];
      cbn [negb rs_dst fst] in *.
    + left. split; [ reflexivity | symmetry; auto ].
    + right. unfold nm_ip4_config_reset_addresses.
      rewrite fold_add_address. reflexivity.
  - right. cbn [negb rs_dst]. unfold nm_ip4_config_reset_addresses.
    rewrite fold_add_address. reflexivity.
Qed.

Lemma replace_routes_result (src : NMIP4Config) (st : replace_state) :
  (routes (rs_dst (replace_routes src st)) = routes (rs_dst st)
   /\ routes (rs_dst st) = routes src)
  \/ routes (rs_dst (replace_routes src st))
     = fold_left route_array_add (routes src) [].
Proof.
  unfold replace_routes. cbv zeta.
  destruct (same_length (routes src) (routes (rs_dst st))) eqn:L.
  - apply Nat.eqb_eq in L.
    pose proof (replace_compare_routes_true _ _ L) as Heq.
    destruct (replace_compare_routes _ _ true) as [[|] rel];
      cbn [negb rs_dst fst] in *.
    + left. split; [ reflexivity | symmetry; auto ].
    + right. unfold nm_ip4_config_reset_routes.
      rewrite fold_add_route. reflexivity.
  - right. cbn [negb rs_dst]. unfold nm_ip4_config_reset_routes.
    rewrite fold_add_route. reflexivity.
Qed.

Lemma replace_nameservers_result (src : NMIP4Config) (st : replace_state) :
  (nameservers (rs_dst (replace_nameservers src st))
   = nameservers (rs_dst st)
   /\ nameservers (rs_dst st) = nameservers src)
  \/ nameservers (rs_dst (replace_nameservers src st))
     = fold_left array_add_nonzero (nameservers src) [].
Proof.
  unfold replace_nameservers. cbv zeta.
  destruct (_ && _) eqn:C.
  - left. split; [ reflexivity | ].
    symmetry. exact (replace_compare_equal _ _ _ Z_differ C).
  - right. cbn [rs_dst]. unfold nm_ip4_config_reset_nameservers.
    rewrite fold_add_nameserver. reflexivity.
Qed.

Lemma replace_domains_result (src : NMIP4Config) (st : replace_state) :
  (domains (rs_dst (replace_domains src st)) = domains (rs_dst st)
   /\ domains (rs_dst st) = domains src)
  \/ domains (rs_dst (replace_domains src st))
     = fold_left array_add_string (domains src) [].
Proof.
  unfold replace_domains. cbv zeta.
  destruct (_ && _) eqn:C.
  - left. split; [ reflexivity | ].
    symmetry. exact (replace_compare_equal _ _ _ string_differ C).
  - right. cbn [rs_dst]. unfold nm_ip4_config_reset_domains.
    rewrite fold_add_domain. reflexivity.
Qed.

Lemma replace_searches_result (src : NMIP4Config) (st : replace_state) :
  (searches (rs_dst (replace_searches src st)) = searches (rs_dst st)
   /\ searches (rs_dst st) = searches src)
  \/ searches (rs_dst (replace_searches src st))
     = fold_left array_add_string (searches src) [].
Proof.
  unfold replace_searches. cbv zeta.
  destruct (_ && _) eqn:C.
  - left. split; [ reflexivity | ].
    symmetry. exact (replace_compare_equal _ _ _ string_differ C).
  - right. cbn [rs_dst]. unfold nm_ip4_config_reset_searches.
    rewrite fold_add_search. reflexivity.
Qed.

Lemma replace_nis_result (src : NMIP4Config) (st : replace_state) :
  (nis (rs_dst (replace_nis src st)) = nis (rs_dst st)
   /\ nis (rs_dst st) = nis src)
  \/ nis (rs_dst (replace_nis src st))
     = fold_left array_add_unique (nis src) [].
Proof.
  unfold replace_nis. cbv zeta.
  destruct (_ && _) eqn:C.
  - left. split; [ reflexivity | ].
    symmetry. exact (replace_compare_equal _ _ _ Z_differ C).
  - right. cbn [rs_dst]. unfold nm_ip4_config_reset_nis_servers.
    rewrite fold_add_nis_server. reflexivity.
Qed.

Lemma replace_wins_result (src : NMIP4Config) (st : replace_state) :
  (wins (rs_dst (replace_wins src st)) = wins (rs_dst st)
   /\ wins (rs_dst st) = wins src)
  \/ wins (rs_dst (replace_wins src st))
     = fold_left array_add_nonzero (wins src) [].
Proof.
  unfold replace_wins. cbv zeta.
  destruct (_ && _) eqn:C.
  - left. split; [ reflexivity | ].
    symmetry. exact (replace_compare_equal _ _ _ Z_differ C).
  - right. cbn [rs_dst]. unfold nm_ip4_config_reset_wins.
    rewrite fold_add_wins. reflexivity.
Qed.

Lemma replace_never_default_result (src : NMIP4Config) (st : replace_state) :
  never_default (rs_dst (replace_never_default src st)) = never_default src.
Proof.
  unfold replace_never_default. cbv zeta.
  destruct (never_default src) eqn:A, (never_default (rs_dst st)) eqn:B;
    cbn [Bool.eqb negb rs_dst]; try reflexivity; exact B.
Qed.

Lemma replace_gateway_result (src : NMIP4Config) (st : replace_state) :
  gateway (rs_dst (replace_gateway src st)) = gateway src.
Proof.
  unfold replace_gateway. cbv zeta.
  destruct (Z.eqb_spec (gateway src) (gateway (rs_dst st))); cbn [negb rs_dst].
  - congruence.
  - rewrite set_gateway_view. reflexivity.
Qed.

Lemma replace_mss_result (src : NMIP4Config) (st : replace_state) :
  mss (rs_dst (replace_mss src st)) = mss src.
Proof.
  unfold replace_mss. cbv zeta.
  destruct (Z.eqb_spec (mss src) (mss (rs_dst st))); cbn [negb rs_dst].
  - congruence.
  - reflexivity.
Qed.

Lemma replace_nis_domain_result (src : NMIP4Config) (st : replace_state) :
  nis_domain (rs_dst (replace_nis_domain src st)) = nis_domain src.
Proof.
  unfold replace_nis_domain. cbv zeta.
  destruct (g_strcmp0_eq _ _) eqn:C; cbn [negb rs_dst]; [ | reflexivity ].
  destruct (nis_domain src), (nis_domain (rs_dst st)); try discriminate;
    [ | reflexivity ].
  simpl in C. apply String.eqb_eq in C. now subst.
Qed.

(** ** The fields of [dst] after all the steps of [replace] *)

Lemma replace_steps_never_default_result (dst src : NMIP4Config) :
  never_default (rs_dst (replace_steps dst src)) = never_default src.
Proof.
  unfold replace_steps. cbv zeta.
  through replace_mtu_field. through replace_wins_field.
  through replace_nis_domain_field. through replace_nis_field.
  through replace_mss_field. through replace_searches_field.
  through replace_domains_field. through replace_nameservers_field.
  through replace_routes_field. through replace_addresses_field.
  through replace_gateway_field.
  apply replace_never_default_result.
Qed.

Lemma replace_steps_gateway_result (dst src : NMIP4Config) :
  gateway (rs_dst (replace_steps dst src)) = gateway src.
Proof.
  unfold replace_steps. cbv zeta.
  through replace_mtu_field. through replace_wins_field.
  through replace_nis_domain_field. through replace_nis_field.
  through replace_mss_field. through replace_searches_field.
  through replace_domains_field. through replace_nameservers_field.
  through replace_routes_field. through replace_addresses_field.
  apply replace_gateway_result.
Qed.

Lemma replace_steps_addresses_result (dst src : NMIP4Config) :
  (addresses (rs_dst (replace_steps dst src)) = addresses dst
   /\ addresses dst = addresses src)
  \/ addresses (rs_dst (replace_steps dst src))
     = fold_left address_array_add (addresses src) [].
Proof.
  unfold replace_steps. cbv zeta.
  through replace_mtu_field. through replace_wins_field.
  through replace_nis_domain_field. through replace_nis_field.
  through replace_mss_field. through replace_searches_field.
  through replace_domains_field. through replace_nameservers_field.
  through replace_routes_field.
  match goal with |- context [replace_addresses src ?s] => set (st := s) end.
  assert (addresses (rs_dst st) = addresses dst) as <-.
  { subst st.
    through replace_gateway_field. through replace_never_default_field.
    reflexivity. }
  clearbody st. apply replace_addresses_result.
Qed.

Lemma replace_steps_routes_result (dst src : NMIP4Config) :
  (routes (rs_dst (replace_steps dst src)) = routes dst
   /\ routes dst = routes src)
  \/ routes (rs_dst (replace_steps dst src))
     = fold_left route_array_add (routes src) [].
Proof.
  unfold replace_steps. cbv zeta.
  through replace_mtu_field. through replace_wins_field.
  through replace_nis_domain_field. through replace_nis_field.
  through replace_mss_field. through replace_searches_field.
  through replace_domains_field. through replace_nameservers_field.
  match goal with |- context [replace_routes src ?s] => set (st := s) end.
  assert (routes (rs_dst st) = routes dst) as <-.
  { subst st.
    through replace_addresses_field. through replace_gateway_field.
    through replace_never_default_field.
    reflexivity. }
  clearbody st. apply replace_routes_result.
Qed.

Lemma replace_steps_nameservers_result (dst src : NMIP4Config) :
  (nameservers (rs_dst (replace_steps dst src)) = nameservers dst
   /\ nameservers dst = nameservers src)
  \/ nameservers (rs_dst (replace_steps dst src))
     = fold_left array_add_nonzero (nameservers src) [].
Proof.
  unfold replace_steps. cbv zeta.
  through replace_mtu_field. through replace_wins_field.
  through replace_nis_domain_field. through replace_nis_field.
  through replace_mss_field. through replace_searches_field.
  through replace_domains_field.
  match goal with |- context [replace_nameservers src ?s] => set (st := s) end.
  assert (nameservers (rs_dst st) = nameservers dst) as <-.
  { subst st.
    through replace_routes_field. through replace_addresses_field.
    through replace_gateway_field. through replace_never_default_field.
    reflexivity. }
  clearbody st. apply replace_nameservers_result.
Qed.

Lemma replace_steps_domains_result (dst src : NMIP4Config) :
  (domains (rs_dst (replace_steps dst src)) = domains dst
   /\ domains dst = domains src)
  \/ domains (rs_dst (replace_steps dst src))
     = fold_left array_add_string (domains src) [].
Proof.
  unfold replace_steps. cbv zeta.
  through replace_mtu_field. through replace_wins_field.
  through replace_nis_domain_field. through replace_nis_field.
  through replace_mss_field. through replace_searches_field.
  match goal with |- context [replace_domains src ?s] => set (st := s) end.
  assert (domains (rs_dst st) = domains dst) as <-.
  { subst st.
    through replace_nameservers_field. through replace_routes_field.
    through replace_addresses_field. through replace_gateway_field.
    through replace_never_default_field.
    reflexivity. }
  clearbody st. apply replace_domains_result.
Qed.

Lemma replace_steps_searches_result (dst src : NMIP4Config) :
  (searches (rs_dst (replace_steps dst src)) = searches dst
   /\ searches dst = searches src)
  \/ searches (rs_dst (replace_steps dst src))
     = fold_left array_add_string (searches src) [].
Proof.
  unfold replace_steps. cbv zeta.
  through replace_mtu_field. through replace_wins_field.
  through replace_nis_domain_field. through replace_nis_field.
  through replace_mss_field.
  match goal with |- context [replace_searches src ?s] => set (st := s) end.
  assert (searches (rs_dst st) = searches dst) as <-.
  { subst st.
    through replace_domains_field. through replace_nameservers_field.
    through replace_routes_field. through replace_addresses_field.
    through replace_gateway_field. through replace_never_default_field.
    reflexivity. }
  clearbody st. apply replace_searches_result.
Qed.

Lemma replace_steps_mss_result (dst src : NMIP4Config) :
  mss (rs_dst (replace_steps dst src)) = mss src.
Proof.
  unfold replace_steps. cbv zeta.
  through replace_mtu_field. through replace_wins_field.
  through replace_nis_domain_field. through replace_nis_field.
  apply replace_mss_result.
Qed.

Lemma replace_steps_nis_result (dst src : NMIP4Config) :
  (nis (rs_dst (replace_steps dst src)) = nis dst
   /\ nis dst = nis src)
  \/ nis (rs_dst (replace_steps dst src))
     = fold_left array_add_unique (nis src) [].
Proof.
  unfold replace_steps. cbv zeta.
  through replace_mtu_field. through replace_wins_field.
  through replace_nis_domain_field.
  match goal with |- context [replace_nis src ?s] => set (st := s) end.
  assert (nis (rs_dst st) = nis dst) as <-.
  { subst st.
    through replace_mss_field. through replace_searches_field.
    through replace_domains_field. through replace_nameservers_field.
    through replace_routes_field. through replace_addresses_field.
    through replace_gateway_field. through replace_never_default_field.
    reflexivity. }
  clearbody st. apply replace_nis_result.
Qed.

Lemma replace_steps_nis_domain_result (dst src : NMIP4Config) :
  nis_domain (rs_dst (replace_steps dst src)) = nis_domain src.
Proof.
  unfold replace_steps. cbv zeta.
  through replace_mtu_field. through replace_wins_field.
  apply replace_nis_domain_result.
Qed.

Lemma replace_steps_wins_result (dst src : NMIP4Config) :
  (wins (rs_dst (replace_steps dst src)) = wins dst
   /\ wins dst = wins src)
  \/ wins (rs_dst (replace_steps dst src))
     = fold_left array_add_nonzero (wins src) [].
Proof.
  unfold replace_steps. cbv zeta.
  through replace_mtu_field.
  match goal with |- context [replace_wins src ?s] => set (st := s) end.
  assert (wins (rs_dst st) = wins dst) as <-.
  { subst st.
    through replace_nis_domain_field. through replace_nis_field.
    through replace_mss_field. through replace_searches_field.
    through replace_domains_field. through replace_nameservers_field.
    through replace_routes_field. through replace_addresses_field.
    through replace_gateway_field. through replace_never_default_field.
    reflexivity. }
  clearbody st. apply replace_wins_result.
Qed.

Lemma replace_steps_path (dst src : NMIP4Config) :
  path (rs_dst (replace_steps dst src)) = path dst.
Proof.
  unfold replace_steps. cbv zeta.
  through replace_mtu_field. through replace_wins_field.
  through replace_nis_domain_field. through replace_nis_field.
  through replace_mss_field. through replace_searches_field.
  through replace_domains_field. through replace_nameservers_field.
  through replace_routes_field. through replace_addresses_field.
  through replace_gateway_field. through replace_never_default_field.
  reflexivity.
Qed.

(** ** Every mutation changes the arrays by reset, add and remove only *)

Lemma derived_from_empty {T : Type} (add : list T -> T -> list T)
    (xs l : list T) :
  derived add l (fold_left add xs []).
Proof.
  eapply derived_trans; [ apply derived_reset | apply derived_fold_add ].
Qed.

Create HintDb derived.

#[local] Hint Resolve derived_same derived_reset derived_add derived_remove
  derived_fold_add derived_remove_first derived_from_empty : derived.

Lemma apply_mutation_derived (config : NMIP4Config) (m : mutation) :
  arrays_derived config (apply_mutation config m).
Proof.
  unfold arrays_derived.
  destruct m; cbn [apply_mutation];
    try (unfold_primitives;
         repeat match goal with
                | |- context [if ?b then _ else _] => destruct b
                end;
         config_simpl; repeat split; auto with derived; fail).
  - (* merge *)
    rewrite merge_view. config_simpl. repeat split; auto with derived.
  - (* subtract *)
    rewrite subtract_view. config_simpl.
    repeat split;
      first [ apply (derived_fold_remove _
                       (fun a d => (addr_address a =? addr_address d)
                                   && (addr_plen a =? addr_plen d)))
            | apply (derived_fold_remove _
                       (fun r d => (route_network r =? route_network d)
                                   && (route_plen r =? route_plen d)))
            | apply (derived_fold_remove _ (fun x d => d =? x))
            | apply (derived_fold_remove _ String.eqb) ].
  - (* replace *)
    repeat split.
    + destruct (replace_steps_addresses_result config src) as [[-> _] | ->];
        auto with derived.
    + destruct (replace_steps_routes_result config src) as [[-> _] | ->];
        auto with derived.
    + destruct (replace_steps_nameservers_result config src) as [[-> _] | ->];
        auto with derived.
    + destruct (replace_steps_domains_result config src) as [[-> _] | ->];
        auto with derived.
    + destruct (replace_steps_searches_result config src) as [[-> _] | ->];
        auto with derived.
    + destruct (replace_steps_nis_result config src) as [[-> _] | ->];
        auto with derived.
    + destruct (replace_steps_wins_result config src) as [[-> _] | ->];
        auto with derived.
Qed.

(** ** Well-formed aggregates stay well-formed *)

Lemma remove_index_In {T : Type} (l : list T) (i : nat) (x : T) :
  In x (g_array_remove_index l i) -> In x l.
Proof.
  revert i. induction l as [| y l IH]; intros [| i]; simpl; auto.
  intros [-> | H]; eauto.
Qed.

Lemma remove_index_NoDup {T : Type} (l : list T) (i : nat) :
  NoDup l -> NoDup (g_array_remove_index l i).
Proof.
  intros H. rewrite <- (map_id l) in H.
  apply (NoDup_map_remove_index (fun x => x)) with (i := i) in H.
  now rewrite map_id in H.
Qed.

Lemma remove_index_Forall {T : Type} (P : T -> Prop) (l : list T) (i : nat) :
  Forall P l -> Forall P (g_array_remove_index l i).
Proof.
  rewrite !Forall_forall. intros H x Hx. eauto using remove_index_In.
Qed.

Lemma add_route_loop_plen (items : list NMPlatformIP4Route)
    (new : NMPlatformIP4Route) :
  route_plen new > 0 ->
  Forall (fun r => route_plen r > 0) items ->
  match add_route_loop items new with
  | Some (items', _) => Forall (fun r => route_plen r > 0) items'
  | None => True
  end.
Proof.
  intros Hnew. induction items as [| item rest IH]; simpl; [ trivial | ].
  intros H. inversion H as [| ? ? Hitem Hrest]; subst.
  destruct (routes_are_duplicate item new false).
  - destruct (_ =? 0); [ assumption | ].
    constructor; [ exact Hnew | assumption ].
  - specialize (IH Hrest).
    destruct (add_route_loop rest new) as [[rest' o] |]; [ | trivial ].
    constructor; assumption.
Qed.

Lemma route_array_add_plen (items : list NMPlatformIP4Route)
    (new : NMPlatformIP4Route) :
  Forall (fun r => route_plen r > 0) items ->
  Forall (fun r => route_plen r > 0) (route_array_add items new).
Proof.
  intros H. unfold route_array_add.
  destruct (Z.gtb_spec (route_plen new) 0) as [Hnew | Hnew]; simpl;
    [ | assumption ].
  assert (route_plen new > 0) as Hgt by lia.
  pose proof (add_route_loop_plen items new Hgt H) as Hloop.
  destruct (add_route_loop items new) as [[items' o] |]; [ assumption | ].
  apply Forall_app. split; [ assumption | ]. constructor; [ exact Hgt | constructor ].
Qed.

Lemma array_add_unique_keeps (items : list Z) (new : Z) :
  NoDup items -> NoDup (array_add_unique items new).
Proof.
  intros H. unfold array_add_unique.
  destruct (existsb (Z.eqb new) items) eqn:E; [ assumption | ].
  apply NoDup_app; [ assumption | repeat constructor; intros [] | ].
  intros x Hx [<- | []].
  apply existsb_eqb_In in Hx. congruence.
Qed.

Lemma array_add_nonzero_keeps (items : list Z) (new : Z) :
  NoDup items /\ ~ In 0 items ->
  NoDup (array_add_nonzero items new) /\ ~ In 0 (array_add_nonzero items new).
Proof.
  intros [Hd Hz]. unfold array_add_nonzero.
  destruct (Z.eqb_spec new 0) as [E | E]; [ auto | ].
  split; [ now apply array_add_unique_keeps | ].
  intros Hin. apply array_add_unique_In in Hin as [Hin | Hin]; auto.
Qed.

Lemma array_add_string_keeps (items : list string) (new : string) :
  NoDup items /\ ~ In EmptyString items ->
  NoDup (array_add_string items new)
  /\ ~ In EmptyString (array_add_string items new).
Proof.
  intros [Hd Hz]. unfold array_add_string.
  destruct (String.eqb_spec new EmptyString) as [E | E]; [ auto | ].
  destruct (existsb (String.eqb new) items) eqn:X; [ auto | ].
  split.
  - apply NoDup_app; [ assumption | repeat constructor; intros [] | ].
    intros x Hx [<- | []].
    apply existsb_string_eqb_In in Hx. congruence.
  - rewrite in_app_iff. intros [Hin | [Hin | []]]; auto.
Qed.

Lemma arrays_derived_well_formed (c c' : NMIP4Config) :
  arrays_derived c c' -> well_formed c -> well_formed c'.
Proof.
  intros (Ha & Hr & Hns & Hd & Hs & Hn & Hw) [].
  assert (routes_unique (routes c')
          /\ Forall (fun r => route_plen r > 0) (routes c')) as [? ?].
  { apply (derived_invariant route_array_add
             (fun l => routes_unique l
                       /\ Forall (fun r => route_plen r > 0) l))
      with (l := routes c); auto.
    - split; constructor.
    - intros l x [? ?].
      split; [ now apply route_array_add_unique
             | now apply route_array_add_plen ].
    - intros l i [? ?].
      split; [ now apply NoDup_map_remove_index
             | now apply remove_index_Forall ]. }
  assert (forall l l' : list Z, derived array_add_nonzero l l' ->
            NoDup l /\ ~ In 0 l -> NoDup l' /\ ~ In 0 l') as Hnonzero.
  { apply derived_invariant.
    - split; [ constructor | intros [] ].
    - intros l x. apply array_add_nonzero_keeps.
    - intros l i [? ?].
      split; [ now apply remove_index_NoDup
             | eauto using remove_index_In ]. }
  assert (forall l l' : list string, derived array_add_string l l' ->
            NoDup l /\ ~ In EmptyString l ->
            NoDup l' /\ ~ In EmptyString l') as Hstring.
  { apply derived_invariant.
    - split; [ constructor | intros [] ].
    - intros l x. apply array_add_string_keeps.
    - intros l i [? ?].
      split; [ now apply remove_index_NoDup
             | eauto using remove_index_In ]. }
  destruct (Hnonzero _ _ Hns) as [? ?]; [ auto | ].
  destruct (Hnonzero _ _ Hw) as [? ?]; [ auto | ].
  destruct (Hstring _ _ Hd) as [? ?]; [ auto | ].
  destruct (Hstring _ _ Hs) as [? ?]; [ auto | ].
  constructor; try assumption.
  - apply (derived_invariant address_array_add addresses_distinct)
      with (l := addresses c); auto.
    + constructor.
    + intros l x. apply address_array_add_distinct.
    + intros l i. apply NoDup_map_remove_index.
  - apply (derived_invariant array_add_unique (@NoDup Z))
      with (l := nis c); auto.
    + constructor.
    + intros l x. apply array_add_unique_keeps.
    + intros l i. apply remove_index_NoDup.
Qed.

Lemma apply_mutations_well_formed (config : NMIP4Config)
    (ms : list mutation) :
  well_formed config -> well_formed (apply_mutations config ms).
Proof.
  unfold apply_mutations.
  apply (fold_left_invariant well_formed). intros c m.
  apply arrays_derived_well_formed, apply_mutation_derived.
Qed.

Lemma new_well_formed : well_formed nm_ip4_config_new.
Proof.
  constructor; simpl; try constructor; intros [].
Qed.

(** Every mutation of the interface (setters, resets, adds, deletions,
    [merge], [subtract], [replace]) keeps an aggregate well-formed: the
    addresses differ pairwise in their address, the routes in their
    identity and none of them is a default route, and the name servers,
    domains, searches, NIS servers and WINS servers hold no entry twice,
    the name servers and WINS servers no zero and the domains and searches
    no empty string. *)
Theorem mutations_keep_well_formed (config : NMIP4Config)
    (ms : list mutation) :
  well_formed config -> well_formed (apply_mutations config ms).
Proof. exact (apply_mutations_well_formed config ms). Qed.

(** ** Filling an empty array *)

Section FromEmpty.

Context {T K : Type}.
Variable add : list T -> T -> list T.
Variable key : T -> K.
Variable accepted : T -> Prop.

Hypothesis add_app :
  forall xs ys b, (forall a, In a xs -> key a <> key b) ->
                  add (xs ++ ys) b = xs ++ add ys b.
Hypothesis add_first : forall b, accepted b -> add [] b = [b].

Lemma fold_add_fresh (xs acc : list T) :
  NoDup (map key (acc ++ xs)) -> Forall accepted xs ->
  fold_left add xs acc = acc ++ xs.
Proof.
  revert acc. induction xs as [| x xs IH]; intros acc Hd Ha; simpl.
  - now rewrite app_nil_r.
  - inversion Ha as [| ? ? Hx Hxs]; subst.
    assert (add acc x = acc ++ [x]) as ->.
    { rewrite <- (app_nil_r acc) at 1. rewrite add_app.
      - now rewrite add_first.
      - intros a Hin E. rewrite map_app in Hd. simpl in Hd.
        apply NoDup_remove_2 in Hd. apply Hd.
        rewrite in_app_iff. left. rewrite <- E. now apply in_map. }
    rewrite IH; [ | now rewrite <- app_assoc | assumption ].
    now rewrite <- app_assoc.
Qed.

Lemma fold_add_empty (xs : list T) :
  NoDup (map key xs) -> Forall accepted xs -> fold_left add xs [] = xs.
Proof. intros Hd Ha. now rewrite fold_add_fresh. Qed.

End FromEmpty.

Lemma refill_addresses (l : list NMPlatformIP4Address) :
  addresses_distinct l -> fold_left address_array_add l [] = l.
Proof.
  intros H.
  apply (fold_add_empty address_array_add addr_address (fun _ => True));
    auto using address_array_add_app.
  now apply Forall_forall.
Qed.

Lemma refill_routes (l : list NMPlatformIP4Route) :
  routes_unique l -> Forall (fun r => route_plen r > 0) l ->
  fold_left route_array_add l [] = l.
Proof.
  intros H Hp.
  apply (fold_add_empty route_array_add route_identity
           (fun r => route_plen r > 0));
    auto using route_array_add_app.
  intros b Hb. unfold route_array_add.
  destruct (Z.gtb_spec (route_plen b) 0); [ reflexivity | lia ].
Qed.

Lemma refill_unique (l : list Z) :
  NoDup l -> fold_left array_add_unique l [] = l.
Proof.
  intros H.
  apply (fold_add_empty array_add_unique (fun x => x) (fun _ => True));
    auto using array_add_unique_app.
  - now rewrite map_id.
  - now apply Forall_forall.
Qed.

Lemma refill_nonzero (l : list Z) :
  NoDup l -> ~ In 0 l -> fold_left array_add_nonzero l [] = l.
Proof.
  intros H Hz.
  apply (fold_add_empty array_add_nonzero (fun x => x) (fun x => x <> 0)).
  - intros xs ys b Hxs. unfold array_add_nonzero.
    destruct (b =? 0); [ reflexivity | now apply array_add_unique_app ].
  - intros b Hb. unfold array_add_nonzero.
    destruct (Z.eqb_spec b 0); [ contradiction | reflexivity ].
  - now rewrite map_id.
  - apply Forall_forall. intros x Hx ->. contradiction.
Qed.

Lemma refill_strings (l : list string) :
  NoDup l -> ~ In EmptyString l -> fold_left array_add_string l [] = l.
Proof.
  intros H Hz.
  apply (fold_add_empty array_add_string (fun x => x)
           (fun x => x <> EmptyString)).
  - intros xs ys b Hxs. now apply array_add_string_app.
  - intros b Hb. unfold array_add_string.
    destruct (String.eqb_spec b EmptyString); [ contradiction | reflexivity ].
  - now rewrite map_id.
  - apply Forall_forall. intros x Hx ->. contradiction.
Qed.

(** ** Replace installs a well-formed source *)

(** The MTU step of [replace] goes through [nm_ip4_config_set_mtu], and
    only when the two MTUs differ. *)
Lemma replace_steps_mtu (dst src : NMIP4Config) :
  let target :=
    if mtu src =? mtu dst then dst
    else nm_ip4_config_set_mtu dst (mtu src) (mtu_source src) in
  mtu (rs_dst (replace_steps dst src)) = mtu target
  /\ mtu_source (rs_dst (replace_steps dst src)) = mtu_source target.
Proof.
  unfold replace_steps. cbv zeta.
  match goal with |- context [replace_mtu src ?s] => set (st := s) end.
  assert (mtu (rs_dst st) = mtu dst /\ mtu_source (rs_dst st) = mtu_source dst)
    as [Hm Hs].
  { subst st.
    through replace_wins_field. through replace_nis_domain_field.
    through replace_nis_field. through replace_mss_field.
    through replace_searches_field. through replace_domains_field.
    through replace_nameservers_field. through replace_routes_field.
    through replace_addresses_field. through replace_gateway_field.
    through replace_never_default_field. split; reflexivity. }
  clearbody st. unfold replace_mtu. cbv zeta. rewrite Hm.
  destruct (mtu src =? mtu dst); cbn [negb rs_dst]; [ auto | ].
  unfold nm_ip4_config_set_mtu. rewrite Hm, Hs.
  case_conditions; config_simpl; auto.
Qed.

(** ** When [replace] changes nothing *)

Lemma replace_compare_same {T : Type} (differ : T -> T -> bool) (l : list T) :
  (forall x, differ x x = false) ->
  same_length l l && replace_compare differ l l = true.
Proof.
  intros Hd. unfold same_length. rewrite Nat.eqb_refl. simpl.
  induction l as [| x l IH]; simpl; [ reflexivity | ].
  now rewrite Hd.
Qed.

Lemma replace_compare_addresses_same (l : list NMPlatformIP4Address) (b : bool) :
  replace_compare_addresses l l b = (b, false).
Proof.
  induction l as [| x l IH]; simpl; [ reflexivity | ].
  now rewrite address_cmp_refl.
Qed.

Lemma replace_compare_routes_same (l : list NMPlatformIP4Route) (b : bool) :
  replace_compare_routes l l b = (b, false).
Proof.
  induction l as [| x l IH]; simpl; [ reflexivity | ].
  now rewrite route_cmp_refl.
Qed.

Lemma g_strcmp0_eq_iff (a b : option string) :
  g_strcmp0_eq a b = true <-> a = b.
Proof.
  destruct a as [x |], b as [y |]; simpl; split; try congruence;
    try reflexivity.
  - intros E. apply String.eqb_eq in E. now subst.
  - intros [= ->]. apply String.eqb_refl.
Qed.

(** A step that finds its field equal leaves the state as it is. *)
Ltac replace_step_same :=
  intros E;
  match goal with
  | st : replace_state |- _ => destruct st as [dst minor relevant]
  end;
  cbn [rs_dst] in E;
  cbv beta delta [replace_never_default replace_gateway replace_addresses
                  replace_routes replace_nameservers replace_domains
                  replace_searches replace_mss replace_nis replace_nis_domain
                  replace_wins replace_mtu] zeta;
  cbn [rs_dst has_minor_changes has_relevant_changes];
  rewrite <- E.

Lemma replace_never_default_same (src : NMIP4Config) (st : replace_state) :
  never_default (rs_dst st) = never_default src ->
  replace_never_default src st = st.
Proof. replace_step_same. now rewrite Bool.eqb_reflx. Qed.

Lemma replace_gateway_same (src : NMIP4Config) (st : replace_state) :
  gateway (rs_dst st) = gateway src -> replace_gateway src st = st.
Proof. replace_step_same. now rewrite Z.eqb_refl. Qed.

Lemma replace_addresses_same (src : NMIP4Config) (st : replace_state) :
  addresses (rs_dst st) = addresses src -> replace_addresses src st = st.
Proof.
  replace_step_same. unfold same_length. rewrite Nat.eqb_refl.
  rewrite replace_compare_addresses_same. simpl. now rewrite orb_false_r.
Qed.

Lemma replace_routes_same (src : NMIP4Config) (st : replace_state) :
  routes (rs_dst st) = routes src -> replace_routes src st = st.
Proof.
  replace_step_same. unfold same_length. rewrite Nat.eqb_refl.
  rewrite replace_compare_routes_same. simpl. now rewrite orb_false_r.
Qed.

Lemma replace_nameservers_same (src : NMIP4Config) (st : replace_state) :
  nameservers (rs_dst st) = nameservers src ->
  replace_nameservers src st = st.
Proof.
  replace_step_same. rewrite replace_compare_same; [ reflexivity | ].
  intros x. now rewrite Z.eqb_refl.
Qed.

Lemma replace_domains_same (src : NMIP4Config) (st : replace_state) :
  domains (rs_dst st) = domains src -> replace_domains src st = st.
Proof.
  replace_step_same. rewrite replace_compare_same; [ reflexivity | ].
  intros x. now rewrite String.eqb_refl.
Qed.

Lemma replace_searches_same (src : NMIP4Config) (st : replace_state) :
  searches (rs_dst st) = searches src -> replace_searches src st = st.
Proof.
  replace_step_same. rewrite replace_compare_same; [ reflexivity | ].
  intros x. now rewrite String.eqb_refl.
Qed.

Lemma replace_mss_same (src : NMIP4Config) (st : replace_state) :
  mss (rs_dst st) = mss src -> replace_mss src st = st.
Proof. replace_step_same. now rewrite Z.eqb_refl. Qed.

Lemma replace_nis_same (src : NMIP4Config) (st : replace_state) :
  nis (rs_dst st) = nis src -> replace_nis src st = st.
Proof.
  replace_step_same. rewrite replace_compare_same; [ reflexivity | ].
  intros x. now rewrite Z.eqb_refl.
Qed.

Lemma replace_nis_domain_same (src : NMIP4Config) (st : replace_state) :
  nis_domain (rs_dst st) = nis_domain src -> replace_nis_domain src st = st.
Proof.
  replace_step_same.
  now rewrite (proj2 (g_strcmp0_eq_iff (nis_domain dst) (nis_domain dst))).
Qed.

Lemma replace_wins_same (src : NMIP4Config) (st : replace_state) :
  wins (rs_dst st) = wins src -> replace_wins src st = st.
Proof.
  replace_step_same. rewrite replace_compare_same; [ reflexivity | ].
  intros x. now rewrite Z.eqb_refl.
Qed.

(** When only the MTU may differ, [replace] is its last step. *)
Lemma replace_steps_agreeing (dst src : NMIP4Config) :
  never_default dst = never_default src ->
  gateway dst = gateway src ->
  addresses dst = addresses src ->
  routes dst = routes src ->
  nameservers dst = nameservers src ->
  domains dst = domains src ->
  searches dst = searches src ->
  mss dst = mss src ->
  nis dst = nis src ->
  nis_domain dst = nis_domain src ->
  wins dst = wins src ->
  replace_steps dst src = replace_mtu src (mkReplace dst false false).
Proof.
  intros. unfold replace_steps. cbv zeta.
  rewrite replace_never_default_same by assumption.
  rewrite replace_gateway_same by assumption.
  rewrite replace_addresses_same by assumption.
  rewrite replace_routes_same by assumption.
  rewrite replace_nameservers_same by assumption.
  rewrite replace_domains_same by assumption.
  rewrite replace_searches_same by assumption.
  rewrite replace_mss_same by assumption.
  rewrite replace_nis_same by assumption.
  rewrite replace_nis_domain_same by assumption.
  rewrite replace_wins_same by assumption.
  reflexivity.
Qed.

(** A step that leaves both flags down found its field equal. *)
Ltac replace_step_quiet :=
  match goal with
  | st : replace_state |- _ => destruct st as [dst minor relevant]
  end;
  unfold has_changes;
  cbv beta delta [replace_never_default replace_gateway replace_addresses
                  replace_routes replace_nameservers replace_domains
                  replace_searches replace_mss replace_nis replace_nis_domain
                  replace_wins replace_mtu] zeta;
  cbn [rs_dst has_minor_changes has_relevant_changes].

Lemma replace_never_default_quiet (src : NMIP4Config) (st : replace_state) :
  has_changes (replace_never_default src st) = false ->
  never_default (rs_dst st) = never_default src /\ has_changes st = false.
Proof.
  replace_step_quiet.
  destruct (Bool.eqb (never_default src) (never_default dst)) eqn:E;
    cbn [negb has_minor_changes has_relevant_changes]; intros H.
  - apply Bool.eqb_prop in E. auto.
  - rewrite orb_true_r in H. discriminate.
Qed.

Lemma replace_gateway_quiet (src : NMIP4Config) (st : replace_state) :
  has_changes (replace_gateway src st) = false ->
  gateway (rs_dst st) = gateway src /\ has_changes st = false.
Proof.
  replace_step_quiet.
  destruct (Z.eqb_spec (gateway src) (gateway dst));
    cbn [negb has_minor_changes has_relevant_changes]; intros H;
    [ auto | discriminate ].
Qed.

Lemma replace_addresses_quiet (src : NMIP4Config) (st : replace_state) :
  has_changes (replace_addresses src st) = false ->
  addresses (rs_dst st) = addresses src /\ has_changes st = false.
Proof.
  replace_step_quiet.
  destruct (same_length (addresses src) (addresses dst)) eqn:L.
  - apply Nat.eqb_eq in L.
    pose proof (replace_compare_addresses_true _ _ L) as Heq.
    destruct (replace_compare_addresses _ _ true) as [[|] rel];
      cbn [negb has_minor_changes has_relevant_changes fst] in *; intros H.
    + apply orb_false_iff in H as [H1 H2].
      apply orb_false_iff in H1 as [H1 _].
      rewrite H1, H2. split; [ symmetry; auto | reflexivity ].
    + rewrite orb_true_r in H. discriminate.
  - cbn [negb has_minor_changes has_relevant_changes]. intros H.
    rewrite orb_true_r in H. discriminate.
Qed.

Lemma replace_routes_quiet (src : NMIP4Config) (st : replace_state) :
  has_changes (replace_routes src st) = false ->
  routes (rs_dst st) = routes src /\ has_changes st = false.
Proof.
  replace_step_quiet.
  destruct (same_length (routes src) (routes dst)) eqn:L.
  - apply Nat.eqb_eq in L.
    pose proof (replace_compare_routes_true _ _ L) as Heq.
    destruct (replace_compare_routes _ _ true) as [[|] rel];
      cbn [negb has_minor_changes has_relevant_changes fst] in *; intros H.
    + apply orb_false_iff in H as [H1 H2].
      apply orb_false_iff in H1 as [H1 _].
      rewrite H1, H2. split; [ symmetry; auto | reflexivity ].
    + rewrite orb_true_r in H. discriminate.
  - cbn [negb has_minor_changes has_relevant_changes]. intros H.
    rewrite orb_true_r in H. discriminate.
Qed.

Ltac replace_array_quiet differ_eq :=
  replace_step_quiet;
  let C := fresh "C" in
  let H := fresh "H" in
  match goal with
  | |- context [if ?b then _ else _] => destruct b eqn:C
  end;
  cbn [has_minor_changes has_relevant_changes]; intros H;
  [ split; [ symmetry; exact (replace_compare_equal _ _ _ differ_eq C)
           | exact H ]
  | discriminate ].

Lemma replace_nameservers_quiet (src : NMIP4Config) (st : replace_state) :
  has_changes (replace_nameservers src st) = false ->
  nameservers (rs_dst st) = nameservers src /\ has_changes st = false.
Proof. replace_array_quiet Z_differ. Qed.

Lemma replace_domains_quiet (src : NMIP4Config) (st : replace_state) :
  has_changes (replace_domains src st) = false ->
  domains (rs_dst st) = domains src /\ has_changes st = false.
Proof. replace_array_quiet string_differ. Qed.

Lemma replace_searches_quiet (src : NMIP4Config) (st : replace_state) :
  has_changes (replace_searches src st) = false ->
  searches (rs_dst st) = searches src /\ has_changes st = false.
Proof. replace_array_quiet string_differ. Qed.

Lemma replace_nis_quiet (src : NMIP4Config) (st : replace_state) :
  has_changes (replace_nis src st) = false ->
  nis (rs_dst st) = nis src /\ has_changes st = false.
Proof. replace_array_quiet Z_differ. Qed.

Lemma replace_wins_quiet (src : NMIP4Config) (st : replace_state) :
  has_changes (replace_wins src st) = false ->
  wins (rs_dst st) = wins src /\ has_changes st = false.
Proof. replace_array_quiet Z_differ. Qed.

Lemma replace_mss_quiet (src : NMIP4Config) (st : replace_state) :
  has_changes (replace_mss src st) = false ->
  mss (rs_dst st) = mss src /\ has_changes st = false.
Proof.
  replace_step_quiet.
  destruct (Z.eqb_spec (mss src) (mss dst));
    cbn [negb has_minor_changes has_relevant_changes]; intros H;
    [ auto | rewrite orb_true_r in H; discriminate ].
Qed.

Lemma replace_nis_domain_quiet (src : NMIP4Config) (st : replace_state) :
  has_changes (replace_nis_domain src st) = false ->
  nis_domain (rs_dst st) = nis_domain src /\ has_changes st = false.
Proof.
  replace_step_quiet.
  destruct (g_strcmp0_eq (nis_domain src) (nis_domain dst)) eqn:E;
    cbn [negb has_minor_changes has_relevant_changes]; intros H;
    [ | discriminate ].
  apply g_strcmp0_eq_iff in E. auto.
Qed.

Lemma replace_mtu_quiet (src : NMIP4Config) (st : replace_state) :
  has_changes (replace_mtu src st) = false ->
  mtu (rs_dst st) = mtu src /\ has_changes st = false.
Proof.
  replace_step_quiet.
  destruct (Z.eqb_spec (mtu src) (mtu dst));
    cbn [negb has_minor_changes has_relevant_changes]; intros H;
    [ auto | rewrite orb_true_r in H; discriminate ].
Qed.

Lemma replace_steps_quiet (dst src : NMIP4Config) :
  has_changes (replace_steps dst src) = false ->
  compared_fields_agree dst src.
Proof.
  unfold replace_steps. cbv zeta. intros H.
  apply replace_mtu_quiet in H as [Hmtu H].
  apply replace_wins_quiet in H as [Hwins H].
  apply replace_nis_domain_quiet in H as [Hnisdom H].
  apply replace_nis_quiet in H as [Hnis H].
  apply replace_mss_quiet in H as [Hmss H].
  apply replace_searches_quiet in H as [Hsearches H].
  apply replace_domains_quiet in H as [Hdomains H].
  apply replace_nameservers_quiet in H as [Hns H].
  apply replace_routes_quiet in H as [Hroutes H].
  apply replace_addresses_quiet in H as [Haddrs H].
  apply replace_gateway_quiet in H as [Hgw H].
  apply replace_never_default_quiet in H as [Hnd _].
  cbn [rs_dst] in Hnd.
  rewrite replace_never_default_same in * by exact Hnd.
  cbn [rs_dst] in Hgw.
  rewrite replace_gateway_same in * by exact Hgw.
  cbn [rs_dst] in Haddrs.
  rewrite replace_addresses_same in * by exact Haddrs.
  cbn [rs_dst] in Hroutes.
  rewrite replace_routes_same in * by exact Hroutes.
  cbn [rs_dst] in Hns.
  rewrite replace_nameservers_same in * by exact Hns.
  cbn [rs_dst] in Hdomains.
  rewrite replace_domains_same in * by exact Hdomains.
  cbn [rs_dst] in Hsearches.
  rewrite replace_searches_same in * by exact Hsearches.
  cbn [rs_dst] in Hmss.
  rewrite replace_mss_same in * by exact Hmss.
  cbn [rs_dst] in Hnis.
  rewrite replace_nis_same in * by exact Hnis.
  cbn [rs_dst] in Hnisdom.
  rewrite replace_nis_domain_same in * by exact Hnisdom.
  cbn [rs_dst] in Hwins.
  rewrite replace_wins_same in * by exact Hwins.
  cbn [rs_dst] in Hmtu.
  repeat split; assumption.
Qed.

Lemma agreeing_equal (dst src : NMIP4Config) :
  gateway dst = gateway src ->
  addresses dst = addresses src ->
  routes dst = routes src ->
  nameservers dst = nameservers src ->
  domains dst = domains src ->
  searches dst = searches src ->
  nis dst = nis src ->
  nis_domain dst = nis_domain src ->
  wins dst = wins src ->
  nm_ip4_config_equal (Some dst) (Some src) = true.
Proof.
  intros Hg Ha Hr Hns Hd Hs Hn Hnd Hw.
  apply equal_of_hash.
  apply hash_fields; try assumption;
    first [ now rewrite Ha | now rewrite Hr | now rewrite Hnd ].
Qed.

(** [nm_ip4_config_replace] returns FALSE, with [dst] as it was and no
    relevant change, when [dst] and [src] agree on the twelve fields it
    compares; and whenever it returns FALSE they do agree. *)
Theorem replace_unchanged_iff_agree (dst src : NMIP4Config) :
  (compared_fields_agree dst src ->
     nm_ip4_config_replace dst src = Some (mkResult dst false false))
  /\ (forall result,
        nm_ip4_config_replace dst src = Some result ->
        changed result = false ->
        compared_fields_agree dst src).
Proof.
  split.
  - intros (Hnd & Hgw & Ha & Hr & Hns & Hd & Hs & Hmss & Hnis & Hnd' & Hw
            & Hmtu).
    unfold nm_ip4_config_replace. cbv zeta.
    rewrite replace_steps_agreeing by assumption.
    rewrite agreeing_equal by assumption.
    unfold replace_mtu. cbv zeta. cbn [rs_dst]. rewrite Hmtu, Z.eqb_refl.
    reflexivity.
  - intros result. unfold nm_ip4_config_replace. cbv zeta.
    destruct (Bool.eqb _ _); [ | discriminate ].
    intros [= <-]. cbn [changed]. apply replace_steps_quiet.
Qed.

Lemma config_eta (c : NMIP4Config) :
  c = mkConfig (path c) (never_default c) (gateway c) (addresses c)
        (routes c) (nameservers c) (domains c) (searches c) (mss c) (nis c)
        (nis_domain c) (wins c) (mtu c) (mtu_source c).
Proof. destruct c; reflexivity. Qed.

Lemma replace_steps_well_formed (dst src : NMIP4Config) :
  well_formed src ->
  addresses (rs_dst (replace_steps dst src)) = addresses src
  /\ routes (rs_dst (replace_steps dst src)) = routes src
  /\ nameservers (rs_dst (replace_steps dst src)) = nameservers src
  /\ domains (rs_dst (replace_steps dst src)) = domains src
  /\ searches (rs_dst (replace_steps dst src)) = searches src
  /\ nis (rs_dst (replace_steps dst src)) = nis src
  /\ wins (rs_dst (replace_steps dst src)) = wins src.
Proof.
  intros [].
  repeat split.
  - destruct (replace_steps_addresses_result dst src) as [[-> ?] | ->];
      auto using refill_addresses.
  - destruct (replace_steps_routes_result dst src) as [[-> ?] | ->];
      auto using refill_routes.
  - destruct (replace_steps_nameservers_result dst src) as [[-> ?] | ->];
      auto using refill_nonzero.
  - destruct (replace_steps_domains_result dst src) as [[-> ?] | ->];
      auto using refill_strings.
  - destruct (replace_steps_searches_result dst src) as [[-> ?] | ->];
      auto using refill_strings.
  - destruct (replace_steps_nis_result dst src) as [[-> ?] | ->];
      auto using refill_unique.
  - destruct (replace_steps_wins_result dst src) as [[-> ?] | ->];
      auto using refill_nonzero.
Qed.

Lemma replace_steps_installed (dst src : NMIP4Config) :
  well_formed src ->
  let target :=
    if mtu src =? mtu dst then dst
    else nm_ip4_config_set_mtu dst (mtu src) (mtu_source src) in
  rs_dst (replace_steps dst src)
  = mkConfig (path dst) (never_default src) (gateway src) (addresses src)
      (routes src) (nameservers src) (domains src) (searches src) (mss src)
      (nis src) (nis_domain src) (wins src) (mtu target) (mtu_source target).
Proof.
  intros Hwf target.
  destruct (replace_steps_well_formed dst src Hwf)
    as (Ha & Hr & Hns & Hd & Hs & Hn & Hw).
  destruct (replace_steps_mtu dst src) as [Hm Hms].
  rewrite (config_eta (rs_dst (replace_steps dst src))).
  rewrite Ha, Hr, Hns, Hd, Hs, Hn, Hw, Hm, Hms.
  rewrite replace_steps_path, replace_steps_never_default_result,
    replace_steps_gateway_result, replace_steps_mss_result,
    replace_steps_nis_domain_result.
  reflexivity.
Qed.

(** When [src] is well-formed, [nm_ip4_config_replace] leaves in [dst] the
    fields of [src], apart from the path, which stays that of [dst], and
    the MTU, which goes through [nm_ip4_config_set_mtu] and only when the
    two MTUs differ. *)
Theorem replace_installs_source (dst src : NMIP4Config) :
  well_formed src ->
  let target :=
    if mtu src =? mtu dst then dst
    else nm_ip4_config_set_mtu dst (mtu src) (mtu_source src) in
  rs_dst (replace_steps dst src)
  = mkConfig (path dst) (never_default src) (gateway src) (addresses src)
      (routes src) (nameservers src) (domains src) (searches src) (mss src)
      (nis src) (nis_domain src) (wins src) (mtu target) (mtu_source target).
Proof. exact (replace_steps_installed dst src). Qed.

Lemma set_mtu_kept (c : NMIP4Config) (new_mtu : Z) (source : NMIPConfigSource) :
  mtu (nm_ip4_config_set_mtu c new_mtu source) <> new_mtu ->
  nm_ip4_config_set_mtu c new_mtu source = c.
Proof.
  unfold nm_ip4_config_set_mtu.
  case_conditions; config_simpl; congruence.
Qed.

(** After [replace] from a well-formed [src], a second [replace] from the
    same [src] passes its assertion, leaves the object as it is and sees no
    relevant change.  It still returns TRUE when the first call could not
    install the MTU of [src]. *)
Theorem replace_twice (dst src : NMIP4Config) :
  well_formed src ->
  let once := rs_dst (replace_steps dst src) in
  nm_ip4_config_replace once src
  = Some (mkResult once (negb (mtu src =? mtu once)) false).
Proof.
  intros Hwf once.
  pose proof (replace_steps_installed dst src Hwf) as E. cbv zeta in E.
  fold once in E.
  assert (mtu_source once
          = mtu_source (if mtu src =? mtu dst then dst
                        else nm_ip4_config_set_mtu dst (mtu src)
                               (mtu_source src))
          /\ mtu once
             = mtu (if mtu src =? mtu dst then dst
                    else nm_ip4_config_set_mtu dst (mtu src) (mtu_source src)))
    as [Hsource Hmtu] by (rewrite E; split; reflexivity).
  assert (never_default once = never_default src
          /\ gateway once = gateway src /\ addresses once = addresses src
          /\ routes once = routes src /\ nameservers once = nameservers src
          /\ domains once = domains src /\ searches once = searches src
          /\ mss once = mss src /\ nis once = nis src
          /\ nis_domain once = nis_domain src /\ wins once = wins src)
    as (? & ? & ? & ? & ? & ? & ? & ? & ? & ? & ?)
    by (rewrite E; repeat split; reflexivity).
  clear E. unfold nm_ip4_config_replace. cbv zeta.
  rewrite replace_steps_agreeing by assumption.
  rewrite agreeing_equal by assumption.
  unfold replace_mtu. cbv zeta. cbn [rs_dst].
  destruct (Z.eqb_spec (mtu src) (mtu once)) as [Heq | Hne];
    cbn [negb has_minor_changes has_relevant_changes rs_dst Bool.eqb orb];
    [ reflexivity | ].
  do 2 f_equal.
  destruct (Z.eqb_spec (mtu src) (mtu dst)) as [Hd | Hd];
    [ congruence | ].
  assert (nm_ip4_config_set_mtu dst (mtu src) (mtu_source src) = dst) as Hkept.
  { apply set_mtu_kept. congruence. }
  rewrite Hkept in Hsource, Hmtu.
  unfold nm_ip4_config_set_mtu in Hkept |- *.
  rewrite Hsource, Hmtu.
  destruct (mtu_source src >? mtu_source dst).
  - apply (f_equal mtu) in Hkept. revert Hkept. config_simpl. congruence.
  - destruct ((mtu_source src =? mtu_source dst)
              && ((mtu dst =? 0) || (mtu dst >? mtu src)));
      [ | reflexivity ].
    apply (f_equal mtu) in Hkept. revert Hkept. config_simpl. congruence.
Qed.

(** When the MTUs differ and that of [src] comes from a lower source than
    that of [dst], [replace] counts a change and leaves the MTU of [dst]
    and its source as they were. *)
Theorem replace_counts_mtu_it_keeps (dst src : NMIP4Config) :
  mtu src <> mtu dst ->
  mtu_source src < mtu_source dst ->
  has_changes (replace_steps dst src) = true
  /\ mtu (rs_dst (replace_steps dst src)) = mtu dst
  /\ mtu_source (rs_dst (replace_steps dst src)) = mtu_source dst.
Proof.
  intros Hne Hlt. split.
  - destruct (has_changes (replace_steps dst src)) eqn:H; [ reflexivity | ].
    apply replace_steps_quiet in H.
    unfold compared_fields_agree in H. intuition congruence.
  - destruct (replace_steps_mtu dst src) as [-> ->].
    destruct (Z.eqb_spec (mtu src) (mtu dst)); [ auto | ].
    unfold nm_ip4_config_set_mtu.
    destruct (Z.gtb_spec (mtu_source src) (mtu_source dst)); [ lia | ].
    destruct (Z.eqb_spec (mtu_source src) (mtu_source dst)); [ lia | ].
    auto.
Qed.

(** ** Subtract as a difference *)

Section Difference.

Context {T X K : Type}.
Variable test : X -> T -> bool.
Variable key : T -> K.
Variable key_of : X -> K.
Hypothesis test_key : forall b x, test b x = true <-> key_of b = key x.




End Difference.

Lemma same_address_identity_key (a d : NMPlatformIP4Address) :
  same_address_identity a d = true <-> address_identity a = address_identity d.
Proof.
  unfold same_address_identity, address_identity.
  rewrite andb_true_iff, !Z.eqb_eq. split; [ intros [-> ->] | intros [= -> ->] ];
    auto.
Qed.



(** ** Subtract on a store *)






(** The store model runs out of fuel in no loop: a loop that is given as
    many rounds as the array of [src] has entries ends because its test
    [i < num (src)] fails.  More rounds change nothing. *)
Lemma subtract_loop_fuel {T : Type} (get : NMIP4Config -> list T)
    (subtract_entry : NMIP4Config -> T -> NMIP4Config) (dst src : nat)
    (fuel more i : nat) (heap : objects) :
  (forall config entry,
     (List.length (get (subtract_entry config entry))
      <= List.length (get config))%nat) ->
  (List.length (get (heap src)) <= fuel + i)%nat ->
  subtract_loop get subtract_entry (fuel + more) i heap dst src
  = subtract_loop get subtract_entry fuel i heap dst src.
Proof.
  intros Hshrinks. revert i heap.
  induction fuel as [| fuel IH]; intros i heap Hlen.
  - destruct more as [| more]; [ reflexivity | ].
    cbn [Nat.add subtract_loop].
    assert (nth_error (get (heap src)) i = None) as ->
        by (apply nth_error_None; lia).
    reflexivity.
  - cbn [Nat.add subtract_loop].
    destruct (nth_error (get (heap src)) i) as [entry |]; [ | reflexivity ].
    apply IH. unfold store.
    destruct (Nat.eqb src dst) eqn:E.
    + apply Nat.eqb_eq in E. subst src.
      specialize (Hshrinks (heap dst) entry). lia.
    + lia.
Qed.

Lemma remove_index_length {T : Type} (l : list T) (i : nat) :
  (List.length (g_array_remove_index l i) <= List.length l)%nat.
Proof.
  revert i. induction l as [| x l IH]; intros [| i]; simpl; try lia.
  specialize (IH i). lia.
Qed.

Lemma remove_first_length {T : Type} (p : T -> bool) (l : list T) :
  (List.length (array_remove_first p l) <= List.length l)%nat.
Proof.
  unfold array_remove_first.
  destruct (find_index p l); [ apply remove_index_length | lia ].
Qed.

(** No round of the seven loops makes its array longer, so each of them
    meets the condition of [subtract_loop_fuel]. *)
Lemma subtract_entries_shrink (config : NMIP4Config) :
  (forall a, (List.length (addresses (subtract_address config a))
              <= List.length (addresses config))%nat)
  /\ (forall x, (List.length (nameservers (subtract_nameserver config x))
                 <= List.length (nameservers config))%nat)
  /\ (forall r, (List.length (routes (subtract_route config r))
                 <= List.length (routes config))%nat)
  /\ (forall x, (List.length (domains (subtract_domain config x))
                 <= List.length (domains config))%nat)
  /\ (forall x, (List.length (searches (subtract_search config x))
                 <= List.length (searches config))%nat)
  /\ (forall x, (List.length (nis (subtract_nis_server config x))
                 <= List.length (nis config))%nat)
  /\ (forall x, (List.length (wins (subtract_wins config x))
                 <= List.length (wins config))%nat).
Proof.
  repeat split; intros x.
  - rewrite subtract_address_view. config_simpl. apply remove_first_length.
  - rewrite subtract_nameserver_view. config_simpl.
    apply remove_first_length.
  - rewrite subtract_route_view. config_simpl. apply remove_first_length.
  - rewrite subtract_domain_view. config_simpl. apply remove_first_length.
  - rewrite subtract_search_view. config_simpl. apply remove_first_length.
  - rewrite subtract_nis_server_view. config_simpl.
    apply remove_first_length.
  - rewrite subtract_wins_view. config_simpl. apply remove_first_length.
Qed.


(** With one object as [dst] and as [src] the loops read the array that
    they delete from: of the addresses 10.0.0.5, 10.0.0.6 and 10.0.0.7 the
    first round deletes the first, the second round reads and deletes what
    is then the second, 10.0.0.7, and the third round finds the array too
    short.  10.0.0.6 stays. *)
Example subtract_same_object :
  addresses
    (nm_ip4_config_subtract_objects SubtractExample.alone 0%nat 0%nat 0%nat)
  = [SubtractExample.second]
  /\ addresses
       (nm_ip4_config_subtract (SubtractExample.alone 0%nat)
          (SubtractExample.alone 0%nat))
     = [].
Proof. split; reflexivity. Qed.

(** ** Merge as a union *)

Section Union.

Context {T K : Type}.
Variable add : list T -> T -> list T.
Variable key : T -> K.
Variable accepted : T -> bool.
Hypothesis key_dec : forall a b : K, {a = b} + {a <> b}.
Hypothesis add_new :
  forall l x, accepted x = true -> ~ In (key x) (map key l) ->
              map key (add l x) = map key l ++ [key x].
Hypothesis add_known :
  forall l x, accepted x = false \/ In (key x) (map key l) ->
              map key (add l x) = map key l.

Lemma fold_add_keys (src dst : list T) :
  exists zs,
    map key (fold_left add src dst) = map key dst ++ zs
    /\ NoDup zs
    /\ forall k, In k zs
                 <-> (exists x, In x src /\ accepted x = true /\ key x = k)
                     /\ ~ In k (map key dst).
Proof.
  revert dst. induction src as [| x src IH]; intros dst; simpl.
  - exists []. rewrite app_nil_r.
    split; [ reflexivity | split; [ constructor | ] ].
    intros k. split; [ intros [] | intros [(x & [] & _) _] ].
  - destruct (IH (add dst x)) as (zs & E & Hd & Hin).
    assert (accepted x = false \/ In (key x) (map key dst)
            \/ (accepted x = true /\ ~ In (key x) (map key dst)))
      as [A | [I | [A I]]].
    { destruct (accepted x); [ | auto ].
      destruct (in_dec key_dec (key x) (map key dst)); auto. }
    + rewrite (add_known dst x) in E, Hin by auto.
      exists zs. split; [ exact E | split; [ exact Hd | ] ].
      intros k. rewrite Hin. split.
      * intros [(y & ? & ? & ?) ?]. eauto 6.
      * intros [(y & [<- | Hy] & Ay & <-) Hk]; [ congruence | eauto 6 ].
    + rewrite (add_known dst x) in E, Hin by auto.
      exists zs. split; [ exact E | split; [ exact Hd | ] ].
      intros k. rewrite Hin. split.
      * intros [(y & ? & ? & ?) ?]. eauto 6.
      * intros [(y & [<- | Hy] & Ay & <-) Hk]; [ contradiction | eauto 6 ].
    + rewrite (add_new dst x) in E, Hin by auto.
      exists (key x :: zs). rewrite E, <- app_assoc.
      split; [ reflexivity | split ].
      * constructor; [ | assumption ].
        intros Hz. apply Hin in Hz as [_ Hz]. apply Hz.
        rewrite in_app_iff. right. now left.
      * intros k. split.
        -- intros [<- | H]; [ eauto 6 | ].
           apply Hin in H as [(y & ? & ? & ?) Hk].
           rewrite in_app_iff in Hk. split; [ eauto 6 | tauto ].
        -- intros [(y & [<- | Hy] & Ay & <-) Hk]; [ now left | ].
           destruct (key_dec (key x) (key y)) as [Ek | Ek]; [ now left | ].
           right. apply Hin. split; [ eauto | ].
           rewrite in_app_iff. intros [? | [? | []]]; auto.
Qed.

End Union.

Lemma add_address_loop_found (items : list NMPlatformIP4Address)
    (new : NMPlatformIP4Address) :
  In (addr_address new) (map addr_address items) ->
  add_address_loop items new <> None.
Proof.
  induction items as [| item rest IH]; simpl; [ tauto | ].
  intros Hin.
  destruct (addresses_are_duplicate item new false) eqn:D.
  - destruct (_ =? 0); [ discriminate | ].
    cbv zeta. destruct (_ =? 0); discriminate.
  - destruct Hin as [E | Hin].
    + apply addresses_are_duplicate_address in E. congruence.
    + specialize (IH Hin).
      destruct (add_address_loop rest new) as [[? ?] |];
        [ discriminate | congruence ].
Qed.

Lemma add_address_loop_missing (items : list NMPlatformIP4Address)
    (new : NMPlatformIP4Address) :
  ~ In (addr_address new) (map addr_address items) ->
  add_address_loop items new = None.
Proof.
  induction items as [| item rest IH]; simpl; [ reflexivity | ].
  intros Hn.
  destruct (addresses_are_duplicate item new false) eqn:D.
  - apply addresses_are_duplicate_address in D. tauto.
  - rewrite IH by tauto. reflexivity.
Qed.

Lemma address_array_add_new (l : list NMPlatformIP4Address)
    (x : NMPlatformIP4Address) :
  ~ In (addr_address x) (map addr_address l) ->
  map addr_address (address_array_add l x) = map addr_address l ++ [addr_address x].
Proof.
  intros Hn. unfold address_array_add.
  rewrite add_address_loop_missing by assumption. now rewrite map_app.
Qed.

Lemma address_array_add_known (l : list NMPlatformIP4Address)
    (x : NMPlatformIP4Address) :
  In (addr_address x) (map addr_address l) ->
  map addr_address (address_array_add l x) = map addr_address l.
Proof.
  intros Hin. unfold address_array_add.
  pose proof (add_address_loop_addresses l x) as H.
  pose proof (add_address_loop_found l x Hin) as F.
  destruct (add_address_loop l x) as [[items o] |]; [ exact H | congruence ].
Qed.

Lemma add_route_loop_found (items : list NMPlatformIP4Route)
    (new : NMPlatformIP4Route) :
  In (route_identity new) (map route_identity items) ->
  add_route_loop items new <> None.
Proof.
  induction items as [| item rest IH]; simpl; [ tauto | ].
  intros Hin.
  destruct (routes_are_duplicate item new false) eqn:D.
  - destruct (_ =? 0); discriminate.
  - destruct Hin as [E | Hin].
    + apply routes_are_duplicate_identity in E. congruence.
    + specialize (IH Hin).
      destruct (add_route_loop rest new) as [[? ?] |];
        [ discriminate | congruence ].
Qed.

Lemma add_route_loop_missing (items : list NMPlatformIP4Route)
    (new : NMPlatformIP4Route) :
  ~ In (route_identity new) (map route_identity items) ->
  add_route_loop items new = None.
Proof.
  induction items as [| item rest IH]; simpl; [ reflexivity | ].
  intros Hn.
  destruct (routes_are_duplicate item new false) eqn:D.
  - apply routes_are_duplicate_identity in D. tauto.
  - rewrite IH by tauto. reflexivity.
Qed.

Lemma route_array_add_new (l : list NMPlatformIP4Route)
    (x : NMPlatformIP4Route) :
  (route_plen x >? 0) = true ->
  ~ In (route_identity x) (map route_identity l) ->
  map route_identity (route_array_add l x)
  = map route_identity l ++ [route_identity x].
Proof.
  intros Hp Hn. unfold route_array_add. rewrite Hp. simpl.
  rewrite add_route_loop_missing by assumption. now rewrite map_app.
Qed.

Lemma route_array_add_known (l : list NMPlatformIP4Route)
    (x : NMPlatformIP4Route) :
  (route_plen x >? 0) = false \/ In (route_identity x) (map route_identity l) ->
  map route_identity (route_array_add l x) = map route_identity l.
Proof.
  unfold route_array_add.
  destruct (route_plen x >? 0); simpl; [ | reflexivity ].
  intros [? | Hin]; [ discriminate | ].
  pose proof (add_route_loop_identities l x) as H.
  pose proof (add_route_loop_found l x Hin) as F.
  destruct (add_route_loop l x) as [[items o] |]; [ exact H | congruence ].
Qed.

Lemma pair_Z_dec (a b : Z * Z) : {a = b} + {a <> b}.
Proof. decide equality; apply Z.eq_dec. Qed.

(** [nm_ip4_config_merge] extends each of the seven arrays of [dst] by what
    [src] brings: the entries of [dst] keep their positions (addresses by
    address, routes by identity), and behind them comes, once, every
    address of [src] that [dst] does not hold, every route of [src] with a
    positive prefix whose identity [dst] does not hold, and every name
    server, domain, search, NIS server and WINS server of [src] that [dst]
    does not hold, zero name servers and WINS servers and empty domains
    and searches apart. *)
Theorem merge_is_union (dst src : NMIP4Config) :
  let merged := nm_ip4_config_merge dst src in
  extends_by addr_address (fun _ => true)
    (addresses dst) (addresses src) (addresses merged)
  /\ extends_by route_identity (fun r => route_plen r >? 0)
       (routes dst) (routes src) (routes merged)
  /\ extends_by (fun x => x) (fun x => negb (x =? 0))
       (nameservers dst) (nameservers src) (nameservers merged)
  /\ extends_by (fun x => x) (fun x => negb (String.eqb x EmptyString))
       (domains dst) (domains src) (domains merged)
  /\ extends_by (fun x => x) (fun x => negb (String.eqb x EmptyString))
       (searches dst) (searches src) (searches merged)
  /\ extends_by (fun x => x) (fun _ => true) (nis dst) (nis src) (nis merged)
  /\ extends_by (fun x => x) (fun x => negb (x =? 0))
       (wins dst) (wins src) (wins merged).
Proof.
  intros merged. subst merged. rewrite merge_view. config_simpl.
  assert (forall l x, ~ In x (map (fun y : Z => y) l) ->
            existsb (Z.eqb x) l = false) as Hzn.
  { intros l x Hn. rewrite map_id in Hn.
    destruct (existsb (Z.eqb x) l) eqn:E; [ | reflexivity ].
    apply existsb_eqb_In in E. contradiction. }
  assert (forall l x, In x (map (fun y : Z => y) l) ->
            existsb (Z.eqb x) l = true) as Hzk.
  { intros l x Hin. rewrite map_id in Hin. now apply existsb_eqb_In. }
  assert (forall l x, ~ In x (map (fun y : string => y) l) ->
            existsb (String.eqb x) l = false) as Hsn.
  { intros l x Hn. rewrite map_id in Hn.
    destruct (existsb (String.eqb x) l) eqn:E; [ | reflexivity ].
    apply existsb_string_eqb_In in E. contradiction. }
  assert (forall l x, In x (map (fun y : string => y) l) ->
            existsb (String.eqb x) l = true) as Hsk.
  { intros l x Hin. rewrite map_id in Hin. now apply existsb_string_eqb_In. }
  assert (forall dst' src' : list Z,
            extends_by (fun x => x) (fun x => negb (x =? 0)) dst' src'
              (fold_left array_add_nonzero src' dst')) as Hnonzero.
  { intros dst' src'. apply fold_add_keys; [ apply Z.eq_dec | | ].
    - intros l x A Hn. unfold array_add_nonzero, array_add_unique.
      apply negb_true_iff in A. rewrite A, (Hzn _ _ Hn).
      now rewrite !map_id.
    - intros l x [A | Hin]; unfold array_add_nonzero, array_add_unique.
      + apply negb_false_iff in A. now rewrite A.
      + rewrite (Hzk _ _ Hin). now destruct (x =? 0). }
  assert (forall dst' src' : list string,
            extends_by (fun x => x)
              (fun x => negb (String.eqb x EmptyString)) dst' src'
              (fold_left array_add_string src' dst')) as Hstring.
  { intros dst' src'. apply fold_add_keys; [ apply string_dec | | ].
    - intros l x A Hn. unfold array_add_string.
      apply negb_true_iff in A. rewrite A, (Hsn _ _ Hn).
      now rewrite !map_id.
    - intros l x [A | Hin]; unfold array_add_string.
      + apply negb_false_iff in A. now rewrite A.
      + rewrite (Hsk _ _ Hin). now destruct (String.eqb x EmptyString). }
  repeat apply conj; auto.
  - apply fold_add_keys; [ apply Z.eq_dec | | ].
    + intros l x _. apply address_array_add_new.
    + intros l x [? | Hin]; [ discriminate | ].
      now apply address_array_add_known.
  - apply fold_add_keys; [ apply pair_Z_dec | | ].
    + apply route_array_add_new.
    + apply route_array_add_known.
  - apply fold_add_keys; [ apply Z.eq_dec | | ].
    + intros l x _ Hn. unfold array_add_unique. rewrite (Hzn _ _ Hn).
      now rewrite !map_id.
    + intros l x [? | Hin]; [ discriminate | ].
      unfold array_add_unique. now rewrite (Hzk _ _ Hin).
Qed.

(** ** Adding twice, and asking for what was added *)

Lemma overwrite_route_twice (old new : NMPlatformIP4Route) :
  overwrite_route (overwrite_route old new) new = overwrite_route old new.
Proof.
  unfold overwrite_route. cbn [route_source]. rewrite !MAX_max.
  f_equal. lia.
Qed.

Lemma overwrite_route_duplicate (old new : NMPlatformIP4Route) :
  routes_are_duplicate (overwrite_route old new) new false = true.
Proof. apply routes_are_duplicate_identity. reflexivity. Qed.

Lemma add_route_loop_twice (items : list NMPlatformIP4Route)
    (new : NMPlatformIP4Route) :
  match add_route_loop items new with
  | Some (items', _) => exists o, add_route_loop items' new = Some (items', o)
  | None => add_route_loop (items ++ [new]) new = Some (items ++ [new], Quiet)
  end.
Proof.
  induction items as [| item rest IH]; simpl.
  - assert (routes_are_duplicate new new false = true) as ->
        by now apply routes_are_duplicate_identity.
    now rewrite route_cmp_refl.
  - destruct (routes_are_duplicate item new false) eqn:D.
    + destruct (nm_platform_ip4_route_cmp item new =? 0) eqn:C.
      * exists Quiet. cbn [add_route_loop]. now rewrite D, C.
      * destruct (nm_platform_ip4_route_cmp (overwrite_route item new) new
                  =? 0) eqn:C'.
        -- exists Quiet. cbn [add_route_loop].
           now rewrite overwrite_route_duplicate, C'.
        -- exists Notified. cbn [add_route_loop].
           now rewrite overwrite_route_duplicate, C', overwrite_route_twice.
    + destruct (add_route_loop rest new) as [[rest' o] |].
      * destruct IH as [o' IH]. exists o'. cbn [add_route_loop].
        now rewrite D, IH.
      * now rewrite IH.
Qed.

(** Adding the same route a second time leaves the aggregate as the first
    call left it.  (The second call may still notify: the stored route
    keeps the higher source, and then it does not compare equal to the
    route that is added.) *)
Theorem add_route_twice (config : NMIP4Config) (new : NMPlatformIP4Route) :
  nm_ip4_config_add_route (nm_ip4_config_add_route config new) new
  = nm_ip4_config_add_route config new.
Proof.
  assert (route_array_add (route_array_add (routes config) new) new
          = route_array_add (routes config) new) as E.
  { unfold route_array_add.
    destruct (negb (route_plen new >? 0)) eqn:P; [ reflexivity | ].
    pose proof (add_route_loop_twice (routes config) new) as H.
    destruct (add_route_loop (routes config) new) as [[items o] |].
    - destruct H as [o' ->]. reflexivity.
    - now rewrite H. }
  rewrite !add_route_view. config_simpl. rewrite E.
  destruct config; reflexivity.
Qed.

Lemma address_exists_app (c : NMIP4Config) (l : list NMPlatformIP4Address)
    (needle : NMPlatformIP4Address) :
  nm_ip4_config_address_exists (with_addresses c l) needle
  = existsb (same_address_identity needle) l.
Proof. reflexivity. Qed.

Lemma add_address_loop_exists (items : list NMPlatformIP4Address)
    (new : NMPlatformIP4Address) :
  match add_address_loop items new with
  | Some (items', _) => existsb (same_address_identity new) items' = true
  | None => True
  end.
Proof.
  induction items as [| item rest IH]; simpl; [ trivial | ].
  destruct (addresses_are_duplicate item new false) eqn:D.
  - destruct (Z.eqb_spec (nm_platform_ip4_address_cmp item new) 0) as [C | C].
    + apply address_cmp_zero in C. subst item. simpl.
      unfold same_address_identity at 1. now rewrite !Z.eqb_refl.
    + cbv zeta.
      assert (same_address_identity new (overwrite_address item new) = true)
        as Hs.
      { apply same_address_identity_key. unfold address_identity.
        destruct (overwrite_address_identity item new) as (-> & -> & _).
        reflexivity. }
      destruct (_ =? 0); simpl; now rewrite Hs.
  - destruct (add_address_loop rest new) as [[rest' o] |]; [ | trivial ].
    simpl. rewrite IH. apply orb_true_r.
Qed.

Lemma add_address_loop_other (items : list NMPlatformIP4Address)
    (other needle : NMPlatformIP4Address) :
  addr_address other <> addr_address needle ->
  match add_address_loop items other with
  | Some (items', _) =>
      existsb (same_address_identity needle) items'
      = existsb (same_address_identity needle) items
  | None => True
  end.
Proof.
  intros Hne.
  assert (forall a, addr_address a = addr_address other ->
            same_address_identity needle a = false) as Hoff.
  { intros a Ha. unfold same_address_identity.
    destruct (Z.eqb_spec (addr_address needle) (addr_address a));
      [ congruence | reflexivity ]. }
  induction items as [| item rest IH]; simpl; [ trivial | ].
  destruct (addresses_are_duplicate item other false) eqn:D.
  - apply addresses_are_duplicate_address in D.
    destruct (_ =? 0); [ reflexivity | ].
    cbv zeta.
    assert (existsb (same_address_identity needle)
              (overwrite_address item other :: rest)
            = existsb (same_address_identity needle) (item :: rest)) as E.
    { simpl. rewrite (Hoff item D).
      rewrite Hoff; [ reflexivity | ].
      now destruct (overwrite_address_identity item other) as (-> & _). }
    destruct (_ =? 0); exact E.
  - destruct (add_address_loop rest other) as [[rest' o] |]; [ | trivial ].
    simpl. now rewrite IH.
Qed.

(** After [nm_ip4_config_add_address (config, new)] the aggregate answers
    TRUE to [nm_ip4_config_address_exists (config, new)]; and adding an
    address does not change the answer for any other address. *)
Theorem added_address_exists (config : NMIP4Config)
    (new : NMPlatformIP4Address) :
  nm_ip4_config_address_exists (nm_ip4_config_add_address config new) new
  = true
  /\ forall needle,
       addr_address new <> addr_address needle ->
       nm_ip4_config_address_exists (nm_ip4_config_add_address config new)
         needle
       = nm_ip4_config_address_exists config needle.
Proof.
  rewrite add_address_view. split.
  - rewrite address_exists_app. unfold address_array_add.
    pose proof (add_address_loop_exists (addresses config) new) as H.
    destruct (add_address_loop (addresses config) new) as [[items o] |];
      [ exact H | ].
    rewrite existsb_app. simpl. unfold same_address_identity at 2.
    rewrite !Z.eqb_refl. simpl. apply orb_true_r.
  - intros needle Hne. rewrite address_exists_app.
    unfold address_array_add.
    pose proof (add_address_loop_other (addresses config) new needle Hne) as H.
    destruct (add_address_loop (addresses config) new) as [[items o] |];
      [ exact H | ].
    rewrite existsb_app. simpl. unfold same_address_identity at 2.
    destruct (Z.eqb_spec (addr_address needle) (addr_address new));
      [ congruence | ].
    simpl. now rewrite orb_false_r.
Qed.

(** ** The scalar fields after subtract *)

(** The scalar fields after [nm_ip4_config_subtract].  The gateway is
    cleared when [src] has the same gateway and also when no address is
    left; the MSS and the NIS domain are cleared when [src] has the same
    one.  The MTU is cleared only when [src] has the same MTU and the MTU of
    [dst] has no known source: the reset goes through
    [nm_ip4_config_set_mtu] with the lowest source.  The path and the
    never-default flag stay. *)
Theorem subtract_scalar_fields (dst src : NMIP4Config) :
  let result := nm_ip4_config_subtract dst src in
  path result = path dst
  /\ never_default result = never_default dst
  /\ (addresses result = [] \/ gateway src = gateway dst ->
        gateway result = 0)
  /\ (addresses result <> [] -> gateway src <> gateway dst ->
        gateway result = gateway dst)
  /\ (mss src = mss dst -> mss result = 0)
  /\ (mss src <> mss dst -> mss result = mss dst)
  /\ (nis_domain src = nis_domain dst -> nis_domain result = None)
  /\ (nis_domain src <> nis_domain dst ->
        nis_domain result = nis_domain dst)
  /\ (mtu src = mtu dst -> mtu_source dst = NM_IP_CONFIG_SOURCE_UNKNOWN ->
        0 <= mtu dst -> mtu result = 0)
  /\ (mtu src <> mtu dst \/ mtu_source dst > NM_IP_CONFIG_SOURCE_UNKNOWN ->
        mtu result = mtu dst)
  /\ (0 <= mtu_source dst -> mtu_source result = mtu_source dst).
Proof.
  intros result. subst result. rewrite subtract_view. cbv zeta. config_simpl.
  split; [ reflexivity | split; [ reflexivity | ] ].
  split; [ | split ].
  - intros [E | E].
    + now rewrite E.
    + rewrite E, Z.eqb_refl. now destruct (Nat.eqb _ 0).
  - intros Ha Hg.
    destruct (Nat.eqb_spec
                (List.length
                   (fold_left
                      (fun l a =>
                         array_remove_first
                           (fun d => (addr_address a =? addr_address d)
                                     && (addr_plen a =? addr_plen d)) l)
                      (addresses src) (addresses dst))) 0) as [L | L].
    + apply length_zero_iff_nil in L. contradiction.
    + destruct (Z.eqb_spec (gateway src) (gateway dst)); congruence.
  - split; [ intros ->; now rewrite Z.eqb_refl | ].
    split; [ intros H; now destruct (Z.eqb_spec (mss src) (mss dst)) | ].
    split.
    { intros E. now rewrite (proj2 (g_strcmp0_eq_iff _ _) E). }
    split.
    { intros E. destruct (g_strcmp0_eq _ _) eqn:G; [ | reflexivity ].
      apply g_strcmp0_eq_iff in G. contradiction. }
    unfold nm_ip4_config_set_mtu, NM_IP_CONFIG_SOURCE_UNKNOWN.
    split; [ | split ].
    + intros Em Es Hm. rewrite Em, Z.eqb_refl, Es. simpl.
      destruct (Z.eqb_spec (mtu dst) 0) as [Z0 | Z0]; [ reflexivity | ].
      destruct (Z.gtb_spec (mtu dst) 0); [ reflexivity | lia ].
    + intros [Hm | Hs].
      * now destruct (Z.eqb_spec (mtu src) (mtu dst)).
      * destruct (mtu src =? mtu dst); [ | reflexivity ].
        destruct (Z.gtb_spec 0 (mtu_source dst)); [ lia | ].
        destruct (Z.eqb_spec 0 (mtu_source dst)); [ lia | reflexivity ].
    + intros Hs. destruct (mtu src =? mtu dst); [ | reflexivity ].
      destruct (Z.gtb_spec 0 (mtu_source dst)); [ lia | ].
      destruct ((0 =? mtu_source dst) && _); reflexivity.
Qed.

(** ** Looking up a host *)

Section HostLookupProperties.

Variable clear_host : Z -> Z -> Z.

Lemma subnet_loop_spec (items : list NMPlatformIP4Address) (host : Z)
    (subnet : option NMPlatformIP4Address) :
  match subnet_loop clear_host items host subnet with
  | Some found =>
      (subnet = Some found \/ (In found items /\ address_covers clear_host host found))
      /\ (forall s, subnet = Some s -> addr_plen s <= addr_plen found)
      /\ (forall item, In item items -> address_covers clear_host host item ->
            addr_plen item <= addr_plen found)
  | None =>
      subnet = None
      /\ forall item, In item items -> ~ address_covers clear_host host item
  end.
Proof.
  unfold address_covers.
  revert subnet. induction items as [| item rest IH]; intros subnet.
  - simpl. destruct subnet as [s |].
    + repeat split; auto.
      * intros s' [= <-]. lia.
      * intros item [].
    + split; [ reflexivity | intros item [] ].
  - cbn [subnet_loop].
    destruct (match subnet with
              | Some found => addr_plen found >=? addr_plen item
              | None => false
              end) eqn:Skip.
    + destruct subnet as [s |]; [ | discriminate ].
      apply Z.geb_le in Skip.
      specialize (IH (Some s)).
      destruct (subnet_loop clear_host rest host (Some s)) as [found |].
      * destruct IH as (Hsel & Hs & Hall).
        split; [ | split ].
        -- destruct Hsel as [? | [? ?]]; [ now left | right; split; auto ].
           now right.
        -- exact Hs.
        -- intros i [<- | Hin] Hc; [ | auto ].
           specialize (Hs s eq_refl). lia.
      * destruct IH as [? _]. discriminate.
    + destruct (same_subnet clear_host host (addr_address item)
                  (addr_plen item)) eqn:M; cbn [negb].
      * specialize (IH (Some item)).
        destruct (subnet_loop clear_host rest host (Some item)) as [found |].
        -- destruct IH as (Hsel & Hs & Hall).
           specialize (Hs item eq_refl).
           split; [ | split ].
           ++ right. destruct Hsel as [[= <-] | [? ?]].
              ** split; [ now left | exact M ].
              ** split; [ now right | assumption ].
           ++ intros s ->. rewrite Z.geb_leb in Skip.
              apply Z.leb_gt in Skip. lia.
           ++ intros i [<- | Hin] Hc; [ exact Hs | auto ].
        -- destruct IH as [? _]. discriminate.
      * specialize (IH subnet).
        destruct (subnet_loop clear_host rest host subnet) as [found |].
        -- destruct IH as (Hsel & Hs & Hall).
           split; [ | split ].
           ++ destruct Hsel as [? | [? ?]]; [ now left | right; split; auto ].
              now right.
           ++ exact Hs.
           ++ intros i [<- | Hin] Hc; [ congruence | auto ].
        -- destruct IH as [-> Hall]. split; [ reflexivity | ].
           intros i [<- | Hin]; [ congruence | auto ].
Qed.

Lemma direct_route_loop_spec (items : list NMPlatformIP4Route) (host : Z)
    (best_route : option NMPlatformIP4Route) :
  match direct_route_loop clear_host items host best_route with
  | Some found =>
      (best_route = Some found
       \/ (In found items /\ route_reaches clear_host host found))
      /\ (forall b, best_route = Some b ->
            route_plen b <= route_plen found
            /\ route_metric found <= route_metric b)
      /\ (forall r, In r items -> route_reaches clear_host host r ->
            route_plen r < route_plen found
            \/ route_metric found <= route_metric r)
  | None =>
      best_route = None
      /\ forall r, In r items -> ~ route_reaches clear_host host r
  end.
Proof.
  unfold route_reaches.
  revert best_route. induction items as [| item rest IH]; intros best_route.
  - simpl. destruct best_route as [b |].
    + split; [ now left | split ].
      * intros b' [= <-]. lia.
      * intros r [].
    + split; [ reflexivity | intros r [] ].
  - cbn [direct_route_loop].
    (* the four ways to skip [item] share the conclusion about the rest *)
    assert (forall (Hitem : forall found,
                      (forall b, best_route = Some b ->
                         route_plen b <= route_plen found
                         /\ route_metric found <= route_metric b) ->
                      route_gateway item = 0 ->
                      same_subnet clear_host host (route_network item)
                        (route_plen item) = true ->
                      route_plen item < route_plen found
                      \/ route_metric found <= route_metric item),
              match direct_route_loop clear_host rest host best_route with
              | Some found =>
                  (best_route = Some found
                   \/ (In found (item :: rest)
                       /\ route_gateway found = 0
                       /\ same_subnet clear_host host (route_network found)
                            (route_plen found) = true))
                  /\ (forall b, best_route = Some b ->
                        route_plen b <= route_plen found
                        /\ route_metric found <= route_metric b)
                  /\ (forall r, In r (item :: rest) ->
                        route_gateway r = 0
                        /\ same_subnet clear_host host (route_network r)
                             (route_plen r) = true ->
                        route_plen r < route_plen found
                        \/ route_metric found <= route_metric r)
              | None =>
                  best_route = None
                  /\ forall r, In r (item :: rest) ->
                       ~ (route_gateway r = 0
                          /\ same_subnet clear_host host (route_network r)
                               (route_plen r) = true)
              end \/ best_route = None) as Hskip.
    { intros Hitem. specialize (IH best_route).
      destruct (direct_route_loop clear_host rest host best_route)
        as [found |]; [ left | now right; destruct IH ].
      destruct IH as (Hsel & Hb & Hall).
      split; [ | split ].
      - destruct Hsel as [? | [? ?]]; [ now left | right; split; auto ].
        now right.
      - exact Hb.
      - intros r [<- | Hin] [Hg Hm]; [ now apply Hitem | auto ]. }
    destruct (Z.eqb_spec (route_gateway item) 0) as [G | G]; cbn [negb].
    2: { specialize (IH best_route).
         destruct (direct_route_loop clear_host rest host best_route)
           as [found |].
         - destruct IH as (Hsel & Hb & Hall).
           split; [ | split; [ exact Hb | ] ].
           + destruct Hsel as [? | [? ?]]; [ now left | right; split; auto ].
             now right.
           + intros r [<- | Hin] [Hg Hm]; [ contradiction | auto ].
         - destruct IH as [-> Hall]. split; [ reflexivity | ].
           intros r [<- | Hin]; [ tauto | auto ]. }
    destruct (match best_route with
              | Some best => route_plen best >? route_plen item
              | None => false
              end) eqn:Shorter.
    { destruct best_route as [b |]; [ | discriminate ].
      apply Z.gtb_lt in Shorter.
      destruct Hskip as [Hskip | ?]; [ | | discriminate ].
      - intros found Hb _ _. destruct (Hb b eq_refl). lia.
      - exact Hskip. }
    destruct (same_subnet clear_host host (route_network item)
                (route_plen item)) eqn:M; cbn [negb].
    2: { specialize (IH best_route).
         destruct (direct_route_loop clear_host rest host best_route)
           as [found |].
         - destruct IH as (Hsel & Hb & Hall).
           split; [ | split; [ exact Hb | ] ].
           + destruct Hsel as [? | [? ?]]; [ now left | right; split; auto ].
             now right.
           + intros r [<- | Hin] [Hg Hm]; [ congruence | auto ].
         - destruct IH as [-> Hall]. split; [ reflexivity | ].
           intros r [<- | Hin]; [ intros [_ ?]; congruence | auto ]. }
    destruct (match best_route with
              | Some best => route_metric best <=? route_metric item
              | None => false
              end) eqn:Cheaper.
    { destruct best_route as [b |]; [ | discriminate ].
      apply Z.leb_le in Cheaper.
      destruct Hskip as [Hskip | ?]; [ | | discriminate ].
      - intros found Hb _ _. destruct (Hb b eq_refl). lia.
      - exact Hskip. }
    clear Hskip. specialize (IH (Some item)).
    destruct (direct_route_loop clear_host rest host (Some item))
      as [found |]; [ | now destruct IH ].
    destruct IH as (Hsel & Hb & Hall).
    destruct (Hb item eq_refl) as [Hplen Hmetric].
    split; [ | split ].
    + right. destruct Hsel as [[= <-] | [? ?]].
      * split; [ now left | auto ].
      * split; [ now right | assumption ].
    + intros b ->. rewrite Z.gtb_ltb in Shorter.
      apply Z.ltb_ge in Shorter. apply Z.leb_gt in Cheaper. lia.
    + intros r [<- | Hin] Hr; [ now right | auto ].
Qed.

End HostLookupProperties.

(** [nm_ip4_config_get_subnet_for_host] answers with an address of the
    aggregate whose subnet holds the host and whose prefix is the longest
    among those that do; it answers nothing for host 0, or when no address
    covers the host. *)
Theorem subnet_for_host_longest (clear_host : Z -> Z -> Z)
    (config : NMIP4Config) (host : Z) :
  match nm_ip4_config_get_subnet_for_host clear_host config host with
  | Some found =>
      host <> 0
      /\ In found (addresses config)
      /\ address_covers clear_host host found
      /\ forall item, In item (addresses config) ->
           address_covers clear_host host item ->
           addr_plen item <= addr_plen found
  | None =>
      host = 0
      \/ forall item, In item (addresses config) ->
           ~ address_covers clear_host host item
  end.
Proof.
  unfold nm_ip4_config_get_subnet_for_host.
  destruct (Z.eqb_spec host 0) as [E | E]; [ now left | ].
  pose proof (subnet_loop_spec clear_host (addresses config) host None) as H.
  destruct (subnet_loop clear_host (addresses config) host None)
    as [found |].
  - destruct H as ([? | [? ?]] & _ & Hall); [ discriminate | auto ].
  - right. apply H.
Qed.

(** [nm_ip4_config_get_direct_route_for_host] answers with a route of the
    aggregate that has no gateway and whose network holds the host, and no
    other such route has both a prefix at least as long and a lower
    metric; it answers nothing for host 0, or when there is no such
    route. *)
Theorem direct_route_for_host_best (clear_host : Z -> Z -> Z)
    (config : NMIP4Config) (host : Z) :
  match nm_ip4_config_get_direct_route_for_host clear_host config host with
  | Some found =>
      host <> 0
      /\ In found (routes config)
      /\ route_reaches clear_host host found
      /\ forall r, In r (routes config) -> route_reaches clear_host host r ->
           route_plen r < route_plen found
           \/ route_metric found <= route_metric r
  | None =>
      host = 0
      \/ forall r, In r (routes config) -> ~ route_reaches clear_host host r
  end.
Proof.
  unfold nm_ip4_config_get_direct_route_for_host.
  destruct (Z.eqb_spec host 0) as [E | E]; [ now left | ].
  pose proof (direct_route_loop_spec clear_host (routes config) host None)
    as H.
  destruct (direct_route_loop clear_host (routes config) host None)
    as [found |].
  - destruct H as ([? | [? ?]] & _ & Hall); [ discriminate | auto ].
  - right. apply H.
Qed.

(** ** Capture *)

Lemma fold_add_nonzero_length (xs l : list Z) :
  (List.length l <= List.length (fold_left array_add_nonzero xs l))%nat.
Proof.
  revert l. induction xs as [| x xs IH]; intros l; simpl; [ lia | ].
  etransitivity; [ | apply IH ].
  unfold array_add_nonzero, array_add_unique.
  destruct (x =? 0); [ lia | ].
  destruct (existsb (Z.eqb x) l); [ lia | ].
  rewrite length_app. simpl. lia.
Qed.

Lemma capture_resolv_conf_loop_fold (ns_array : list Z)
    (read_ns : list (option Z)) (changed : bool) :
  capture_resolv_conf_loop ns_array read_ns changed
  = (fold_left array_add_nonzero (parsed_nameservers read_ns) ns_array,
     changed
     || negb (Nat.eqb
                (List.length
                   (fold_left array_add_nonzero (parsed_nameservers read_ns)
                      ns_array))
                (List.length ns_array))).
Proof.
  revert ns_array changed.
  induction read_ns as [| [ns |] rest IH]; intros ns_array changed.
  - simpl. now rewrite Nat.eqb_refl, orb_false_r.
  - cbn [capture_resolv_conf_loop parsed_nameservers flat_map app fold_left].
    fold (parsed_nameservers rest).
    set (grown := array_add_nonzero ns_array ns).
    assert ((if ns =? 0
             then capture_resolv_conf_loop ns_array rest changed
             else if existsb (Z.eqb ns) ns_array
                  then capture_resolv_conf_loop ns_array rest changed
                  else capture_resolv_conf_loop (ns_array ++ [ns]) rest true)
            = capture_resolv_conf_loop grown rest
                (changed
                 || negb (Nat.eqb (List.length grown) (List.length ns_array))))
      as ->.
    { subst grown. unfold array_add_nonzero, array_add_unique.
      destruct (ns =? 0);
        [ now rewrite Nat.eqb_refl, orb_false_r | ].
      destruct (existsb (Z.eqb ns) ns_array);
        [ now rewrite Nat.eqb_refl, orb_false_r | ].
      rewrite length_app. simpl.
      destruct (Nat.eqb_spec (List.length ns_array + 1) (List.length ns_array));
        [ lia | ].
      simpl. now rewrite orb_true_r. }
    rewrite IH. f_equal.
    pose proof (fold_add_nonzero_length (parsed_nameservers rest) grown) as L.
    assert (List.length ns_array <= List.length grown)%nat as L'.
    { subst grown. unfold array_add_nonzero, array_add_unique.
      destruct (ns =? 0); [ lia | ].
      destruct (existsb (Z.eqb ns) ns_array); [ lia | ].
      rewrite length_app. lia. }
    destruct (Nat.eqb_spec (List.length grown) (List.length ns_array));
      destruct (Nat.eqb_spec
                  (List.length
                     (fold_left array_add_nonzero (parsed_nameservers rest)
                        grown)) (List.length grown));
      destruct (Nat.eqb_spec
                  (List.length
                     (fold_left array_add_nonzero (parsed_nameservers rest)
                        grown)) (List.length ns_array));
      destruct changed; simpl; try reflexivity; lia.
  - cbn [capture_resolv_conf_loop parsed_nameservers flat_map app].
    apply IH.
Qed.

(** [nm_ip4_config_capture_resolv_conf] adds the name servers that
    [inet_pton] could read as [nm_ip4_config_add_nameserver] would, one
    after the other: no zero, nothing that is in the array already.  It
    returns TRUE exactly when the array grew. *)
Theorem capture_resolv_conf_adds (ns_array : list Z)
    (read_ns : list (option Z)) :
  let result :=
    fold_left array_add_nonzero (parsed_nameservers read_ns) ns_array in
  nm_ip4_config_capture_resolv_conf ns_array (Some read_ns)
  = (result, negb (Nat.eqb (List.length result) (List.length ns_array)))
  /\ nameservers
       (fold_left nm_ip4_config_add_nameserver (parsed_nameservers read_ns)
          (with_nameservers nm_ip4_config_new ns_array))
     = result.
Proof.
  cbv zeta. split.
  - unfold nm_ip4_config_capture_resolv_conf.
    now rewrite capture_resolv_conf_loop_fold.
  - now rewrite fold_add_nameserver.
Qed.

Lemma capture_default_routes_none (items : list NMPlatformIP4Route)
    (gw lowest : Z) (has : bool) :
  existsb NM_PLATFORM_IP_ROUTE_IS_DEFAULT items = false ->
  capture_default_routes items gw lowest has = (items, gw, lowest, has).
Proof.
  induction items as [| r items IH]; simpl; [ reflexivity | ].
  intros H. apply orb_false_iff in H as [-> H].
  now rewrite IH.
Qed.

(** [nm_ip4_config_capture] gives nothing for an enslaved link.  For a
    link that is not enslaved and has no default route it gives the
    addresses and the routes of the platform as they are, no gateway and no
    name servers, whatever resolv.conf holds. *)
Theorem capture_without_default_route (platform : NMPlatform) (ifindex : Z)
    (capture_resolv_conf : bool) :
  (link_get_master platform ifindex > 0 ->
     nm_ip4_config_capture platform ifindex capture_resolv_conf = None)
  /\ (link_get_master platform ifindex <= 0 ->
      existsb NM_PLATFORM_IP_ROUTE_IS_DEFAULT
        (ip4_route_get_all platform ifindex) = false ->
      nm_ip4_config_capture platform ifindex capture_resolv_conf
      = Some (with_routes
                (with_addresses nm_ip4_config_new
                   (ip4_address_get_all platform ifindex))
                (ip4_route_get_all platform ifindex))).
Proof.
  unfold nm_ip4_config_capture. split.
  - intros H.
    destruct (Z.gtb_spec (link_get_master platform ifindex) 0);
      [ reflexivity | lia ].
  - intros H Hnone.
    destruct (Z.gtb_spec (link_get_master platform ifindex) 0); [ lia | ].
    rewrite capture_default_routes_none by exact Hnone.
    rewrite andb_false_r. reflexivity.
Qed.

(** ** Commit *)

(** [nm_ip4_config_commit] returns TRUE exactly when the interface index is
    positive and the platform accepts the routes.  With a positive index
    it synchronizes the addresses first and then the routes, also when the
    routes are then refused.  It sets the MTU of the link only after the
    routes were accepted, only to the MTU of the aggregate, and never to 0
    or to the MTU that the link already has. *)
Theorem commit_outcome (shift_out_of_range : Z -> Z -> Z)
    (platform : NMPlatform) (config : NMIP4Config)
    (ifindex default_route_metric : Z) :
  let result :=
    nm_ip4_config_commit shift_out_of_range platform config ifindex
      default_route_metric in
  (fst result = true
   <-> ifindex > 0
       /\ ip4_route_sync_succeeds platform ifindex
            (commit_routes shift_out_of_range config)
          = true)
  /\ (ifindex <= 0 -> snd result = [])
  /\ (ifindex > 0 ->
      exists rest,
        snd result
        = ip4_address_sync ifindex (addresses config) default_route_metric
          :: ip4_route_sync ifindex (commit_routes shift_out_of_range config)
          :: rest
        /\ (rest = [] \/ rest = [link_set_mtu ifindex (mtu config)]))
  /\ (forall i m, In (link_set_mtu i m) (snd result)
      <-> fst result = true /\ i = ifindex /\ m = mtu config /\ m <> 0
          /\ m <> link_get_mtu platform ifindex).
Proof.
  cbv zeta. unfold nm_ip4_config_commit.
  destruct (Z.gtb_spec ifindex 0) as [Hi | Hi]; cbn [negb].
  - cbv zeta.
    destruct (ip4_route_sync_succeeds platform ifindex
                (commit_routes shift_out_of_range config))
      eqn:S; cbn [negb].
    + assert (true = true <-> ifindex > 0 /\ true = true) as Hok
          by (split; [ intros _; split; [ lia | reflexivity ] | reflexivity ]).
      destruct (Z.eqb_spec (mtu config) 0) as [M | M]; cbn [negb andb];
        [ | destruct (Z.eqb_spec (mtu config) (link_get_mtu platform ifindex))
            as [L | L]; cbn [negb] ];
        cbn [fst snd app];
        (split; [ exact Hok | ]);
        (split; [ intros; lia | ]);
        (split; [ intros _; eexists; split; [ reflexivity | auto ] | ]);
        intros i m; simpl; split.
      * intros [H | [H | []]]; discriminate.
      * intros (_ & _ & -> & Hm & _). contradiction.
      * intros [H | [H | []]]; discriminate.
      * intros (_ & _ & -> & _ & Hl). contradiction.
      * intros [H | [H | [H | []]]]; try discriminate.
        injection H as <- <-. auto.
      * intros (_ & -> & -> & _). auto.
    + cbn [fst snd app].
      split; [ split; [ discriminate | intros [_ ?]; discriminate ] | ].
      split; [ intros; lia | ].
      split; [ intros _; eexists; split; [ reflexivity | auto ] | ].
      intros i m. simpl. split.
      * intros [? | [? | []]]; discriminate.
      * intros [? _]. discriminate.
  - cbn [fst snd].
    split; [ split; [ discriminate | intros [? _]; lia ] | ].
    split; [ reflexivity | ].
    split; [ intros; lia | ].
    intros i m. simpl. split; [ tauto | intros [? _]; discriminate ].
Qed.

(** ** Creating a setting *)

Lemma create_setting_addresses_spec (items : list NMPlatformIP4Address)
    (method : option ip4_method) :
  snd (create_setting_addresses items method)
  = filter (fun a => addr_lifetime a =? NM_PLATFORM_LIFETIME_PERMANENT) items
  /\ fst (create_setting_addresses items method)
     = if forallb (fun a => addr_lifetime a =? NM_PLATFORM_LIFETIME_PERMANENT)
            items
       then match items, method with
            | [], _ => method
            | _ :: _, None => Some NM_SETTING_IP4_CONFIG_METHOD_MANUAL
            | _ :: _, Some m => Some m
            end
       else Some NM_SETTING_IP4_CONFIG_METHOD_AUTO.
Proof.
  revert method. induction items as [| a rest IH]; intros method.
  - split; reflexivity.
  - cbn [create_setting_addresses filter forallb].
    destruct (addr_lifetime a =? NM_PLATFORM_LIFETIME_PERMANENT);
      cbn [negb andb].
    + cbv zeta.
      destruct (IH (match method with
                    | None => Some NM_SETTING_IP4_CONFIG_METHOD_MANUAL
                    | Some m => Some m
                    end)) as [Hs Hf].
      destruct (create_setting_addresses rest _) as [method' handed].
      cbn [fst snd] in *. split; [ now rewrite Hs | ].
      rewrite Hf.
      destruct (forallb _ rest); [ | reflexivity ].
      destruct rest, method; reflexivity.
    + destruct (IH (Some NM_SETTING_IP4_CONFIG_METHOD_AUTO)) as [Hs Hf].
      split; [ exact Hs | ].
      rewrite Hf. destruct (forallb _ rest); [ | reflexivity ].
      destruct rest; reflexivity.
Qed.

(** The method of the setting that [nm_ip4_config_create_setting] builds
    is "auto" as soon as one address is not permanent, "manual" when there
    are addresses and all are permanent, and "disabled" when there is no
    address or no aggregate.  The setting gets the permanent addresses
    only, and of the routes those that are not default routes and come
    from the user. *)
Theorem create_setting_method_cases (config : NMIP4Config) :
  let permanent a := addr_lifetime a =? NM_PLATFORM_LIFETIME_PERMANENT in
  create_setting_method (Some config)
  = (if negb (forallb permanent (addresses config))
     then NM_SETTING_IP4_CONFIG_METHOD_AUTO
     else if Nat.eqb (List.length (addresses config)) 0
          then NM_SETTING_IP4_CONFIG_METHOD_DISABLED
          else NM_SETTING_IP4_CONFIG_METHOD_MANUAL)
  /\ snd (create_setting_addresses (addresses config) None)
     = filter permanent (addresses config)
  /\ (forall route, In route (create_setting_routes config)
      <-> In route (routes config) /\ route_plen route <> 0
          /\ route_source route = NM_IP_CONFIG_SOURCE_USER)
  /\ create_setting_method None = NM_SETTING_IP4_CONFIG_METHOD_DISABLED.
Proof.
  cbv zeta.
  destruct (create_setting_addresses_spec (addresses config) None) as [Hs Hf].
  split; [ | split; [ exact Hs | split; [ | reflexivity ] ] ].
  - unfold create_setting_method. rewrite Hf.
    destruct (forallb _ (addresses config)); cbn [negb]; [ | reflexivity ].
    destruct (addresses config); reflexivity.
  - intros route. unfold create_setting_routes.
    rewrite filter_In, andb_true_iff, negb_true_iff, Z.eqb_neq, Z.eqb_eq.
    tauto.
Qed.

(** ** The legacy D-Bus properties *)

Lemma get_property_addresses_loop_later (items : list NMPlatformIP4Address)
    (i : nat) (gw : Z) :
  get_property_addresses_loop items (S i) gw
  = map (fun a => [addr_address a; addr_plen a; 0]) items.
Proof.
  revert i. induction items as [| a rest IH]; intros i; simpl;
    [ reflexivity | ].
  now rewrite IH.
Qed.

Lemma routes_without_default (items : list NMPlatformIP4Route) :
  Forall (fun r => route_plen r > 0) items ->
  filter (fun route => negb (NM_PLATFORM_IP_ROUTE_IS_DEFAULT route)) items
  = items.
Proof.
  intros H. apply forallb_filter_id. apply forallb_forall.
  rewrite Forall_forall in H. intros r Hr. specialize (H r Hr).
  unfold NM_PLATFORM_IP_ROUTE_IS_DEFAULT.
  destruct (Z.eqb_spec (route_plen r) 0); [ lia | reflexivity ].
Qed.

(** The property "Addresses" has one entry for every address and carries
    the gateway in the first entry only, so an aggregate without addresses
    exports no gateway this way.  The property "Routes" never holds a
    default route; for an aggregate that was built from the empty one by
    mutations it holds every route. *)
Theorem legacy_properties (config : NMIP4Config) (ms : list mutation) :
  get_property_addresses config
  = match addresses config with
    | [] => []
    | first :: rest =>
        [addr_address first; addr_plen first; gateway config]
        :: map (fun a => [addr_address a; addr_plen a; 0]) rest
    end
  /\ (forall entry, In entry (get_property_routes config) ->
        nth 1 entry 0 <> 0)
  /\ get_property_routes (apply_mutations nm_ip4_config_new ms)
     = map (fun route =>
              [route_network route; route_plen route; route_gateway route;
               route_metric route])
         (routes (apply_mutations nm_ip4_config_new ms)).
Proof.
  split; [ | split ].
  - unfold get_property_addresses.
    destruct (addresses config) as [| first rest]; [ reflexivity | ].
    cbn [get_property_addresses_loop Nat.eqb].
    now rewrite get_property_addresses_loop_later.
  - intros entry. unfold get_property_routes.
    rewrite in_map_iff. intros (r & <- & Hr).
    apply filter_In in Hr as [_ Hr].
    unfold NM_PLATFORM_IP_ROUTE_IS_DEFAULT in Hr.
    apply negb_true_iff, Z.eqb_neq in Hr. exact Hr.
  - unfold get_property_routes. rewrite routes_without_default;
      [ reflexivity | ].
    apply wf_route_plen, apply_mutations_well_formed, new_well_formed.
Qed.

(** ** The checksum only appends *)

Lemma fold_append {X : Type} (bytes : X -> list Z) (f : GChecksum -> X -> GChecksum)
    (xs : list X) (sum : GChecksum) :
  (forall s x, f s x = s ++ bytes x) ->
  fold_left f xs sum = sum ++ flat_map bytes xs.
Proof.
  intros Hf. revert sum. induction xs as [| x xs IH]; intros sum; simpl.
  - now rewrite app_nil_r.
  - now rewrite IH, Hf, <- app_assoc.
Qed.

Lemma hash_bytes (config : NMIP4Config) (sum : GChecksum) (dns_only : bool) :
  nm_ip4_config_hash config sum dns_only
  = sum
    ++ (if dns_only then []
        else guint32_bytes (gateway config)
             ++ flat_map (fun a => guint32_bytes (addr_address a)
                                   ++ guint32_bytes (addr_plen a))
                  (addresses config)
             ++ flat_map (fun r => guint32_bytes (route_network r)
                                   ++ guint32_bytes (route_plen r)
                                   ++ guint32_bytes (route_gateway r)
                                   ++ guint32_bytes (route_metric r))
                  (routes config)
             ++ flat_map guint32_bytes (nis config)
             ++ match nis_domain config with
                | Some s => string_bytes s
                | None => []
                end)
    ++ flat_map guint32_bytes (nameservers config)
    ++ flat_map guint32_bytes (wins config)
    ++ flat_map string_bytes (domains config)
    ++ flat_map string_bytes (searches config).
Proof.
  unfold nm_ip4_config_hash. cbv zeta.
  rewrite (fold_append string_bytes hash_str) by reflexivity.
  rewrite (fold_append string_bytes hash_str) by reflexivity.
  rewrite (fold_append guint32_bytes hash_u32) by reflexivity.
  rewrite (fold_append guint32_bytes hash_u32) by reflexivity.
  destruct dns_only; cbn [negb].
  - now rewrite <- !app_assoc.
  - rewrite (fold_append guint32_bytes hash_u32) by reflexivity.
    rewrite (fold_append
               (fun r => guint32_bytes (route_network r)
                         ++ guint32_bytes (route_plen r)
                         ++ guint32_bytes (route_gateway r)
                         ++ guint32_bytes (route_metric r)))
      by (intros s r; unfold hash_u32; now rewrite <- !app_assoc).
    rewrite (fold_append
               (fun a => guint32_bytes (addr_address a)
                         ++ guint32_bytes (addr_plen a)))
      by (intros s a; unfold hash_u32; now rewrite <- !app_assoc).
    destruct (nis_domain config) as [s |]; unfold hash_str, hash_u32;
      rewrite <- ?app_assoc; cbn [app]; reflexivity.
Qed.

(** [nm_ip4_config_hash] only appends to the checksum it is given.  With
    [dns_only] it appends the bytes of the name servers, of the WINS
    servers, of the domains and of the searches, in this order.  Without
    [dns_only] it appends the bytes of the gateway, of the address and
    prefix of every address, of the network, prefix, gateway and metric of
    every route, of the NIS servers and of the NIS domain, and behind them
    the same bytes as with [dns_only]. *)
Theorem hash_appends (config : NMIP4Config) (sum : GChecksum) :
  let dns_bytes :=
    flat_map guint32_bytes (nameservers config)
    ++ flat_map guint32_bytes (wins config)
    ++ flat_map string_bytes (domains config)
    ++ flat_map string_bytes (searches config) in
  nm_ip4_config_hash config sum true = sum ++ dns_bytes
  /\ nm_ip4_config_hash config sum false
     = sum
       ++ guint32_bytes (gateway config)
       ++ flat_map (fun a => guint32_bytes (addr_address a)
                             ++ guint32_bytes (addr_plen a))
            (addresses config)
       ++ flat_map (fun r => guint32_bytes (route_network r)
                             ++ guint32_bytes (route_plen r)
                             ++ guint32_bytes (route_gateway r)
                             ++ guint32_bytes (route_metric r))
            (routes config)
       ++ flat_map guint32_bytes (nis config)
       ++ match nis_domain config with
          | Some s => string_bytes s
          | None => []
          end
       ++ dns_bytes.
Proof.
  cbv zeta. rewrite !hash_bytes. split.
  - reflexivity.
  - now rewrite <- !app_assoc.
Qed.

(** [nm_ip4_config_equal] compares the gateway, the identities of the
    addresses, the network, prefix, gateway and metric of the routes, the
    NIS servers and domain, the name servers, the WINS servers, the domains
    and the searches.  Aggregates that agree on these are equal for it,
    whatever their paths, default-route flags, MSS and MTU, and whatever the
    sources, lifetimes and labels of their addresses and routes. *)
Theorem equal_reads_identities (a b : NMIP4Config) :
  gateway a = gateway b ->
  map address_identity (addresses a) = map address_identity (addresses b) ->
  map (fun r => (route_network r, route_plen r, route_gateway r,
                 route_metric r)) (routes a)
  = map (fun r => (route_network r, route_plen r, route_gateway r,
                   route_metric r)) (routes b) ->
  nis a = nis b ->
  nis_domain a = nis_domain b ->
  nameservers a = nameservers b ->
  wins a = wins b ->
  domains a = domains b ->
  searches a = searches b ->
  nm_ip4_config_equal (Some a) (Some b) = true.
Proof.
  intros Hg Ha Hr Hn Hd Hns Hw Hdo Hs.
  apply equal_of_hash. apply hash_fields; try assumption.
  now rewrite Hd.
Qed.

(** ** Direct destinations *)

(** A destination is direct when an address of the aggregate covers it
    with a prefix that is not longer.  So the address of every stored
    address is direct under its own or a longer prefix, and a direct
    destination stays direct under any longer prefix. *)
Theorem destination_is_direct_longer (shift_out_of_range : Z -> Z -> Z)
    (config : NMIP4Config)
    (network plen plen' : Z) :
  (forall item, In item (addresses config) -> addr_plen item <= plen ->
     nm_ip4_config_destination_is_direct shift_out_of_range config
       (addr_address item) plen
     = true)
  /\ (nm_ip4_config_destination_is_direct shift_out_of_range config network
        plen = true ->
      plen <= plen' ->
      nm_ip4_config_destination_is_direct shift_out_of_range config network
        plen' = true).
Proof.
  unfold nm_ip4_config_destination_is_direct. split.
  - intros item Hin Hp. apply existsb_exists. exists item.
    split; [ exact Hin | ].
    apply andb_true_iff. split; [ now apply Z.leb_le | ].
    unfold same_prefix. apply Z.eqb_refl.
  - intros H Hp. apply existsb_exists in H as (item & Hin & H).
    apply andb_true_iff in H as [H1 H2]. apply Z.leb_le in H1.
    apply existsb_exists. exists item. split; [ exact Hin | ].
    apply andb_true_iff. split; [ apply Z.leb_le; lia | exact H2 ].
Qed.

(** ** The properties at concrete aggregates *)

Ltac distinct_entries :=
  repeat constructor; vm_compute; intuition discriminate.

Lemma capture_extracts_default_routes_witness :
  exists config,
    nm_ip4_config_capture CaptureExample.platform 2 false = Some config
    /\ (forall r, In r (routes config) <->
          In r (ip4_route_get_all CaptureExample.platform 2)
          /\ route_plen r <> 0
          /\ ~ (route_plen r = 32 /\ route_network r = gateway config
                /\ route_gateway r = 0))
    /\ ((exists r, In r (ip4_route_get_all CaptureExample.platform 2)
           /\ route_plen r = 0 /\ route_metric r < G_MAXUINT32) ->
        exists r, In r (ip4_route_get_all CaptureExample.platform 2)
          /\ route_plen r = 0
          /\ gateway config = route_gateway r
          /\ forall r', In r' (ip4_route_get_all CaptureExample.platform 2) ->
               route_plen r' = 0 -> route_metric r <= route_metric r').
Proof.
  apply (capture_extracts_default_routes CaptureExample.platform 2 false).
  - vm_compute. discriminate.
  - reflexivity.
Defined.

Lemma no_relevant_change_equal_witness :
  nm_ip4_config_equal (Some ReplaceExample.dst) (Some ReplaceExample.src)
  = true.
Proof.
  apply (no_relevant_change_equal ReplaceExample.dst ReplaceExample.src).
  reflexivity.
Defined.

Lemma mutations_keep_well_formed_witness :
  well_formed
    (apply_mutations CancellationExample.C
       [M_add_nameserver 0; M_merge CancellationExample.A; M_del_route 0]).
Proof.
  apply (mutations_keep_well_formed CancellationExample.C).
  constructor; distinct_entries.
Defined.

Lemma replace_unchanged_iff_agree_witness :
  nm_ip4_config_replace ReplaceExample.full ReplaceExample.full
  = Some (mkResult ReplaceExample.full false false).
Proof.
  apply (proj1 (replace_unchanged_iff_agree ReplaceExample.full
                  ReplaceExample.full)).
  unfold compared_fields_agree. repeat split.
Defined.

Lemma replace_installs_source_witness :
  rs_dst (replace_steps nm_ip4_config_new ReplaceExample.full)
  = ReplaceExample.full.
Proof.
  apply (replace_installs_source nm_ip4_config_new ReplaceExample.full).
  constructor; distinct_entries.
Defined.

Lemma replace_twice_witness :
  nm_ip4_config_replace InstallExample.installed ReplaceExample.full
  = Some (mkResult InstallExample.installed
            (negb (mtu ReplaceExample.full =? mtu InstallExample.installed))
            false).
Proof.
  apply (replace_twice nm_ip4_config_new ReplaceExample.full).
  constructor; distinct_entries.
Defined.

Lemma replace_counts_mtu_it_keeps_witness :
  has_changes (replace_steps Examples.dhcp_mtu MtuExample.kernel_mtu) = true
  /\ mtu (rs_dst (replace_steps Examples.dhcp_mtu MtuExample.kernel_mtu))
     = mtu Examples.dhcp_mtu
  /\ mtu_source (rs_dst (replace_steps Examples.dhcp_mtu MtuExample.kernel_mtu))
     = mtu_source Examples.dhcp_mtu.
Proof.
  apply (replace_counts_mtu_it_keeps Examples.dhcp_mtu MtuExample.kernel_mtu).
  - vm_compute. discriminate.
  - reflexivity.
Defined.


Lemma subtract_scalar_fields_witness :
  mtu (nm_ip4_config_subtract Examples.dhcp_mtu Examples.dhcp_mtu)
  = mtu Examples.dhcp_mtu.
Proof.
  apply (subtract_scalar_fields Examples.dhcp_mtu Examples.dhcp_mtu).
  right. reflexivity.
Defined.

Lemma added_address_exists_witness :
  nm_ip4_config_address_exists
    (nm_ip4_config_add_address IdempotenceExample.config
       CancellationExample.other)
    IdempotenceExample.old
  = nm_ip4_config_address_exists IdempotenceExample.config
      IdempotenceExample.old.
Proof.
  apply (proj2 (added_address_exists IdempotenceExample.config
                  CancellationExample.other)).
  vm_compute. discriminate.
Defined.

Lemma capture_without_default_route_witness :
  nm_ip4_config_capture InstallExample.platform 2 true
  = Some (with_routes
            (with_addresses nm_ip4_config_new
               (ip4_address_get_all InstallExample.platform 2))
            (ip4_route_get_all InstallExample.platform 2)).
Proof.
  apply (proj2 (capture_without_default_route InstallExample.platform 2 true)).
  - vm_compute. discriminate.
  - reflexivity.
Defined.

Lemma equal_reads_identities_witness :
  nm_ip4_config_equal (Some Examples.dhcp_mtu) (Some CancellationExample.A)
  = false
  /\ nm_ip4_config_equal (Some Examples.dhcp_mtu) (Some nm_ip4_config_new)
     = true.
Proof.
  split; [ vm_compute; reflexivity | ].
  apply (equal_reads_identities Examples.dhcp_mtu nm_ip4_config_new);
    reflexivity.
Defined.

Lemma destination_is_direct_longer_witness :
  nm_ip4_config_destination_is_direct PrefixZeroExample.count_modulo_32
    CommitExample.config
    (inet_addr 10 0 0 0) 32
  = true.
Proof.
  apply (proj2 (destination_is_direct_longer
                  PrefixZeroExample.count_modulo_32 CommitExample.config
                  (inet_addr 10 0 0 0) 24 32)).
  - reflexivity.
  - vm_compute. discriminate.
Defined.
